(** * The connection core of arangojs (src/connection.ts)

    A shallow embedding of the [Connection] class: the host registry
    ([addToHostList], [_sanitizeEndpointUrl]), the constructor, the
    scheduler ([_runQueue] and the completion callback it installs), the
    request encoder and the response classifier ([request] and the
    [resolve] continuation it builds).

    The mutable fields of the class are the fields of the record
    [Connection]; methods are state transformers in a small state and
    exception monad, because a JavaScript exception leaves the mutations
    made before it in place.  The host transport is the environment: a
    call issued by [_runQueue] stays pending until the environment
    completes it with a transport error or a response, once, and not
    from inside the call that issued it.  A call of the caller's errback
    is recorded; what the caller does in it (a further [request], say) is
    the event that follows. *)

From Stdlib Require Import ZArith String Ascii List Lia Bool DecimalString.
From stdpp Require Import base option list strings gmap.

Set Warnings "-register-all".
Open Scope Z_scope.

(** ** JavaScript values *)

Module JS.

(** Numbers: the integer-valued doubles and NaN.  NaN is needed because
    the code's own arithmetic produces it ([x % 0]); fractions and the
    infinities can only come in from the caller and are left out. *)
Inductive jsnum : Type :=
| Num (z : Z)
| NaN.

(** Plain data values, as [any] is used for request bodies, decoded JSON
    and the entries of [agentOptions]. *)
Inductive jsval : Type :=
| JUndefined
| JNull
| JBool (b : bool)
| JNum (n : jsnum)
| JStr (s : string)
| JArr (elems : list jsval)
| JObj (fields : list (string * jsval)).

Definition jsnum_eqb (a b : jsnum) : bool :=
  match a, b with
  | Num x, Num y => x =? y
  | _, _ => false
  end.

(** [a === b] on numbers: NaN is not equal to itself. *)
Definition strict_eq (a b : jsnum) : bool := jsnum_eqb a b.

(** [a + 1] *)
Definition add1 (a : jsnum) : jsnum :=
  match a with
  | Num x => Num (x + 1)
  | NaN => NaN
  end.

(** [a % b]: the sign follows the dividend; a zero divisor gives NaN. *)
Definition rem (a b : jsnum) : jsnum :=
  match a, b with
  | Num x, Num y => if y =? 0 then NaN else Num (Z.rem x y)
  | _, _ => NaN
  end.

(** [a * b] *)
Definition mul (a b : jsnum) : jsnum :=
  match a, b with
  | Num x, Num y => Num (x * y)
  | _, _ => NaN
  end.

(** [a >= b]: false as soon as one side is NaN. *)
Definition ge (a b : jsnum) : bool :=
  match a, b with
  | Num x, Num y => y <=? x
  | _, _ => false
  end.

(** ToBoolean *)
Definition truthy (v : jsval) : bool :=
  match v with
  | JUndefined | JNull => false
  | JBool b => b
  | JNum (Num z) => negb (z =? 0)
  | JNum NaN => false
  | JStr s => negb (String.eqb s "")
  | JArr _ | JObj _ => true
  end.

(** [a || b] *)
Definition or_else (a b : jsval) : jsval := if truthy a then a else b.

(** [typeof v === "object"] *)
Definition typeof_object (v : jsval) : bool :=
  match v with
  | JNull | JArr _ | JObj _ => true
  | _ => false
  end.

(** Decimal notation of an integer, as [String(n)] prints it. *)
Definition string_of_Z (z : Z) : string := NilZero.string_of_int (Z.to_int z).

Definition string_of_jsnum (n : jsnum) : string :=
  match n with
  | Num z => string_of_Z z
  | NaN => "NaN"
  end.

(** Own enumerable properties of an object literal: [o[k]], [undefined]
    when the key is absent.  The first binding of a key is its value. *)
Fixpoint assoc (k : string) (fields : list (string * jsval)) : option jsval :=
  match fields with
  | [] => None
  | (k', v) :: rest => if String.eqb k' k then Some v else assoc k rest
  end.

Definition has_key (k : string) (fields : list (string * jsval)) : bool :=
  match assoc k fields with
  | Some _ => true
  | None => false
  end.

(** [a.join(sep)] on an array of strings-or-undefined: an undefined
    element contributes the empty string. *)
Fixpoint join (sep : string) (parts : list (option string)) : string :=
  match parts with
  | [] => ""
  | [p] => default "" p
  | p :: rest => default "" p +:+ sep +:+ join sep rest
  end.

(** [l.indexOf(x)] on an array of strings: first position, or -1. *)
Fixpoint indexOf_from (i : Z) (l : list string) (x : string) : Z :=
  match l with
  | [] => -1
  | y :: rest => if String.eqb y x then i else indexOf_from (i + 1) rest x
  end.

Definition indexOf (l : list string) (x : string) : Z := indexOf_from 0 l x.

(** [l[i]] *)
Definition nth_js {A} (l : list A) (i : jsnum) : option A :=
  match i with
  | Num z => if z <? 0 then None else l !! Z.to_nat z
  | NaN => None
  end.

(** [s.slice(n)] *)
Fixpoint string_drop (n : nat) (s : string) : string :=
  match n, s with
  | O, _ => s
  | S n', String _ rest => string_drop n' rest
  | S _, EmptyString => EmptyString
  end.

End JS.

Import JS.

(** ** What the code takes from its runtime and from the modules it imports *)

(** [JSON.parse] throws on malformed input ([None]); [JSON.stringify]
    returns [undefined] for values that have no JSON text ([None]).
    [isBrowser] and [byteLength] come from the util modules, and
    [querystringify] from the querystring package.  [byteLength] is
    taken as a function on every value; on a string it is the length of
    the encoded text, and what the helper does on a value that is
    neither a string nor a Buffer is not modelled. *)
Class Runtime : Type := {
  isBrowser : bool;
  JSON_parse : string -> option jsval;
  JSON_stringify : jsval -> option string;
  Buffer_toString : string -> string;
  byteLength : jsval -> Z;
  querystringify : list (string * jsval) -> string;
  ToNumber_rt : jsval -> jsnum;
  ToString_rt : jsval -> string
}.

(** ** Data model *)

Inductive LoadBalancingStrategy : Type := NONE | ROUND_ROBIN | ONE_RANDOM.

Definition strategy_eqb (a b : LoadBalancingStrategy) : bool :=
  match a, b with
  | NONE, NONE | ROUND_ROBIN, ROUND_ROBIN | ONE_RANDOM, ONE_RANDOM => true
  | _, _ => false
  end.

(** The [agent] option is an opaque function handed on to the transport. *)
Definition Agent : Type := nat.

(** A transport handle is what [createRequest] was called with. *)
Inductive RequestFunction : Type :=
| createRequest (url : string) (agentOptions : gmap string jsval) (agent : option Agent).

Record Url : Type := { pathname : string; search : option string }.

Record UrlInfo : Type := {
  ui_absolutePath : option bool;
  ui_basePath : option string;
  ui_path : option string;
  ui_qs : option (string + list (string * jsval))
}.

Record RequestOptions : Type := {
  ro_host : option jsnum;
  ro_method : option string;
  ro_body : jsval;
  ro_expectBinary : option bool;
  ro_isBinary : option bool;
  ro_isJsonStream : option bool;
  ro_headers : option (gmap string string);
  ro_urlInfo : UrlInfo
}.

Record TaskOptions : Type := {
  method : string;
  expectBinary : bool;
  url : Url;
  headers : gmap string string;
  body : jsval
}.

(** [resolve] and [reject] are closures over the caller's errback [cb]
    and over [expectBinary], which [options] holds too; the errback is
    named by a number. *)
Record Task : Type := {
  host : option jsnum;
  cb : nat;
  options : TaskOptions
}.

Record ConfigObject : Type := {
  cfg_url : option (string + list string);
  cfg_isAbsolute : bool;
  cfg_arangoVersion : option Z;
  cfg_loadBalancingStrategy : option LoadBalancingStrategy;
  cfg_agent : option Agent;
  cfg_agentOptions : option (gmap string jsval);
  cfg_headers : option (gmap string string)
}.

Inductive Config : Type :=
| ConfigString (url : string)
| ConfigArray (urls : list string)
| ConfigObj (c : ConfigObject).

Record Connection : Type := {
  _activeTasks : Z;
  _agent : option Agent;
  _agentOptions : gmap string jsval;
  _arangoVersion : Z;
  _databaseName : option string;
  _headers : gmap string string;
  _loadBalancingStrategy : LoadBalancingStrategy;
  _useFailOver : bool;
  _maxTasks : jsval;
  _queue : list Task;
  _hosts : list RequestFunction;
  _urls : list string;
  _activeHost : jsnum
}.

(** ** Host registry *)

Definition _sanitizeEndpointUrl (url : string) : string :=
  if String.prefix "tcp:" url then "http:" +:+ string_drop 4 url
  else if String.prefix "ssl:" url then "https:" +:+ string_drop 4 url
  else url.

(** [Array.isArray(urls) ? urls : [urls]] *)
Definition as_array (urls : string + list string) : list string :=
  match urls with
  | inl u => [u]
  | inr us => us
  end.

Definition set_registry (c : Connection) (urls : list string)
    (hosts : list RequestFunction) : Connection :=
  {| _activeTasks := _activeTasks c; _agent := _agent c;
     _agentOptions := _agentOptions c; _arangoVersion := _arangoVersion c;
     _databaseName := _databaseName c; _headers := _headers c;
     _loadBalancingStrategy := _loadBalancingStrategy c;
     _useFailOver := _useFailOver c; _maxTasks := _maxTasks c;
     _queue := _queue c; _hosts := hosts; _urls := urls;
     _activeHost := _activeHost c |}.

Definition addToHostList (urls : string + list string) (c : Connection)
    : Connection * list Z :=
  let cleanUrls := map _sanitizeEndpointUrl (as_array urls) in
  let newUrls := filter (fun u => indexOf (_urls c) u = -1) cleanUrls in
  let urls' := _urls c ++ newUrls in
  let hosts' :=
    _hosts c ++ map (fun u => createRequest u (_agentOptions c) (_agent c)) newUrls in
  (set_registry c urls' hosts', map (fun u => indexOf urls' u) cleanUrls).


(** *** Field updates of [Connection] *)

Definition set_activeTasks (n : Z) (c : Connection) : Connection :=
  {| _activeTasks := n; _agent := _agent c;
     _agentOptions := _agentOptions c; _arangoVersion := _arangoVersion c;
     _databaseName := _databaseName c; _headers := _headers c;
     _loadBalancingStrategy := _loadBalancingStrategy c;
     _useFailOver := _useFailOver c; _maxTasks := _maxTasks c;
     _queue := _queue c; _hosts := _hosts c; _urls := _urls c;
     _activeHost := _activeHost c |}.

Definition set_queue (q : list Task) (c : Connection) : Connection :=
  {| _activeTasks := _activeTasks c; _agent := _agent c;
     _agentOptions := _agentOptions c; _arangoVersion := _arangoVersion c;
     _databaseName := _databaseName c; _headers := _headers c;
     _loadBalancingStrategy := _loadBalancingStrategy c;
     _useFailOver := _useFailOver c; _maxTasks := _maxTasks c;
     _queue := q; _hosts := _hosts c; _urls := _urls c;
     _activeHost := _activeHost c |}.

Definition set_activeHost (h : jsnum) (c : Connection) : Connection :=
  {| _activeTasks := _activeTasks c; _agent := _agent c;
     _agentOptions := _agentOptions c; _arangoVersion := _arangoVersion c;
     _databaseName := _databaseName c; _headers := _headers c;
     _loadBalancingStrategy := _loadBalancingStrategy c;
     _useFailOver := _useFailOver c; _maxTasks := _maxTasks c;
     _queue := _queue c; _hosts := _hosts c; _urls := _urls c;
     _activeHost := h |}.

Definition set_headers (hs : gmap string string) (c : Connection) : Connection :=
  {| _activeTasks := _activeTasks c; _agent := _agent c;
     _agentOptions := _agentOptions c; _arangoVersion := _arangoVersion c;
     _databaseName := _databaseName c; _headers := hs;
     _loadBalancingStrategy := _loadBalancingStrategy c;
     _useFailOver := _useFailOver c; _maxTasks := _maxTasks c;
     _queue := _queue c; _hosts := _hosts c; _urls := _urls c;
     _activeHost := _activeHost c |}.

Definition set_databaseName (n : option string) (c : Connection) : Connection :=
  {| _activeTasks := _activeTasks c; _agent := _agent c;
     _agentOptions := _agentOptions c; _arangoVersion := _arangoVersion c;
     _databaseName := n; _headers := _headers c;
     _loadBalancingStrategy := _loadBalancingStrategy c;
     _useFailOver := _useFailOver c; _maxTasks := _maxTasks c;
     _queue := _queue c; _hosts := _hosts c; _urls := _urls c;
     _activeHost := _activeHost c |}.

Definition set_host (h : option jsnum) (t : Task) : Task :=
  {| host := h; cb := cb t; options := options t |}.

(** ** Responses and what the caller's errback receives *)

(** A response body as the transport hands it over: a Buffer (its bytes)
    or a string. *)
Inductive ResBody : Type :=
| BufferBody (bytes : string)
| StringBody (s : string).

(** The value of [parsedBody], and of [res.body] once it is delivered:
    a data value or the untouched Buffer. *)
Inductive Parsed : Type :=
| PVal (v : jsval)
| PBuffer (bytes : string).

Record Response (B : Type) : Type := {
  statusCode : option Z;
  res_headers : gmap string string;
  res_body : B;
  res_host : option jsnum
}.
Arguments statusCode {B} _.
Arguments res_headers {B} _.
Arguments res_body {B} _.
Arguments res_host {B} _.

Definition with_body {A B} (b : B) (r : Response A) : Response B :=
  {| statusCode := statusCode r; res_headers := res_headers r;
     res_body := b; res_host := res_host r |}.

Definition with_host {B} (h : jsnum) (r : Response B) : Response B :=
  {| statusCode := statusCode r; res_headers := res_headers r;
     res_body := res_body r; res_host := Some h |}.

(** The error object of a failed transport call. *)
Definition JsError : Type := string.

(** The one call of the errback that ends a task:
    [cb(null, res)], [cb(new ArangoError(res))], [cb(new HttpError(res))],
    [cb(e)] for the [SyntaxError] [e] of [JSON.parse] with
    [e.response = res], and [cb(err)] for a transport error. *)
Inductive Outcome : Type :=
| Success (res : Response Parsed)
| ArangoError (res : Response Parsed)
| HttpError (res : Response Parsed)
| ParseError (res : Response ResBody)
| TransportError (err : JsError).

Definition is_error (o : Outcome) : bool :=
  match o with
  | Success _ => false
  | _ => true
  end.

(** ** The connection in its environment *)

(** [pending] holds the transport calls that have not completed, each
    with the [task] and [host] its completion callback closes over;
    [issued] is the history of transport calls, oldest first;
    [delivered] is the history of errback calls, oldest first. *)
Record World : Type := {
  conn : Connection;
  pending : list (Task * jsnum);
  issued : list (jsnum * Task);
  delivered : list (nat * Outcome)
}.

Inductive Exn : Type :=
| TypeError (msg : string)
| PlainError (msg : string).

Inductive Result (A : Type) : Type :=
| Ok (a : A)
| Throw (e : Exn).
Arguments Ok {A} _.
Arguments Throw {A} _.

(** State and exceptions: a thrown exception keeps the state reached. *)
Definition M (A : Type) : Type := World -> Result A * World.

Definition ret {A} (a : A) : M A := fun w => (Ok a, w).

Definition bind {A B} (m : M A) (k : A -> M B) : M B :=
  fun w =>
    match m w with
    | (Ok a, w') => k a w'
    | (Throw e, w') => (Throw e, w')
    end.

Definition throw {A} (e : Exn) : M A := fun w => (Throw e, w).

Definition get_conn : M Connection := fun w => (Ok (conn w), w).

Definition modify_conn (f : Connection -> Connection) : M unit :=
  fun w =>
    (Ok tt, {| conn := f (conn w); pending := pending w;
               issued := issued w; delivered := delivered w |}).

(** [this._hosts[host](task.options, callback)] with a transport handle
    at hand: the call is out, its callback not yet run. *)
Definition issue_call (h : jsnum) (t : Task) : M unit :=
  fun w =>
    (Ok tt, {| conn := conn w; pending := pending w ++ [(t, h)];
               issued := issued w ++ [(h, t)]; delivered := delivered w |}).

(** [cb(...)] *)
Definition deliver (k : nat) (o : Outcome) : M unit :=
  fun w =>
    (Ok tt, {| conn := conn w; pending := pending w;
               issued := issued w; delivered := delivered w ++ [(k, o)] |}).

(** Lifting of a result that needs no state. *)
Definition lift {A} (r : Result A) : M A := fun w => (r, w).

Notation "x <- m ;; k" := (bind m (fun x => k))
  (at level 100, m at next level, right associativity).
Notation "m ;;; k" := (bind m (fun _ => k))
  (at level 100, right associativity).

Definition exec {A} (m : M A) (w : World) : World := snd (m w).

(** ** The methods of [Connection] *)

Definition CRLF : string := String (ascii_of_nat 13) (String (ascii_of_nat 10) "").

Definition MIME_octet : string := "application/octet-stream".
Definition MIME_ldjson : string := "application/x-ldjson".
Definition MIME_json : string := "application/json".
Definition MIME_text : string := "text/plain".
Definition LEADER_ENDPOINT_HEADER : string := "x-arango-endpoint".

(** [\w] of a regular expression. *)
Definition is_word_char (a : ascii) : bool :=
  let n := nat_of_ascii a in
  ((48 <=? n) && (n <=? 57))%nat || ((65 <=? n) && (n <=? 90))%nat
  || ((97 <=? n) && (n <=? 122))%nat || (n =? 95)%nat.

(** [(\W|$)] at the head of [s]. *)
Definition at_word_boundary (s : string) : bool :=
  match s with
  | EmptyString => true
  | String a _ => negb (is_word_char a)
  end.

(** [(json|javascript)(\W|$)] at the head of [s]. *)
Definition json_token_at (s : string) : bool :=
  (String.prefix "json" s && at_word_boundary (string_drop 4 s))
  || (String.prefix "javascript" s && at_word_boundary (string_drop 10 s)).

(** [s.match(MIME_JSON)] is not null, for
    [MIME_JSON = /\/(json|javascript)(\W|$)/]. *)
Fixpoint matches_MIME_JSON (s : string) : bool :=
  match s with
  | EmptyString => false
  | String a rest =>
      (Ascii.eqb a "/" && json_token_at rest) || matches_MIME_JSON rest
  end.

(** [{ ...o }] for an optional object. *)
Definition spread {V} (o : option (gmap string V)) : gmap string V :=
  default ∅ o.

(** [o[k]] on [agentOptions]. *)
Definition prop (o : gmap string jsval) (k : string) : jsval :=
  default JUndefined (o !! k).

Definition default_agentOptions : gmap string jsval :=
  <["maxSockets" := JNum (Num 3)]>
    (<["keepAlive" := JBool true]>
       (<["keepAliveMsecs" := JNum (Num 1000)]> ∅)).

Definition config_object (config : option Config) : ConfigObject :=
  let empty :=
    {| cfg_url := None; cfg_isAbsolute := false; cfg_arangoVersion := None;
       cfg_loadBalancingStrategy := None; cfg_agent := None;
       cfg_agentOptions := None; cfg_headers := None |} in
  match config with
  | None => empty
  | Some (ConfigString u) =>
      {| cfg_url := Some (inl u); cfg_isAbsolute := false; cfg_arangoVersion := None;
         cfg_loadBalancingStrategy := None; cfg_agent := None;
         cfg_agentOptions := None; cfg_headers := None |}
  | Some (ConfigArray us) =>
      {| cfg_url := Some (inr us); cfg_isAbsolute := false; cfg_arangoVersion := None;
         cfg_loadBalancingStrategy := None; cfg_agent := None;
         cfg_agentOptions := None; cfg_headers := None |}
  | Some (ConfigObj o) => o
  end.

(** [config.url ? (Array.isArray(config.url) ? config.url : [config.url])
     : ["http://localhost:8529"]] *)
Definition config_urls (u : option (string + list string)) : list string :=
  match u with
  | Some (inr us) => us
  | Some (inl s) => if String.eqb s "" then ["http://localhost:8529"] else [s]
  | None => ["http://localhost:8529"]
  end.

Section Model.

Context `{Runtime}.

(** ToNumber: on strings and objects it is the runtime's. *)
Definition to_number (v : jsval) : jsnum :=
  match v with
  | JUndefined => NaN
  | JNull => Num 0
  | JBool b => Num (if b then 1 else 0)
  | JNum n => n
  | JStr _ | JArr _ | JObj _ => ToNumber_rt v
  end.

(** [String(v)]: on objects it is the runtime's. *)
Definition to_String (v : jsval) : string :=
  match v with
  | JUndefined => "undefined"
  | JNull => "null"
  | JBool b => if b then "true" else "false"
  | JNum n => string_of_jsnum n
  | JStr s => s
  | JArr _ | JObj _ => ToString_rt v
  end.

(** [this._agentOptions] of the constructor. *)
Definition merged_agentOptions (o : option (gmap string jsval)) : gmap string jsval :=
  if isBrowser then spread o else spread o ∪ default_agentOptions.

(** [this._maxTasks] of the constructor:
    [this._maxTasks = this._agentOptions.maxSockets || 3;
     if (this._agentOptions.keepAlive) this._maxTasks *= 2;] *)
Definition initial_maxTasks (agentOptions : gmap string jsval) : jsval :=
  let maxTasks := or_else (prop agentOptions "maxSockets") (JNum (Num 3)) in
  if truthy (prop agentOptions "keepAlive")
  then JNum (mul (to_number maxTasks) (Num 2))
  else maxTasks.

(** [new Connection(config)]; [draw] is the value of
    [Math.floor(Math.random() * this._hosts.length)], used under
    ONE_RANDOM only. *)
Definition constructor (config : option Config) (draw : Z) : Connection :=
  let config := config_object config in
  let agentOptions := merged_agentOptions (cfg_agentOptions config) in
  let strategy := default NONE (cfg_loadBalancingStrategy config) in
  let this :=
    {| _activeTasks := 0;
       _agent := cfg_agent config;
       _agentOptions := agentOptions;
       _arangoVersion := default 30000 (cfg_arangoVersion config);
       _databaseName := if cfg_isAbsolute config then None else Some "_system";
       _headers := spread (cfg_headers config);
       _loadBalancingStrategy := strategy;
       _useFailOver := negb (strategy_eqb strategy ROUND_ROBIN);
       _maxTasks := initial_maxTasks agentOptions;
       _queue := [];
       _hosts := [];
       _urls := [];
       _activeHost := Num 0 |} in
  let this := fst (addToHostList (inr (config_urls (cfg_url config))) this) in
  if strategy_eqb strategy ONE_RANDOM
  then set_activeHost (Num draw) this
  else set_activeHost (Num 0) this.

Definition initial_world (config : option Config) (draw : Z) : World :=
  {| conn := constructor config draw; pending := []; issued := []; delivered := [] |}.

(** [this._activeHost = (this._activeHost + 1) % this._hosts.length] *)
Definition advance_activeHost (c : Connection) : Connection :=
  set_activeHost
    (rem (add1 (_activeHost c)) (Num (Z.of_nat (length (_hosts c))))) c.

(** [_runQueue]: at most one task leaves the queue per call.  A [host]
    that names no transport handle makes the call expression throw, after
    the task was taken and counted. *)
Definition _runQueue : M unit :=
  this <- get_conn ;;
  match _queue this with
  | [] => ret tt
  | task :: rest =>
      if ge (Num (_activeTasks this)) (to_number (_maxTasks this)) then ret tt
      else
        modify_conn (set_queue rest) ;;;
        let host_ :=
          match host task with
          | Some h => h
          | None => _activeHost this
          end in
        (match host task with
         | Some _ => ret tt
         | None =>
             if strategy_eqb (_loadBalancingStrategy this) ROUND_ROBIN
             then modify_conn advance_activeHost
             else ret tt
         end) ;;;
        modify_conn (fun c => set_activeTasks (_activeTasks c + 1) c) ;;;
        match nth_js (_hosts this) host_ with
        | Some _ => issue_call host_ task
        | None => throw (TypeError "this._hosts[host] is not a function")
        end
  end.

(** [get _databasePath] *)
Definition _databasePath (c : Connection) : string :=
  match _databaseName c with
  | None => ""
  | Some name => "/_db/" +:+ name
  end.

Definition or_empty (o : option string) : string :=
  default "" o.

Definition _buildUrl (c : Connection) (info : UrlInfo) : Url :=
  let absolutePath := default false (ui_absolutePath info) in
  let pathname :=
    (if absolutePath then "" else _databasePath c +:+ or_empty (ui_basePath info))
    +:+ or_empty (ui_path info) in
  let search :=
    match ui_qs info with
    | Some (inl qs) => if String.eqb qs "" then None else Some ("?" +:+ qs)
    | Some (inr qs) => Some ("?" +:+ querystringify qs)
    | None => None
    end in
  {| pathname := pathname; search := search |}.

(** The body and content type that [request] settles on.  With
    [isJsonStream] the body must have a [map] method; on a data value
    only an array has one. *)
Definition encode_body (isBinary isJsonStream : bool) (body : jsval)
    : Result (jsval * string) :=
  if isBinary then Ok (body, MIME_octet)
  else if truthy body then
    if typeof_object body then
      if isJsonStream then
        match body with
        | JArr elems =>
            Ok (JStr (join CRLF (map JSON_stringify elems) +:+ CRLF), MIME_ldjson)
        | _ => Throw (TypeError "body.map is not a function")
        end
      else
        Ok (match JSON_stringify body with
            | Some s => JStr s
            | None => JUndefined
            end, MIME_json)
    else Ok (JStr (to_String body), MIME_text)
  else Ok (body, MIME_text).

(** [extraHeaders], with [content-length] outside the browser. *)
Definition extraHeaders (c : Connection) (contentType : string) (body : jsval)
    : gmap string string :=
  let hs :=
    <["x-arango-version" := string_of_Z (_arangoVersion c)]>
      (<["content-type" := contentType]> (_headers c)) in
  if isBrowser then hs
  else <["content-length" :=
           string_of_Z (if truthy body then byteLength body else 0)]> hs.

(** The task that [request] pushes. *)
Definition make_task (c : Connection) (opts : RequestOptions) (k : nat)
    (body : jsval) (contentType : string) : Task :=
  {| host := ro_host opts;
     cb := k;
     options :=
       {| method := default "GET" (ro_method opts);
          expectBinary := default false (ro_expectBinary opts);
          url := _buildUrl c (ro_urlInfo opts);
          headers := spread (ro_headers opts) ∪ extraHeaders c contentType body;
          body := body |} |}.

Definition request (opts : RequestOptions) (k : nat) : M unit :=
  enc <- lift (encode_body (default false (ro_isBinary opts))
                 (default false (ro_isJsonStream opts)) (ro_body opts)) ;;
  this <- get_conn ;;
  modify_conn (fun c =>
    set_queue (_queue c ++ [make_task this opts k (fst enc) (snd enc)]) c) ;;;
  _runQueue.

(** *** The [resolve] continuation *)

Definition body_length (b : ResBody) : nat :=
  match b with
  | BufferBody bytes => String.length bytes
  | StringBody s => String.length s
  end.

(** [res.body.toString("utf-8")], also what [JSON.parse] reads. *)
Definition body_toString (b : ResBody) : string :=
  match b with
  | BufferBody bytes => Buffer_toString bytes
  | StringBody s => s
  end.

(** ToBoolean of [res.body]. *)
Definition body_truthy (b : ResBody) : bool :=
  match b with
  | BufferBody _ => true
  | StringBody s => negb (String.eqb s "")
  end.

Definition raw_body (b : ResBody) : Parsed :=
  match b with
  | BufferBody bytes => PBuffer bytes
  | StringBody s => PVal (JStr s)
  end.

Definition parsed_truthy (p : Parsed) : bool :=
  match p with
  | PVal v => truthy v
  | PBuffer _ => true
  end.

(** [parsedBody.hasOwnProperty(k)] for [k] one of the four field names.
    An object literal with an own [hasOwnProperty] entry hides the
    method, and calling a data value throws. *)
Definition call_hasOwnProperty (p : Parsed) (k : string) : Result bool :=
  match p with
  | PVal (JObj fields) =>
      if has_key "hasOwnProperty" fields
      then Throw (TypeError "parsedBody.hasOwnProperty is not a function")
      else Ok (has_key k fields)
  | _ => Ok false
  end.

(** [a && b] where [b] may throw. *)
Definition and_then (a : Result bool) (b : Result bool) : Result bool :=
  match a with
  | Ok true => b
  | other => other
  end.

(** The condition of the first [if] after decoding. *)
Definition looks_like_error (p : Parsed) : Result bool :=
  and_then (Ok (parsed_truthy p))
    (and_then (call_hasOwnProperty p "error")
       (and_then (call_hasOwnProperty p "code")
          (and_then (call_hasOwnProperty p "errorMessage")
             (call_hasOwnProperty p "errorNum")))).

(** [res.statusCode && res.statusCode >= 400] *)
Definition status_at_least_400 {B} (res : Response B) : bool :=
  match statusCode res with
  | Some n => 400 <=? n
  | None => false
  end.

(** From the first [if] after decoding to the call of [cb]. *)
Definition classify_parsed (expectBinary : bool) (res : Response ResBody)
    (parsedBody : Parsed) : Result Outcome :=
  match looks_like_error parsedBody with
  | Throw e => Throw e
  | Ok true => Ok (ArangoError (with_body parsedBody res))
  | Ok false =>
      if status_at_least_400 res then Ok (HttpError (with_body parsedBody res))
      else if negb expectBinary then Ok (Success (with_body parsedBody res))
      else Ok (Success (with_body (raw_body (res_body res)) res))
  end.

(** [res.body.length && contentType && contentType.match(MIME_JSON)] *)
Definition wants_json_decode (res : Response ResBody) : bool :=
  negb (body_length (res_body res) =? 0)%nat
  && match res_headers res !! "content-type" with
     | Some contentType =>
         negb (String.eqb contentType "") && matches_MIME_JSON contentType
     | None => false
     end.

(** What [resolve] hands to [cb]. *)
Definition classify (expectBinary : bool) (res : Response ResBody) : Result Outcome :=
  if wants_json_decode res then
    match JSON_parse (body_toString (res_body res)) with
    | Some v => classify_parsed expectBinary res (PVal v)
    | None =>
        if negb expectBinary then Ok (ParseError res)
        else classify_parsed expectBinary res (raw_body (res_body res))
    end
  else if body_truthy (res_body res) && negb expectBinary then
    classify_parsed expectBinary res (PVal (JStr (body_toString (res_body res))))
  else classify_parsed expectBinary res (raw_body (res_body res)).

Definition resolve (t : Task) (res : Response ResBody) : M unit :=
  o <- lift (classify (expectBinary (options t)) res) ;;
  deliver (cb t) o.

Definition reject (t : Task) (err : JsError) : M unit :=
  deliver (cb t) (TransportError err).

(** *** The completion callback that [_runQueue] hands to the transport *)

(** [response.statusCode === 503 && response.headers[LEADER_ENDPOINT_HEADER]] *)
Definition leader_endpoint (response : Response ResBody) : option string :=
  match statusCode response, res_headers response !! LEADER_ENDPOINT_HEADER with
  | Some 503, Some u => if String.eqb u "" then None else Some u
  | _, _ => None
  end.

(** The failover step of the error branch. *)
Definition failover (host_ : jsnum) (c : Connection) : Connection :=
  if (1 <? Z.of_nat (length (_hosts c)))
     && strict_eq (_activeHost c) host_
     && _useFailOver c
  then advance_activeHost c
  else c.

(** The leader-redirect branch, up to and including [this._queue.push(task)]. *)
Definition redirect (t : Task) (host_ : jsnum) (u : string) (c : Connection)
    : Connection :=
  let (c1, indices) := addToHostList (inl u) c in
  let index := Num (List.hd (-1) indices) in
  let t' := set_host (Some index) t in
  let c2 := if strict_eq (_activeHost c1) host_ then set_activeHost index c1 else c1 in
  set_queue (_queue c2 ++ [t']) c2.

Definition on_complete (t : Task) (host_ : jsnum)
    (result : JsError + Response ResBody) : M unit :=
  modify_conn (fun c => set_activeTasks (_activeTasks c - 1) c) ;;;
  (match result with
   | inl err =>
       modify_conn (failover host_) ;;;
       reject t err
   | inr response =>
       match leader_endpoint response with
       | Some u => modify_conn (redirect t host_ u)
       | None => resolve t (with_host host_ response)
       end
   end) ;;;
  _runQueue.

(** *** Public getters and setters *)

(** [get arangoMajor] *)
Definition arangoMajor (c : Connection) : Z := _arangoVersion c / 10000.

Definition getDatabaseName (c : Connection) : option string := _databaseName c.

Definition getActiveHost (c : Connection) : jsnum := _activeHost c.

Definition setHeader (key value : string) : M unit :=
  modify_conn (fun c => set_headers (<[key := value]> (_headers c)) c).

Definition setDatabaseName (databaseName : string) : M unit :=
  this <- get_conn ;;
  match _databaseName this with
  | None => throw (PlainError "Can not change database from absolute URL")
  | Some _ => modify_conn (set_databaseName (Some databaseName))
  end.

(** ** Executions *)

(** What can happen to a connection: a call of a public method, or the
    transport completing the [k]-th pending call. *)
Inductive Event : Type :=
| EvRequest (opts : RequestOptions) (k : nat)
| EvComplete (k : nat) (result : JsError + Response ResBody)
| EvAddToHostList (urls : string + list string)
| EvSetHeader (key value : string)
| EvSetDatabaseName (databaseName : string).

Definition take_pending (k : nat) (w : World) : World :=
  {| conn := conn w; pending := delete k (pending w);
     issued := issued w; delivered := delivered w |}.

Definition handle (e : Event) : M unit :=
  match e with
  | EvRequest opts k => request opts k
  | EvComplete k result =>
      fun w =>
        match pending w !! k with
        | Some (t, host_) => on_complete t host_ result (take_pending k w)
        | None => (Ok tt, w)
        end
  | EvAddToHostList urls => modify_conn (fun c => fst (addToHostList urls c))
  | EvSetHeader key value => setHeader key value
  | EvSetDatabaseName databaseName => setDatabaseName databaseName
  end.

Definition step (w : World) (e : Event) : World := exec (handle e) w.

Definition run (w : World) (es : list Event) : World := fold_left step es w.

End Model.

(** ** A small runtime for worked examples

    JSON text over ASCII with integer numbers, Node's defaults
    ([isBrowser = false]), Buffers read as they are. *)

Module SmallRuntime.

Definition hex_digit (n : nat) : ascii :=
  ascii_of_nat (if (n <? 10)%nat then 48 + n else 87 + n).

Definition DQUOTE : string := String (ascii_of_nat 34) EmptyString.
Definition BACKSLASH : string := String (ascii_of_nat 92) EmptyString.

(** One character inside a JSON string literal. *)
Definition escape_char (a : ascii) : string :=
  let n := nat_of_ascii a in
  if (n =? 34)%nat then BACKSLASH +:+ DQUOTE
  else if (n =? 92)%nat then BACKSLASH +:+ BACKSLASH
  else if (n =? 8)%nat then BACKSLASH +:+ "b"
  else if (n =? 12)%nat then BACKSLASH +:+ "f"
  else if (n =? 10)%nat then BACKSLASH +:+ "n"
  else if (n =? 13)%nat then BACKSLASH +:+ "r"
  else if (n =? 9)%nat then BACKSLASH +:+ "t"
  else if (n <? 32)%nat then
    BACKSLASH +:+ "u00"
    +:+ String (hex_digit (n / 16)) (String (hex_digit (n mod 16)) EmptyString)
  else String a EmptyString.

Fixpoint escape (s : string) : string :=
  match s with
  | EmptyString => EmptyString
  | String a rest => escape_char a +:+ escape rest
  end.

Definition quote (s : string) : string := DQUOTE +:+ escape s +:+ DQUOTE.

(** [JSON.stringify] on data values. *)
Fixpoint stringify (v : jsval) : option string :=
  match v with
  | JUndefined => None
  | JNull => Some "null"
  | JBool b => Some (if b then "true" else "false")
  | JNum n => Some (match n with Num z => string_of_Z z | NaN => "null" end)
  | JStr s => Some (quote s)
  | JArr elems =>
      Some ("[" +:+ join "," (map (fun e => Some (default "null" (stringify e))) elems)
            +:+ "]")
  | JObj fields =>
      Some ("{" +:+
            join ","
              ((fix members (fs : list (string * jsval)) : list (option string) :=
                  match fs with
                  | [] => []
                  | (k, x) :: rest =>
                      match stringify x with
                      | Some s => Some (quote k +:+ ":" +:+ s) :: members rest
                      | None => members rest
                      end
                  end) fields)
            +:+ "}")
  end.

Definition is_ws (a : ascii) : bool :=
  let n := nat_of_ascii a in
  (n =? 32)%nat || (n =? 9)%nat || (n =? 10)%nat || (n =? 13)%nat.

Fixpoint skip_ws (s : string) : string :=
  match s with
  | String a rest => if is_ws a then skip_ws rest else s
  | EmptyString => s
  end.

Definition is_digit (a : ascii) : bool :=
  let n := nat_of_ascii a in ((48 <=? n) && (n <=? 57))%nat.

(** Digits at the head of [s], as a number, and what follows them. *)
Fixpoint read_digits (acc : Z) (s : string) : Z * string :=
  match s with
  | String a rest =>
      if is_digit a
      then read_digits (10 * acc + Z.of_nat (nat_of_ascii a - 48)) rest
      else (acc, s)
  | EmptyString => (acc, s)
  end.

(** An integer literal; a fraction or exponent part is not read. *)
Definition read_int (s : string) : option (Z * string) :=
  match s with
  | String "-" (String a rest) =>
      if is_digit a
      then let (n, r) := read_digits 0 (String a rest) in Some (- n, r)
      else None
  | String a _ =>
      if is_digit a then Some (read_digits 0 s) else None
  | EmptyString => None
  end.

(** The inside of a string literal, after the opening quote. *)
Fixpoint read_string (s : string) : option (string * string) :=
  match s with
  | EmptyString => None
  | String a rest =>
      if (nat_of_ascii a =? 34)%nat then Some (EmptyString, rest)
      else if (nat_of_ascii a =? 92)%nat then
        match rest with
        | String b rest' =>
            let c :=
              if Ascii.eqb b "n" then Some (ascii_of_nat 10)
              else if Ascii.eqb b "r" then Some (ascii_of_nat 13)
              else if Ascii.eqb b "t" then Some (ascii_of_nat 9)
              else if Ascii.eqb b "b" then Some (ascii_of_nat 8)
              else if Ascii.eqb b "f" then Some (ascii_of_nat 12)
              else if Ascii.eqb b "/" then Some b
              else if (nat_of_ascii b =? 34)%nat then Some b
              else if (nat_of_ascii b =? 92)%nat then Some b
              else None in
            match c, read_string rest' with
            | Some c, Some (t, r) => Some (String c t, r)
            | _, _ => None
            end
        | EmptyString => None
        end
      else if (nat_of_ascii a <? 32)%nat then None
      else
        match read_string rest with
        | Some (t, r) => Some (String a t, r)
        | None => None
        end
  end.

(** A later member of an object replaces an earlier one of the same key. *)
Definition add_member (k : string) (v : jsval) (fields : list (string * jsval))
    : list (string * jsval) :=
  List.filter (fun kv => negb (String.eqb (fst kv) k)) fields ++ [(k, v)].

Definition expect (p : string) (v : jsval) (s : string) : option (jsval * string) :=
  if String.prefix p s then Some (v, string_drop (String.length p) s) else None.

(** A JSON value at the head of [s]; every call uses up one unit of
    [fuel], and the length of the text plus one is enough. *)
Fixpoint read_value (fuel : nat) (s : string) : option (jsval * string) :=
  match fuel with
  | O => None
  | S fuel' =>
      match skip_ws s with
      | EmptyString => None
      | String a rest =>
          if Ascii.eqb a "n" then expect "null" JNull (String a rest)
          else if Ascii.eqb a "t" then expect "true" (JBool true) (String a rest)
          else if Ascii.eqb a "f" then expect "false" (JBool false) (String a rest)
          else if (nat_of_ascii a =? 34)%nat then
            match read_string rest with
            | Some (t, r) => Some (JStr t, r)
            | None => None
            end
          else if Ascii.eqb a "[" then
            match skip_ws rest with
            | String "]" r => Some (JArr [], r)
            | _ => read_elems fuel' [] rest
            end
          else if Ascii.eqb a "{" then
            match skip_ws rest with
            | String "}" r => Some (JObj [], r)
            | _ => read_members fuel' [] rest
            end
          else
            match read_int (String a rest) with
            | Some (n, r) => Some (JNum (Num n), r)
            | None => None
            end
      end
  end
with read_elems (fuel : nat) (acc : list jsval) (s : string) : option (jsval * string) :=
  match fuel with
  | O => None
  | S fuel' =>
      match read_value fuel' s with
      | Some (v, r) =>
          match skip_ws r with
          | String "," r' => read_elems fuel' (acc ++ [v]) r'
          | String "]" r' => Some (JArr (acc ++ [v]), r')
          | _ => None
          end
      | None => None
      end
  end
with read_members (fuel : nat) (acc : list (string * jsval)) (s : string)
    : option (jsval * string) :=
  match fuel with
  | O => None
  | S fuel' =>
      match skip_ws s with
      | String a rest =>
          if (nat_of_ascii a =? 34)%nat then
            match read_string rest with
            | Some (k, r) =>
                match skip_ws r with
                | String ":" r' =>
                    match read_value fuel' r' with
                    | Some (v, r'') =>
                        match skip_ws r'' with
                        | String "," r3 => read_members fuel' (add_member k v acc) r3
                        | String "}" r3 => Some (JObj (add_member k v acc), r3)
                        | _ => None
                        end
                    | None => None
                    end
                | _ => None
                end
            | None => None
            end
          else None
      | EmptyString => None
      end
  end.

(** [JSON.parse] *)
Definition parse (s : string) : option jsval :=
  match read_value (S (String.length s)) s with
  | Some (v, r) =>
      match skip_ws r with
      | EmptyString => Some v
      | _ => None
      end
  | None => None
  end.

(** ToNumber on a string that holds an integer; other strings, arrays
    and objects are read as NaN. *)
Definition number_of (v : jsval) : jsnum :=
  match v with
  | JStr s =>
      match skip_ws s with
      | EmptyString => Num 0
      | t =>
          match read_int t with
          | Some (n, r) =>
              match skip_ws r with
              | EmptyString => Num n
              | _ => NaN
              end
          | None => NaN
          end
      end
  | _ => NaN
  end.

Definition utf8_length (v : jsval) : Z :=
  match v with
  | JStr s => Z.of_nat (String.length s)
  | _ => 0
  end.

(** [key=value] pairs joined by [&], values written as JSON text. *)
Definition query (qs : list (string * jsval)) : string :=
  join "&" (map (fun kv => Some (fst kv +:+ "=" +:+ default EmptyString (stringify (snd kv)))) qs).

(** JSON text is written with apostrophes for its double quotes. *)
Fixpoint dq (s : string) : string :=
  match s with
  | EmptyString => EmptyString
  | String a rest =>
      String (if (nat_of_ascii a =? 39)%nat then ascii_of_nat 34 else a) (dq rest)
  end.

Definition runtime : Runtime :=
  {| isBrowser := false;
     JSON_parse := parse;
     JSON_stringify := stringify;
     Buffer_toString := fun bytes => bytes;
     byteLength := utf8_length;
     querystringify := query;
     ToNumber_rt := number_of;
     ToString_rt := fun _ => "[object Object]" |}.

End SmallRuntime.

(** ** Notions used in the statements *)

Definition set_conn (c : Connection) (w : World) : World :=
  {| conn := c; pending := pending w; issued := issued w; delivered := delivered w |}.

(** The connection after [_runQueue] took a task from the head of the
    queue and left [rest]: [advance] tells whether the round-robin step
    ran. *)
Definition dispatched (c : Connection) (rest : list Task) (advance : bool)
    : Connection :=
  set_activeTasks (_activeTasks c + 1)
    ((if advance then advance_activeHost else fun c => c) (set_queue rest c)).
Arguments dispatched : simpl never.

(** [this._activeTasks >= this._maxTasks] *)
Definition at_capacity `{Runtime} (c : Connection) : bool :=
  ge (Num (_activeTasks c)) (to_number (_maxTasks c)).

(** The number of transport calls that are out. *)
Definition in_flight (w : World) : Z := Z.of_nat (length (pending w)).


(** [m] keeps [P], whether it returns or throws. *)
Definition preserves {A} (P : World -> Prop) (m : M A) : Prop :=
  forall w, P w -> P (snd (m w)).

(** ** Sample data for worked examples *)

(** [{ path }] *)
Definition get_path (path : string) : RequestOptions :=
  {| ro_host := None; ro_method := None; ro_body := JUndefined;
     ro_expectBinary := None; ro_isBinary := None; ro_isJsonStream := None;
     ro_headers := None;
     ro_urlInfo := {| ui_absolutePath := None; ui_basePath := None;
                      ui_path := Some path; ui_qs := None |} |}.

(** [{ host, path }] *)
Definition get_path_on (h : Z) (path : string) : RequestOptions :=
  {| ro_host := Some (Num h); ro_method := None; ro_body := JUndefined;
     ro_expectBinary := None; ro_isBinary := None; ro_isJsonStream := None;
     ro_headers := None;
     ro_urlInfo := {| ui_absolutePath := None; ui_basePath := None;
                      ui_path := Some path; ui_qs := None |} |}.

(** [{ method: "POST", path, body, isJsonStream, headers }] *)
Definition post (path : string) (body : jsval) (isJsonStream : bool)
    (headers : option (gmap string string)) : RequestOptions :=
  {| ro_host := None; ro_method := Some "POST"; ro_body := body;
     ro_expectBinary := None; ro_isBinary := None;
     ro_isJsonStream := Some isJsonStream;
     ro_headers := headers;
     ro_urlInfo := {| ui_absolutePath := None; ui_basePath := None;
                      ui_path := Some path; ui_qs := None |} |}.

(** [{ url, loadBalancingStrategy, agentOptions: { maxSockets, keepAlive } }] *)
Definition sample_config (urls : list string) (strategy : LoadBalancingStrategy)
    (maxSockets : Z) (keepAlive : bool) : Config :=
  ConfigObj
    {| cfg_url := Some (inr urls); cfg_isAbsolute := false;
       cfg_arangoVersion := None;
       cfg_loadBalancingStrategy := Some strategy; cfg_agent := None;
       cfg_agentOptions :=
         Some (<["maxSockets" := JNum (Num maxSockets)]>
                 (<["keepAlive" := JBool keepAlive]> ∅));
       cfg_headers := None |}.

Definition three_hosts : list string :=
  ["http://a:8529"; "http://b:8529"; "http://c:8529"].

(** A response with the given status, content type and text body. *)
Definition text_response (status : Z) (contentType : string) (text : string)
    : Response ResBody :=
  {| statusCode := Some status;
     res_headers := <["content-type" := contentType]> ∅;
     res_body := StringBody text;
     res_host := None |}.

(** A 503 response that names a leader endpoint. *)
Definition leader_response (endpoint : string) : Response ResBody :=
  {| statusCode := Some 503;
     res_headers := <[LEADER_ENDPOINT_HEADER := endpoint]> ∅;
     res_body := StringBody EmptyString;
     res_host := None |}.

(** [n] requests, with the errbacks [0 .. n-1]. *)
Definition requests (n : nat) : list Event :=
  map (fun k => EvRequest (get_path "/_api/version") k) (seq 0 n).

(** [this._activeTasks -= 1] *)
Definition one_task_less (c : Connection) : Connection :=
  set_activeTasks (_activeTasks c - 1) c.

Definition add_delivery (k : nat) (o : Outcome) (w : World) : World :=
  {| conn := conn w; pending := pending w; issued := issued w;
     delivered := delivered w ++ [(k, o)] |}.

(** A completion that is not a leader redirect. *)
Definition no_redirect (result : JsError + Response ResBody) : Prop :=
  match result with
  | inl _ => True
  | inr response => leader_endpoint response = None
  end.

(** Requests one after the other, each sent when the one before has
    completed with the given result. *)
Definition one_by_one (first : RequestOptions * nat)
    (then_ : list ((JsError + Response ResBody) * (RequestOptions * nat)))
    : list Event :=
  EvRequest (fst first) (snd first)
  :: flat_map (fun rn => [EvComplete 0 (fst rn); EvRequest (fst (snd rn)) (snd (snd rn))])
       then_.

(** A connection under ROUND_ROBIN with three hosts and a cap of one,
    whose active host is [a] and which has issued calls to the hosts
    [to] so far; [busy] tells whether a call is out. *)
Definition round_robin_3 (busy : bool) (a : Z) (to : list jsnum) (w : World) : Prop :=
  _loadBalancingStrategy (conn w) = ROUND_ROBIN
  /\ _useFailOver (conn w) = false
  /\ _maxTasks (conn w) = JNum (Num 1)
  /\ length (_hosts (conn w)) = 3%nat
  /\ _queue (conn w) = []
  /\ _activeHost (conn w) = Num a
  /\ 0 <= a < 3
  /\ _activeTasks (conn w) = (if busy then 1 else 0)
  /\ length (pending w) = (if busy then 1%nat else 0%nat)
  /\ map fst (issued w) = to.

(** The world with one more task at the back of the queue. *)
Definition queued (t : Task) (w : World) : World :=
  set_conn (set_queue (_queue (conn w) ++ [t]) (conn w)) w.

Definition sample_task (h : option jsnum) (k : nat) : Task :=
  {| host := h; cb := k;
     options :=
       {| method := "GET"; expectBinary := false;
          url := {| pathname := "/_db/_system/_api/version"; search := None |};
          headers := ∅; body := JUndefined |} |}.

(** The world in which a call for [t] to host [h] is out and counted. *)
Definition calling (t : Task) (h : jsnum) (w : World) : World :=
  {| conn := set_activeTasks (_activeTasks (conn w) + 1) (conn w);
     pending := pending w ++ [(t, h)];
     issued := issued w ++ [(h, t)];
     delivered := delivered w |}.

(** The fields that no method writes after construction. *)
Definition fixed_fields (c0 : Connection) (w : World) : Prop :=
  _loadBalancingStrategy (conn w) = _loadBalancingStrategy c0
  /\ _useFailOver (conn w) = _useFailOver c0
  /\ _maxTasks (conn w) = _maxTasks c0
  /\ _agentOptions (conn w) = _agentOptions c0
  /\ _agent (conn w) = _agent c0
  /\ _arangoVersion (conn w) = _arangoVersion c0.

(** The decoded value is an object with own fields [error], [code],
    [errorMessage] and [errorNum], and maybe more. *)
Definition error_shaped (v : jsval) : bool :=
  match v with
  | JObj fields =>
      has_key "error" fields && has_key "code" fields
      && has_key "errorMessage" fields && has_key "errorNum" fields
  | _ => false
  end.

(** The decoded value is an object with an own field [hasOwnProperty]. *)
Definition hides_hasOwnProperty (v : jsval) : bool :=
  match v with
  | JObj fields => has_key "hasOwnProperty" fields
  | _ => false
  end.

Definition own_keys (v : jsval) : list string :=
  match v with
  | JObj fields => map fst fields
  | _ => []
  end.

Definition is_ArangoError (r : Result Outcome) : bool :=
  match r with
  | Ok (ArangoError _) => true
  | _ => false
  end.

(** A truthy body with [typeof body === "object"]. *)
Definition structured (v : jsval) : bool :=
  match v with
  | JArr _ | JObj _ => true
  | _ => false
  end.

(** [body = JSON.stringify(body)] *)
Definition stringified `{Runtime} (v : jsval) : jsval :=
  match JSON_stringify v with
  | Some s => JStr s
  | None => JUndefined
  end.

Definition conflict_body : string :=
  SmallRuntime.dq "{'error':true,'code':409,'errorNum':1200,'errorMessage':'conflict'}".

Definition conflict_body_extra : string :=
  SmallRuntime.dq
    "{'error':true,'code':409,'errorNum':1200,'errorMessage':'conflict','extra':1}".

(** ** Further notions: registry, paths, headers, accounting *)

(** Every transport handle was made for the URL at its index, with the
    agent options and agent of the connection. *)
Definition registry_aligned (c : Connection) : Prop :=
  _hosts c = map (fun u => createRequest u (_agentOptions c) (_agent c)) (_urls c).

(** [i] is the index of a transport handle. *)
Definition valid_index (c : Connection) (i : jsnum) : Prop :=
  match i with
  | Num z => 0 <= z < Z.of_nat (length (_hosts c))
  | NaN => False
  end.

(** Every text followed by CRLF, one after the other. *)
Fixpoint crlf_lines (texts : list string) : string :=
  match texts with
  | [] => EmptyString
  | t :: rest => t +:+ CRLF +:+ crlf_lines rest
  end.

(** The JSON text of an element of a stream body; an element without one
    ([undefined], say) gives the empty text. *)
Definition element_text `{Runtime} (v : jsval) : string :=
  default EmptyString (JSON_stringify v).

Definition is_JObj (v : jsval) : bool :=
  match v with
  | JObj _ => true
  | _ => false
  end.

Definition is_JStr (v : jsval) : bool :=
  match v with
  | JStr _ => true
  | _ => false
  end.

(** With the binary flag the body is sent as it is, and [byteLength] is
    called on it when it is truthy.  The helper is outside this module;
    the Node one takes a string or a Buffer and throws on another value.
    This is the condition that a body sent with the binary flag is a
    string or is falsy, under which [byteLength] is given strings only. *)
Definition binary_body_is_text (opts : RequestOptions) : bool :=
  negb (default false (ro_isBinary opts))
  || negb (truthy (ro_body opts))
  || is_JStr (ro_body opts).

(** The errbacks of the tasks that wait, of the calls that are out, and
    of the outcomes delivered. *)
Definition task_ids (w : World) : list nat :=
  map cb (_queue (conn w)) ++ map (fun p => cb (fst p)) (pending w)
  ++ map fst (delivered w).

(** The errback that an event brings in. *)
Definition event_ids (e : Event) : list nat :=
  match e with
  | EvRequest _ k => [k]
  | _ => []
  end.

(** The [resolve] continuation does not throw on the response of a
    completion. *)
Definition resolves `{Runtime} (e : Event) : Prop :=
  match e with
  | EvComplete _ (inr response) =>
      forall expectBinary_ h,
        exists o, classify expectBinary_ (with_host h response) = Ok o
  | _ => True
  end.

(** No task waits while a call could be made. *)
Definition work_conserving `{Runtime} (w : World) : Prop :=
  _queue (conn w) = [] \/ at_capacity (conn w) = true.

(** The host of a task, if it has one, is the index of a handle. *)
Definition host_ok (c : Connection) (t : Task) : Prop :=
  match host t with
  | None => True
  | Some h => valid_index c h
  end.

(** Every index in use is the index of a handle, and [_activeTasks]
    counts the calls that are out; [n0] handles were there from the
    start. *)
Definition hosts_sound (n0 : nat) (w : World) : Prop :=
  (n0 <= length (_hosts (conn w)))%nat
  /\ length (_hosts (conn w)) = length (_urls (conn w))
  /\ valid_index (conn w) (_activeHost (conn w))
  /\ Forall (host_ok (conn w)) (_queue (conn w))
  /\ in_flight w = _activeTasks (conn w)
  /\ Forall (fun call => valid_index (conn w) (fst call)) (issued w).

(** A request names no host, or one of the first [n0]. *)
Definition names_host_below (n0 : nat) (e : Event) : Prop :=
  match e with
  | EvRequest opts _ =>
      match ro_host opts with
      | None => True
      | Some (Num z) => 0 <= z < Z.of_nat n0
      | Some NaN => False
      end
  | _ => True
  end.

(** A request that names no host and whose body can be encoded. *)
Definition unpinned (opts : RequestOptions) : Prop :=
  ro_host opts = None
  /\ negb (default false (ro_isBinary opts)) && default false (ro_isJsonStream opts)
     && is_JObj (ro_body opts) = false.

Definition with_strategy (s : LoadBalancingStrategy) (c : Connection) : Connection :=
  {| _activeTasks := _activeTasks c; _agent := _agent c;
     _agentOptions := _agentOptions c; _arangoVersion := _arangoVersion c;
     _databaseName := _databaseName c; _headers := _headers c;
     _loadBalancingStrategy := s;
     _useFailOver := _useFailOver c; _maxTasks := _maxTasks c;
     _queue := _queue c; _hosts := _hosts c; _urls := _urls c;
     _activeHost := _activeHost c |}.

(** The world with the strategy of the connection written over. *)
Definition relabel (s : LoadBalancingStrategy) (w : World) : World :=
  set_conn (with_strategy s (conn w)) w.

(** NONE or ONE_RANDOM. *)
Definition not_round_robin (s : LoadBalancingStrategy) : Prop :=
  strategy_eqb s ROUND_ROBIN = false.

Definition cfg_with_strategy (s : LoadBalancingStrategy) (o : ConfigObject) : Config :=
  ConfigObj
    {| cfg_url := cfg_url o; cfg_isAbsolute := cfg_isAbsolute o;
       cfg_arangoVersion := cfg_arangoVersion o;
       cfg_loadBalancingStrategy := Some s; cfg_agent := cfg_agent o;
       cfg_agentOptions := cfg_agentOptions o; cfg_headers := cfg_headers o |}.
(** *** Facts about [indexOf] *)

Lemma indexOf_from_in (l : list string) (x : string) (i : Z) :
  x ∈ l ->
  exists n : nat, indexOf_from i l x = i + Z.of_nat n /\ l !! n = Some x.
Proof.
  revert i. induction l as [|y l IH]; intros i Hin.
  - inversion Hin.
  - simpl. destruct (String.eqb_spec y x) as [->|Hne].
    + exists 0%nat. split; [lia | reflexivity].
    + assert (Hin' : x ∈ l).
      { apply elem_of_cons in Hin. destruct Hin as [->|Hin]; [congruence | exact Hin]. }
      destruct (IH (i + 1) Hin') as (n & Hn & Hl).
      exists (S n). split; [lia | exact Hl].
Qed.

Lemma indexOf_from_notin (l : list string) (x : string) (i : Z) :
  x ∉ l -> indexOf_from i l x = -1.
Proof.
  revert i. induction l as [|y l IH]; intros i Hnin; simpl.
  - reflexivity.
  - destruct (String.eqb_spec y x) as [->|Hne].
    + exfalso. apply Hnin. left.
    + apply IH. intros Hin. apply Hnin. right. exact Hin.
Qed.

Lemma indexOf_absent_iff (l : list string) (x : string) :
  indexOf l x = -1 <-> x ∉ l.
Proof.
  split.
  - intros Heq Hin. destruct (indexOf_from_in l x 0 Hin) as (n & Hn & _).
    unfold indexOf in Heq. lia.
  - apply indexOf_from_notin.
Qed.

Lemma indexOf_from_app (l l' : list string) (x : string) (i : Z) :
  x ∈ l -> indexOf_from i (l ++ l') x = indexOf_from i l x.
Proof.
  revert i. induction l as [|y l IH]; intros i Hin.
  - inversion Hin.
  - simpl. destruct (String.eqb_spec y x) as [->|Hne]; [reflexivity|].
    apply IH. apply elem_of_cons in Hin. destruct Hin as [->|Hin]; [congruence | exact Hin].
Qed.

Lemma indexOf_lookup (l : list string) (x : string) :
  x ∈ l -> nth_js l (Num (indexOf l x)) = Some x.
Proof.
  intros Hin. destruct (indexOf_from_in l x 0 Hin) as (n & Hn & Hl).
  unfold indexOf, nth_js. rewrite Hn.
  destruct (Z.ltb_spec (0 + Z.of_nat n) 0) as [Hlt|_]; [lia|].
  replace (Z.to_nat (0 + Z.of_nat n)) with n by lia. exact Hl.
Qed.

Lemma indexOf_from_first (l : list string) (x : string) (i : Z) (j : nat) :
  i + Z.of_nat j < indexOf_from i l x -> l !! j <> Some x.
Proof.
  revert i j. induction l as [|y l IH]; intros i j Hlt.
  - rewrite lookup_nil. discriminate.
  - simpl in Hlt. destruct (String.eqb_spec y x) as [->|Hne]; [lia|].
    destruct j as [|j].
    + simpl. congruence.
    + simpl. apply (IH (i + 1)). lia.
Qed.

(** *** Facts about [addToHostList] *)

Lemma addToHostList_known (urls : string + list string) (c : Connection) :
  Forall (fun u => _sanitizeEndpointUrl u ∈ _urls c) (as_array urls) ->
  addToHostList urls c =
    (c, map (fun u => indexOf (_urls c) (_sanitizeEndpointUrl u)) (as_array urls)).
Proof.
  intros Hknown. unfold addToHostList.
  assert (Hnil : filter (fun u => indexOf (_urls c) u = -1)
                   (map _sanitizeEndpointUrl (as_array urls)) = []).
  { induction Hknown as [|u us Hu _ IH]; [reflexivity|].
    simpl. rewrite filter_cons_False; [exact IH|].
    rewrite indexOf_absent_iff. intros Hnin. exact (Hnin Hu). }
  rewrite Hnil. simpl. rewrite !app_nil_r.
  f_equal.
  - destruct c; reflexivity.
  - rewrite map_map. reflexivity.
Qed.

Lemma addToHostList_registers (urls : string + list string) (c : Connection) :
  Forall (fun u => _sanitizeEndpointUrl u ∈ _urls (fst (addToHostList urls c)))
    (as_array urls).
Proof.
  unfold addToHostList. simpl.
  apply Forall_forall. intros u Hu.
  destruct (decide (_sanitizeEndpointUrl u ∈ _urls c)) as [Hin|Hnin].
  - apply elem_of_app. left. exact Hin.
  - apply elem_of_app. right. apply list_elem_of_filter. split.
    + apply indexOf_absent_iff. exact Hnin.
    + apply list_elem_of_fmap. exists u. split; [reflexivity | exact Hu].
Qed.

Lemma addToHostList_lengths (urls : string + list string) (c : Connection) :
  length (_hosts c) = length (_urls c) ->
  length (_hosts (fst (addToHostList urls c))) =
  length (_urls (fst (addToHostList urls c))).
Proof.
  intros Hlen. unfold addToHostList. simpl.
  rewrite !length_app, length_map. lia.
Qed.

(** *** Scheme normalisation *)





(** ** The scheduler *)

Section Scheduler.

Context `{Runtime}.

Lemma runQueue_idle (w : World) :
  _queue (conn w) = [] \/
  ge (Num (_activeTasks (conn w))) (to_number (_maxTasks (conn w))) = true ->
  _runQueue w = (Ok tt, w).
Proof.
  intros Hidle. unfold _runQueue, bind, get_conn.
  destruct (_queue (conn w)) as [|task rest]; [reflexivity|].
  destruct Hidle as [Hq|Hge]; [discriminate|]. rewrite Hge. reflexivity.
Qed.

(** What one call of [_runQueue] does when it takes a task. *)
Lemma runQueue_dispatch (w : World) (task : Task) (rest : list Task) :
  _queue (conn w) = task :: rest ->
  at_capacity (conn w) = false ->
  let advance :=
    match host task with
    | Some _ => false
    | None => strategy_eqb (_loadBalancingStrategy (conn w)) ROUND_ROBIN
    end in
  let host_ := default (_activeHost (conn w)) (host task) in
  let c' := dispatched (conn w) rest advance in
  _runQueue w =
    match nth_js (_hosts (conn w)) host_ with
    | Some _ =>
        (Ok tt, {| conn := c'; pending := pending w ++ [(task, host_)];
                   issued := issued w ++ [(host_, task)];
                   delivered := delivered w |})
    | None =>
        (Throw (TypeError "this._hosts[host] is not a function"), set_conn c' w)
    end.
Proof.
  intros Hq Hcap. unfold at_capacity in Hcap.
  unfold _runQueue, bind, get_conn. rewrite Hq, Hcap.
  destruct w as [c pnd iss dlv]. simpl in *.
  destruct (host task) as [h|]; simpl.
  - destruct (nth_js (_hosts c) h); reflexivity.
  - destruct (strategy_eqb (_loadBalancingStrategy c) ROUND_ROBIN); simpl;
      destruct (nth_js (_hosts c) (_activeHost c)); reflexivity.
Qed.


(** *** Composition of [preserves] *)

Lemma preserves_ret {A} (P : World -> Prop) (a : A) : preserves P (ret a).
Proof. intros w Hw. exact Hw. Qed.

Lemma preserves_throw {A} (P : World -> Prop) (e : Exn) : preserves P (@throw A e).
Proof. intros w Hw. exact Hw. Qed.

Lemma preserves_lift {A} (P : World -> Prop) (r : Result A) : preserves P (lift r).
Proof. intros w Hw. exact Hw. Qed.

Lemma preserves_get_conn (P : World -> Prop) : preserves P get_conn.
Proof. intros w Hw. exact Hw. Qed.

Lemma preserves_bind {A B} (P : World -> Prop) (m : M A) (k : A -> M B) :
  preserves P m -> (forall a, preserves P (k a)) -> preserves P (bind m k).
Proof.
  intros Hm Hk w Hw. unfold bind. specialize (Hm w Hw).
  destruct (m w) as [[a|e] w']; simpl in *.
  - apply Hk. exact Hm.
  - exact Hm.
Qed.

Lemma preserves_modify_conn (P : World -> Prop) (f : Connection -> Connection) :
  (forall w, P w -> P (set_conn (f (conn w)) w)) -> preserves P (modify_conn f).
Proof. intros Hf w Hw. apply Hf. exact Hw. Qed.


(** *** The cap on the active tasks *)

Section Cap.

Variable maxTasks : jsval.
Variable cap : Z.
Hypothesis maxTasks_number : to_number maxTasks = Num cap.

Lemma dispatched_fields (c : Connection) (rest : list Task) (advance : bool) :
  _maxTasks (dispatched c rest advance) = _maxTasks c
  /\ _activeTasks (dispatched c rest advance) = _activeTasks c + 1
  /\ _queue (dispatched c rest advance) = rest
  /\ _hosts (dispatched c rest advance) = _hosts c
  /\ _urls (dispatched c rest advance) = _urls c
  /\ _loadBalancingStrategy (dispatched c rest advance) = _loadBalancingStrategy c
  /\ _useFailOver (dispatched c rest advance) = _useFailOver c.
Proof. destruct advance; repeat split; reflexivity. Qed.





Lemma failover_fields (h : jsnum) (c : Connection) :
  _maxTasks (failover h c) = _maxTasks c
  /\ _activeTasks (failover h c) = _activeTasks c
  /\ _queue (failover h c) = _queue c
  /\ _hosts (failover h c) = _hosts c
  /\ _urls (failover h c) = _urls c.
Proof.
  unfold failover.
  destruct ((1 <? Z.of_nat (length (_hosts c))) && strict_eq (_activeHost c) h
            && _useFailOver c); repeat split; reflexivity.
Qed.

Lemma redirect_fields (t : Task) (h : jsnum) (u : string) (c : Connection) :
  _maxTasks (redirect t h u c) = _maxTasks c
  /\ _activeTasks (redirect t h u c) = _activeTasks c.
Proof.
  unfold redirect, addToHostList. simpl.
  destruct (strict_eq _ _); split; reflexivity.
Qed.




End Cap.

(** *** The completion callback, branch by branch *)

Lemma on_complete_error (w : World) (t : Task) (h : jsnum) (err : JsError) :
  on_complete t h (inl err) w =
  _runQueue
    (add_delivery (cb t) (TransportError err)
       (set_conn (failover h (one_task_less (conn w))) w)).
Proof. reflexivity. Qed.

Lemma on_complete_redirect (w : World) (t : Task) (h : jsnum)
    (response : Response ResBody) (u : string) :
  leader_endpoint response = Some u ->
  on_complete t h (inr response) w =
  _runQueue (set_conn (redirect t h u (one_task_less (conn w))) w).
Proof.
  intros Hu. unfold on_complete, bind. cbn [modify_conn]. rewrite Hu. reflexivity.
Qed.

Lemma on_complete_response (w : World) (t : Task) (h : jsnum)
    (response : Response ResBody) :
  leader_endpoint response = None ->
  on_complete t h (inr response) w =
  match classify (expectBinary (options t)) (with_host h response) with
  | Ok o => _runQueue (add_delivery (cb t) o (set_conn (one_task_less (conn w)) w))
  | Throw e => (Throw e, set_conn (one_task_less (conn w)) w)
  end.
Proof.
  intros Hu. unfold on_complete, bind. cbn [modify_conn]. rewrite Hu.
  unfold resolve, bind, lift.
  destruct (classify (expectBinary (options t)) (with_host h response)); reflexivity.
Qed.

(** [_runQueue] calls no errback. *)
Lemma runQueue_delivered (w : World) : delivered (snd (_runQueue w)) = delivered w.
Proof.
  destruct (_queue (conn w)) as [|task rest] eqn:Hq.
  { rewrite runQueue_idle by (left; exact Hq). reflexivity. }
  destruct (at_capacity (conn w)) eqn:Hcap.
  { rewrite runQueue_idle by (right; exact Hcap). reflexivity. }
  rewrite (runQueue_dispatch w task rest Hq Hcap).
  destruct (nth_js _ _); reflexivity.
Qed.

(** *** The constructor *)

Lemma constructor_fields (config : option Config) (draw : Z) :
  let c := constructor config draw in
  _agentOptions c = merged_agentOptions (cfg_agentOptions (config_object config))
  /\ _maxTasks c = initial_maxTasks (_agentOptions c)
  /\ _activeTasks c = 0
  /\ _queue c = []
  /\ _loadBalancingStrategy c =
       default NONE (cfg_loadBalancingStrategy (config_object config))
  /\ _useFailOver c = negb (strategy_eqb (_loadBalancingStrategy c) ROUND_ROBIN)
  /\ length (_hosts c) = length (_urls c).
Proof.
  unfold constructor.
  set (agentOptions := merged_agentOptions _).
  set (strategy := default NONE _).
  destruct (strategy_eqb strategy ONE_RANDOM); simpl;
    rewrite ?length_app, ?length_map; repeat split; reflexivity.
Qed.

Lemma merged_prop (o : option (gmap string jsval)) (k : string) :
  prop (merged_agentOptions o) k =
  match spread o !! k with
  | Some v => v
  | None => if isBrowser then JUndefined else prop default_agentOptions k
  end.
Proof.
  unfold merged_agentOptions, prop.
  destruct isBrowser.
  - destruct (spread o !! k); reflexivity.
  - rewrite lookup_union. destruct (spread o !! k) as [v|];
      destruct (default_agentOptions !! k); reflexivity.
Qed.


End Scheduler.



(** C10. When the configuration gives no [maxSockets], or gives a falsy
    one (an explicit 0 too), the base cap is 3; [_maxTasks] is 6 when
    [keepAlive] is truthy in the agent options in force and 3 otherwise,
    and it is 6 whenever the configuration's own [keepAlive] is truthy.
    So [maxSockets: 0] with [keepAlive: true] gives 6, not 0. *)
Theorem maxTasks_falsy_maxSockets `{Runtime} (config : option Config) (draw : Z) :
  let given := spread (cfg_agentOptions (config_object config)) in
  let agentOptions := _agentOptions (constructor config draw) in
  truthy (prop given "maxSockets") = false ->
  or_else (prop agentOptions "maxSockets") (JNum (Num 3)) = JNum (Num 3)
  /\ _maxTasks (constructor config draw) =
       JNum (Num (if truthy (prop agentOptions "keepAlive") then 6 else 3))
  /\ (truthy (prop given "keepAlive") = true ->
      _maxTasks (constructor config draw) = JNum (Num 6))
  /\ (forall urls strategy d,
        _maxTasks (constructor (Some (sample_config urls strategy 0 true)) d) =
        JNum (Num 6)).
Proof.
  intros given agentOptions Hfalsy.
  destruct (constructor_fields config draw) as (Hopts & Hmax & _).
  fold agentOptions in Hopts, Hmax.
  assert (Hbase : or_else (prop agentOptions "maxSockets") (JNum (Num 3)) = JNum (Num 3)).
  { rewrite Hopts, merged_prop. fold given. unfold prop in Hfalsy.
    destruct (given !! "maxSockets") as [v|]; simpl in Hfalsy.
    - unfold or_else. rewrite Hfalsy. reflexivity.
    - destruct isBrowser; reflexivity. }
  assert (Hcap : _maxTasks (constructor config draw) =
            JNum (Num (if truthy (prop agentOptions "keepAlive") then 6 else 3))).
  { rewrite Hmax. unfold initial_maxTasks. rewrite Hbase.
    destruct (truthy (prop agentOptions "keepAlive")); reflexivity. }
  split; [exact Hbase|].
  split; [exact Hcap|].
  split.
  { intros Hkeep. rewrite Hcap, Hopts, merged_prop. fold given. unfold prop in Hkeep.
    destruct (given !! "keepAlive") as [v|]; simpl in Hkeep.
    - rewrite Hkeep. reflexivity.
    - discriminate. }
  intros urls strategy d.
  destruct (constructor_fields (Some (sample_config urls strategy 0 true)) d)
    as (Hopts' & Hmax' & _).
  rewrite Hmax', Hopts'. destruct H as [isB ? ? ? ? ? ? ?].
  destruct isB; vm_compute; reflexivity.
Qed.

Lemma maxTasks_falsy_maxSockets_witness :
  _maxTasks (@constructor SmallRuntime.runtime
               (Some (sample_config three_hosts NONE 0 true)) 0) = JNum (Num 6).
Proof.
  refine (proj1 (proj2 (proj2
    (@maxTasks_falsy_maxSockets SmallRuntime.runtime
       (Some (sample_config three_hosts NONE 0 true)) 0 _))) _).
  - reflexivity.
  - reflexivity.
Defined.

(** *** Round robin *)

Lemma rem_in_range (a len : Z) :
  0 <= a < len -> rem (add1 (Num a)) (Num len) = Num ((a + 1) mod len).
Proof.
  intros Ha. unfold rem, add1.
  destruct (Z.eqb_spec len 0) as [->|_]; [lia|].
  rewrite Z.rem_mod_nonneg by lia. reflexivity.
Qed.

(** Stepping over a completion that is no redirect, when nothing is
    queued: the call leaves [pending] and the task count, and the
    connection is otherwise as it was up to the failover step. *)
Lemma step_complete_plain `{Runtime} (w : World) (t : Task) (h : jsnum)
    (rest : list (Task * jsnum)) (result : JsError + Response ResBody) :
  pending w = (t, h) :: rest ->
  _queue (conn w) = [] ->
  no_redirect result ->
  let w' := step w (EvComplete 0 result) in
  conn w' = match result with
            | inl _ => failover h (one_task_less (conn w))
            | inr _ => one_task_less (conn w)
            end
  /\ pending w' = rest /\ issued w' = issued w.
Proof.
  intros Hp Hq Hres. unfold step, exec. cbn [handle]. rewrite Hp. cbn [lookup list_lookup].
  assert (Htake : take_pending 0 w = {| conn := conn w; pending := rest;
                                        issued := issued w; delivered := delivered w |}).
  { unfold take_pending. rewrite Hp. reflexivity. }
  rewrite Htake. destruct result as [err|response].
  - rewrite on_complete_error. rewrite runQueue_idle.
    + repeat split; reflexivity.
    + left. cbn [conn add_delivery set_conn]. destruct (failover_fields h (one_task_less (conn w)))
        as (_ & _ & Hfq & _). rewrite Hfq. exact Hq.
  - rewrite (on_complete_response _ _ _ _ Hres).
    destruct (classify _ _) as [o|e].
    + rewrite runQueue_idle by (left; exact Hq). repeat split; reflexivity.
    + repeat split; reflexivity.
Qed.

Lemma request_unfold `{Runtime} (w : World) (opts : RequestOptions) (k : nat)
    (enc : jsval * string) :
  encode_body (default false (ro_isBinary opts)) (default false (ro_isJsonStream opts))
    (ro_body opts) = Ok enc ->
  request opts k w =
  _runQueue
    (set_conn
       (set_queue (_queue (conn w) ++ [make_task (conn w) opts k (fst enc) (snd enc)])
          (conn w)) w).
Proof. intros He. unfold request, bind, lift. rewrite He. reflexivity. Qed.

Lemma request_throws `{Runtime} (w : World) (opts : RequestOptions) (k : nat) (e : Exn) :
  encode_body (default false (ro_isBinary opts)) (default false (ro_isJsonStream opts))
    (ro_body opts) = Throw e ->
  request opts k w = (Throw e, w).
Proof. intros He. unfold request, bind, lift. rewrite He. reflexivity. Qed.

Lemma round_robin_3_request `{Runtime} (w : World) (a : Z) (to : list jsnum)
    (path : string) (k : nat) :
  round_robin_3 false a to w ->
  round_robin_3 true ((a + 1) mod 3) (to ++ [Num a]) (step w (EvRequest (get_path path) k)).
Proof.
  intros (Hrr & Hfo & Hmax & Hlen & Hq & Ha & Hrange & Hact & Hpend & Hto).
  unfold step, exec. cbn [handle].
  rewrite (request_unfold w (get_path path) k (JUndefined, MIME_text) eq_refl).
  set (t := make_task _ _ _ _ _). rewrite Hq. cbn [app].
  set (w1 := set_conn _ w).
  assert (Hcap : at_capacity (conn w1) = false).
  { unfold at_capacity. subst w1. cbn. rewrite Hmax, Hact. reflexivity. }
  rewrite (runQueue_dispatch w1 t [] eq_refl Hcap).
  subst w1. cbn [conn set_conn pending issued]. cbn [host t make_task get_path ro_host default].
  change (_activeHost (set_queue [t] (conn w))) with (_activeHost (conn w)).
  change (_hosts (set_queue [t] (conn w))) with (_hosts (conn w)).
  change (_loadBalancingStrategy (set_queue [t] (conn w))) with
    (_loadBalancingStrategy (conn w)).
  rewrite Hrr, Ha. cbn [strategy_eqb].
  assert (Hnth : is_Some (nth_js (_hosts (conn w)) (Num a))).
  { unfold nth_js. destruct (Z.ltb_spec a 0); [lia|].
    apply lookup_lt_is_Some. lia. }
  destruct Hnth as [f Hf]. rewrite Hf. cbn [snd].
  unfold round_robin_3. cbn [conn pending issued].
  unfold dispatched, advance_activeHost. cbn.
  rewrite Hrr, Hfo, Hmax, Hlen, Ha, Hact, !length_app, Hpend, map_app, Hto.
  repeat split; try reflexivity.
  - rewrite <- (rem_in_range a 3 Hrange). reflexivity.
  - apply Z.mod_pos_bound. lia.
  - apply Z.mod_pos_bound. lia.
Qed.

Lemma round_robin_3_complete `{Runtime} (w : World) (a : Z) (to : list jsnum)
    (result : JsError + Response ResBody) :
  no_redirect result ->
  round_robin_3 true a to w ->
  round_robin_3 false a to (step w (EvComplete 0 result)).
Proof.
  intros Hres (Hrr & Hfo & Hmax & Hlen & Hq & Ha & Hrange & Hact & Hpend & Hto).
  destruct (pending w) as [|[t h] rest] eqn:Hp; [discriminate|].
  destruct rest; [|discriminate].
  destruct (step_complete_plain w t h [] result Hp Hq Hres) as (Hc & Hp' & Hi').
  unfold round_robin_3. rewrite Hc, Hp', Hi'.
  assert (Hfail : failover h (one_task_less (conn w)) = one_task_less (conn w)).
  { unfold failover. change (_useFailOver (one_task_less (conn w))) with (_useFailOver (conn w)).
    rewrite Hfo, andb_false_r. reflexivity. }
  destruct result; rewrite ?Hfail; cbn; rewrite Hact; repeat split; try assumption; lia.
Qed.

(** C7. Under ROUND_ROBIN, when [_runQueue] takes a task that names no
    host, the active host index becomes itself plus one modulo the number
    of hosts, and the call goes to the host that was active before; the
    index has moved while the call is still out, whatever its result will
    be.  With three hosts and a cap of one, three requests sent one after
    the other, each when the one before has completed (with any result
    but a redirect), go to the hosts 0, 1 and 2. *)
Theorem round_robin_advances_on_dispatch `{Runtime}
    (w : World) (task : Task) (rest : list Task) :
  _loadBalancingStrategy (conn w) = ROUND_ROBIN ->
  _queue (conn w) = task :: rest ->
  host task = None ->
  at_capacity (conn w) = false ->
  let w' := exec _runQueue w in
  let hosts := Z.of_nat (length (_hosts (conn w))) in
  _activeHost (conn w') = rem (add1 (_activeHost (conn w))) (Num hosts)
  /\ (forall a, _activeHost (conn w) = Num a -> 0 <= a < hosts ->
        _activeHost (conn w') = Num ((a + 1) mod hosts)
        /\ issued w' = issued w ++ [(Num a, task)]
        /\ pending w' = pending w ++ [(task, Num a)])
  /\ (forall d r1 r2 k1 k2 k3 path,
        no_redirect r1 -> no_redirect r2 ->
        let w0 := initial_world (Some (sample_config three_hosts ROUND_ROBIN 1 false)) d in
        map fst (issued (run w0
          (one_by_one (get_path path, k1)
             [(r1, (get_path path, k2)); (r2, (get_path path, k3))]))) =
        [Num 0; Num 1; Num 2]).
Proof.
  intros Hrr Hq Hhost Hcap w' hosts.
  assert (Hrun := runQueue_dispatch w task rest Hq Hcap).
  rewrite Hhost, Hrr in Hrun. cbn [default strategy_eqb] in Hrun.
  split.
  { subst w'. unfold exec. rewrite Hrun.
    destruct (nth_js _ _); reflexivity. }
  split.
  { intros a Ha Hrange. subst w'. unfold exec. rewrite Hrun.
    assert (Hnth : is_Some (nth_js (_hosts (conn w)) (_activeHost (conn w)))).
    { rewrite Ha. unfold nth_js. destruct (Z.ltb_spec a 0); [lia|].
      apply lookup_lt_is_Some. subst hosts. lia. }
    destruct Hnth as [f Hf]. rewrite Hf. cbn [snd conn issued pending].
    split; [|rewrite Ha; split; reflexivity].
    unfold dispatched, advance_activeHost. cbn. rewrite Ha.
    apply rem_in_range. exact Hrange. }
  intros d r1 r2 k1 k2 k3 path Hr1 Hr2 w0.
  unfold one_by_one. cbn [flat_map app fst snd run fold_left].
  assert (H0 : round_robin_3 false 0 [] w0).
  { subst w0. clear. unfold round_robin_3.
    destruct (constructor_fields (Some (sample_config three_hosts ROUND_ROBIN 1 false)) d)
      as (Hopts & Hmax & Hact & Hq & Hs & Hfo & _).
    cbn [initial_world conn pending issued]. rewrite Hfo, Hs, Hmax, Hopts, Hact, Hq.
    destruct H as [isB ? ? ? ? ? ? ?].
    destruct isB; vm_compute; repeat split; try reflexivity; discriminate. }
  apply (round_robin_3_request _ _ _ path k1) in H0.
  apply (round_robin_3_complete _ _ _ r1 Hr1) in H0.
  apply (round_robin_3_request _ _ _ path k2) in H0.
  apply (round_robin_3_complete _ _ _ r2 Hr2) in H0.
  apply (round_robin_3_request _ _ _ path k3) in H0.
  destruct H0 as (_ & _ & _ & _ & _ & _ & _ & _ & _ & Hto). exact Hto.
Qed.

Lemma round_robin_advances_on_dispatch_witness :
  let w := queued (sample_task None 0)
             (@initial_world SmallRuntime.runtime
                (Some (sample_config three_hosts ROUND_ROBIN 1 false)) 0) in
  _activeHost (conn (exec (@_runQueue SmallRuntime.runtime) w)) = Num 1.
Proof.
  intros w.
  destruct (@round_robin_advances_on_dispatch SmallRuntime.runtime w
              (sample_task None 0) [] eq_refl eq_refl eq_refl eq_refl) as (Hadv & _).
  rewrite Hadv. reflexivity.
Defined.

(** *** Fields that stay as the constructor set them *)

Section Fixed.

Context `{Runtime}.
Variable c0 : Connection.

Lemma modify_fixed (f : Connection -> Connection) :
  (forall c, _loadBalancingStrategy (f c) = _loadBalancingStrategy c
             /\ _useFailOver (f c) = _useFailOver c
             /\ _maxTasks (f c) = _maxTasks c
             /\ _agentOptions (f c) = _agentOptions c
             /\ _agent (f c) = _agent c
             /\ _arangoVersion (f c) = _arangoVersion c) ->
  preserves (fixed_fields c0) (modify_conn f).
Proof.
  intros Hf. apply preserves_modify_conn.
  intros w (H1 & H2 & H3 & H4 & H5 & H6). unfold fixed_fields. cbn [conn set_conn].
  destruct (Hf (conn w)) as (F1 & F2 & F3 & F4 & F5 & F6).
  rewrite F1, F2, F3, F4, F5, F6. repeat split; assumption.
Qed.

Lemma runQueue_fixed : preserves (fixed_fields c0) _runQueue.
Proof.
  intros w Hw.
  destruct (_queue (conn w)) as [|task rest] eqn:Hq.
  { rewrite runQueue_idle by (left; exact Hq). exact Hw. }
  destruct (at_capacity (conn w)) eqn:Hcap.
  { rewrite runQueue_idle by (right; exact Hcap). exact Hw. }
  rewrite (runQueue_dispatch w task rest Hq Hcap).
  assert (Hd : fixed_fields c0 (set_conn (dispatched (conn w) rest
            match host task with
            | Some _ => false
            | None => strategy_eqb (_loadBalancingStrategy (conn w)) ROUND_ROBIN
            end) w)).
  { destruct Hw as (H1 & H2 & H3 & H4 & H5 & H6). unfold fixed_fields, dispatched.
    destruct (match host task with Some _ => false | None => _ end);
      cbn; repeat split; assumption. }
  destruct (nth_js _ _); exact Hd.
Qed.

Lemma step_fixed (w : World) (e : Event) :
  fixed_fields c0 w -> fixed_fields c0 (step w e).
Proof.
  intros Hw. unfold step, exec.
  destruct e as [opts k|k result|urls|key value|name]; cbn [handle].
  - unfold request.
    apply preserves_bind; [apply preserves_lift| |exact Hw]. intros enc.
    apply preserves_bind; [apply preserves_get_conn|]. intros this.
    apply preserves_bind; [|intros _; apply runQueue_fixed].
    apply modify_fixed. intros c. repeat split; reflexivity.
  - destruct (pending w !! k) as [[t h]|]; [|exact Hw].
    unfold on_complete.
    apply preserves_bind; [| |exact Hw].
    { apply modify_fixed. intros c. repeat split; reflexivity. }
    intros _. apply preserves_bind; [|intros _; apply runQueue_fixed].
    destruct result as [err|response].
    + apply preserves_bind; [|intros _; intros w' Hw'; exact Hw'].
      apply modify_fixed. intros c. unfold failover.
      destruct (_ && _ && _); repeat split; reflexivity.
    + destruct (leader_endpoint response) as [u|].
      * apply modify_fixed. intros c. unfold redirect, addToHostList. cbn.
        destruct (strict_eq _ _); repeat split; reflexivity.
      * unfold resolve. apply preserves_bind; [apply preserves_lift|].
        intros o w' Hw'. exact Hw'.
  - apply modify_fixed; [|exact Hw]. intros c. repeat split; reflexivity.
  - unfold setHeader. apply modify_fixed; [|exact Hw]. intros c. repeat split; reflexivity.
  - unfold setDatabaseName.
    apply preserves_bind; [apply preserves_get_conn| |exact Hw]. intros this.
    destruct (_databaseName this); [|apply preserves_throw].
    apply modify_fixed. intros c. repeat split; reflexivity.
Qed.

Lemma run_fixed (es : list Event) (w : World) :
  fixed_fields c0 w -> fixed_fields c0 (run w es).
Proof.
  revert w. induction es as [|e es IH]; intros w Hw; simpl.
  - exact Hw.
  - apply IH. apply step_fixed. exact Hw.
Qed.

End Fixed.

(** In every execution failover is on exactly when the strategy is not
    ROUND_ROBIN. *)
Lemma useFailOver_reachable `{Runtime} (config : option Config) (draw : Z)
    (es : list Event) :
  let w := run (initial_world config draw) es in
  _useFailOver (conn w) = negb (strategy_eqb (_loadBalancingStrategy (conn w)) ROUND_ROBIN).
Proof.
  intros w.
  assert (Hfix : fixed_fields (constructor config draw) w).
  { apply run_fixed. repeat split; reflexivity. }
  destruct Hfix as (Hs & Hf & _). rewrite Hs, Hf.
  apply (constructor_fields config draw).
Qed.

(** ** Completion of a call *)

(** A call that [_runQueue] adds is a call for a task that was queued. *)
Lemma runQueue_issued `{Runtime} (w : World) (call : jsnum * Task) :
  call ∈ issued (snd (_runQueue w)) -> call ∈ issued w \/ snd call ∈ _queue (conn w).
Proof.
  destruct (_queue (conn w)) as [|task rest] eqn:Hq.
  { rewrite runQueue_idle by (left; exact Hq). intros Hin. left. exact Hin. }
  destruct (at_capacity (conn w)) eqn:Hcap.
  { rewrite runQueue_idle by (right; exact Hcap). intros Hin. left. exact Hin. }
  rewrite (runQueue_dispatch w task rest Hq Hcap).
  destruct (nth_js _ _); cbn [snd issued set_conn]; intros Hin.
  - apply elem_of_app in Hin. destruct Hin as [Hin|Hin]; [left; exact Hin|].
    apply list_elem_of_singleton in Hin. subst call. right. left.
  - left. exact Hin.
Qed.

(** Outside ROUND_ROBIN [_runQueue] leaves the active host alone. *)
Lemma runQueue_activeHost `{Runtime} (w : World) :
  _loadBalancingStrategy (conn w) <> ROUND_ROBIN ->
  _activeHost (conn (snd (_runQueue w))) = _activeHost (conn w).
Proof.
  intros Hs.
  destruct (_queue (conn w)) as [|task rest] eqn:Hq.
  { rewrite runQueue_idle by (left; exact Hq). reflexivity. }
  destruct (at_capacity (conn w)) eqn:Hcap.
  { rewrite runQueue_idle by (right; exact Hcap). reflexivity. }
  rewrite (runQueue_dispatch w task rest Hq Hcap).
  assert (Hadv : match host task with
                 | Some _ => false
                 | None => strategy_eqb (_loadBalancingStrategy (conn w)) ROUND_ROBIN
                 end = false).
  { destruct (host task); [reflexivity|].
    destruct (_loadBalancingStrategy (conn w)); try reflexivity. contradiction. }
  rewrite Hadv. destruct (nth_js _ _); reflexivity.
Qed.

Lemma redirect_unfold (t : Task) (h : jsnum) (u : string) (c : Connection) :
  let r := addToHostList (inl u) c in
  let i := indexOf (_urls (fst r)) (_sanitizeEndpointUrl u) in
  snd r = [i]
  /\ nth_js (_urls (fst r)) (Num i) = Some (_sanitizeEndpointUrl u)
  /\ redirect t h u c =
     set_queue (_queue c ++ [set_host (Some (Num i)) t])
       (if strict_eq (_activeHost c) h then set_activeHost (Num i) (fst r) else fst r).
Proof.
  intros r i.
  assert (Hsnd : snd r = [i]) by reflexivity.
  split; [exact Hsnd|]. split.
  - apply indexOf_lookup.
    pose proof (addToHostList_registers (inl u) c) as Hreg.
    apply Forall_inv in Hreg. exact Hreg.
  - unfold redirect, addToHostList. cbn.
    destruct (strict_eq (_activeHost c) h); reflexivity.
Qed.

(** C3. When the [k]-th pending call completes with a response of status
    503 whose [x-arango-endpoint] header is a non-empty string, the
    errback is not called, so the task is not ended and no error reaches
    the caller.  Before the queue is run again: the normalised URL of the
    header is in the registry, at the index [i] that [addToHostList]
    returned, which is its first position; the registry is as before if
    it held that URL, and has the URL and a new transport handle for it
    as its last entries if not; the queue is the queue as it was,
    followed by the task, whose host is now [i] and whose errback and
    options are as before; the active host is [i] if the host that
    answered was the active host, and is as before if not. *)
Theorem leader_redirect_requeues `{Runtime}
    (w : World) (k : nat) (t : Task) (h : jsnum)
    (response : Response ResBody) (u : string) :
  pending w !! k = Some (t, h) ->
  statusCode response = Some 503 ->
  res_headers response !! "x-arango-endpoint" = Some u ->
  u <> EmptyString ->
  let url := _sanitizeEndpointUrl u in
  delivered (step w (EvComplete k (inr response))) = delivered w
  /\ exists (w1 : World) (i : Z) (t' : Task),
       handle (EvComplete k (inr response)) w = _runQueue w1
       /\ delivered w1 = delivered w
       /\ pending w1 = delete k (pending w)
       /\ issued w1 = issued w
       /\ _activeTasks (conn w1) = _activeTasks (conn w) - 1
       /\ snd (addToHostList (inl u) (conn w)) = [i]
       /\ 0 <= i
       /\ _urls (conn w1) !! Z.to_nat i = Some url
       /\ (forall j : nat, (j < Z.to_nat i)%nat -> _urls (conn w1) !! j <> Some url)
       /\ (url ∈ _urls (conn w) ->
           _urls (conn w1) = _urls (conn w) /\ _hosts (conn w1) = _hosts (conn w))
       /\ (url ∉ _urls (conn w) ->
           _urls (conn w1) = _urls (conn w) ++ [url]
           /\ _hosts (conn w1) =
                _hosts (conn w)
                ++ [createRequest url (_agentOptions (conn w)) (_agent (conn w))])
       /\ _queue (conn w1) = _queue (conn w) ++ [t']
       /\ host t' = Some (Num i)
       /\ cb t' = cb t
       /\ options t' = options t
       /\ (forall a, _activeHost (conn w) = Num a -> h = Num a ->
           _activeHost (conn w1) = Num i)
       /\ (_activeHost (conn w) <> h -> _activeHost (conn w1) = _activeHost (conn w))
       /\ (h = NaN -> _activeHost (conn w1) = _activeHost (conn w)).
Proof.
  intros Hk Hstatus Hheader Hne url.
  assert (Hleader : leader_endpoint response = Some u).
  { unfold leader_endpoint, LEADER_ENDPOINT_HEADER. rewrite Hstatus, Hheader.
    destruct (String.eqb_spec u ""); [contradiction | reflexivity]. }
  assert (Hhandle : handle (EvComplete k (inr response)) w =
            _runQueue (set_conn (redirect t h u (one_task_less (conn w)))
                         (take_pending k w))).
  { cbn [handle]. rewrite Hk.
    exact (on_complete_redirect (take_pending k w) t h response u Hleader). }
  split.
  { unfold step, exec. rewrite Hhandle. rewrite runQueue_delivered. reflexivity. }
  set (r := addToHostList (inl u) (conn w)).
  set (i := indexOf (_urls (fst r)) url).
  assert (Hin : url ∈ _urls (fst r)).
  { pose proof (addToHostList_registers (inl u) (conn w)) as Hreg.
    apply Forall_inv in Hreg. exact Hreg. }
  destruct (indexOf_from_in _ _ 0 Hin) as (n & Hn & Hl).
  change (indexOf_from 0 (_urls (fst r)) url) with i in Hn.
  assert (Hurls : _urls (set_conn (redirect t h u (one_task_less (conn w)))
                           (take_pending k w)).(conn) = _urls (fst r)).
  { unfold redirect, addToHostList. cbn.
    destruct (strict_eq (_activeHost (conn w)) h); reflexivity. }
  assert (Hhosts : _hosts (set_conn (redirect t h u (one_task_less (conn w)))
                            (take_pending k w)).(conn) = _hosts (fst r)).
  { unfold redirect, addToHostList. cbn.
    destruct (strict_eq (_activeHost (conn w)) h); reflexivity. }
  exists (set_conn (redirect t h u (one_task_less (conn w))) (take_pending k w)),
         i, (set_host (Some (Num i)) t).
  split; [exact Hhandle|].
  split; [reflexivity|].
  split; [reflexivity|].
  split; [reflexivity|].
  split.
  { unfold redirect, addToHostList. cbn.
    destruct (strict_eq (_activeHost (conn w)) h); reflexivity. }
  split; [reflexivity|].
  split; [lia|].
  split.
  { rewrite Hurls. replace (Z.to_nat i) with n by lia. exact Hl. }
  split.
  { intros j Hj. rewrite Hurls. apply (indexOf_from_first _ _ 0).
    change (indexOf_from 0 (_urls (fst r)) url) with i. lia. }
  split.
  { intros Hknown. rewrite Hurls, Hhosts. subst r.
    rewrite (addToHostList_known (inl u) (conn w)); [split; reflexivity|].
    constructor; [exact Hknown | constructor]. }
  split.
  { intros Hnew. rewrite Hurls, Hhosts. subst r.
    unfold addToHostList. cbn [as_array map fst _urls _hosts set_registry].
    fold url. rewrite filter_cons_True by (apply indexOf_absent_iff; exact Hnew).
    rewrite filter_nil. split; reflexivity. }
  split.
  { unfold redirect, addToHostList. cbn.
    destruct (strict_eq (_activeHost (conn w)) h); reflexivity. }
  split; [reflexivity|].
  split; [reflexivity|].
  split; [reflexivity|].
  assert (Hact : _activeHost (set_conn (redirect t h u (one_task_less (conn w)))
                            (take_pending k w)).(conn) =
                 if strict_eq (_activeHost (conn w)) h then Num i
                 else _activeHost (conn w)).
  { unfold redirect, addToHostList. cbn.
    destruct (strict_eq (_activeHost (conn w)) h); reflexivity. }
  split.
  { intros a Ha Hh. rewrite Hact, Ha, Hh.
    unfold strict_eq, jsnum_eqb. rewrite Z.eqb_refl. reflexivity. }
  split.
  { intros Hdiff. rewrite Hact.
    destruct (strict_eq (_activeHost (conn w)) h) eqn:Heq; [|reflexivity].
    exfalso. apply Hdiff. unfold strict_eq, jsnum_eqb in Heq.
    destruct (_activeHost (conn w)) as [x|], h as [y|]; try discriminate.
    apply Z.eqb_eq in Heq. congruence. }
  intros Hnan. rewrite Hact, Hnan.
  destruct (_activeHost (conn w)); reflexivity.
Qed.

Lemma leader_redirect_requeues_witness :
  let w := calling (sample_task None 7) (Num 0)
             (@initial_world SmallRuntime.runtime
                (Some (sample_config three_hosts NONE 3 true)) 0) in
  let e := EvComplete 0 (inr (leader_response "tcp://leader:8529")) in
  delivered (@step SmallRuntime.runtime w e) = []
  /\ exists (w1 : World) (t' : Task),
       @handle SmallRuntime.runtime e w = @_runQueue SmallRuntime.runtime w1
       /\ _urls (conn w1) = three_hosts ++ ["http://leader:8529"]
       /\ _queue (conn w1) = [t']
       /\ host t' = Some (Num 3)
       /\ cb t' = 7%nat
       /\ _activeHost (conn w1) = Num 3.
Proof.
  intros w e. subst e.
  destruct (@leader_redirect_requeues SmallRuntime.runtime w 0 (sample_task None 7) (Num 0)
              (leader_response "tcp://leader:8529") "tcp://leader:8529"
              eq_refl eq_refl eq_refl)
    as (Hdel & w1 & i & t' & Hhandle & _ & _ & _ & _ & Hi & _ & _ & _ & _ & Hnew
        & Hq & Hhost & Hcb & _ & Hact & _).
  - discriminate.
  - assert (Hthree : i = 3) by (vm_compute in Hi; congruence).
    split; [rewrite Hdel; reflexivity|].
    exists w1, t'.
    split; [exact Hhandle|].
    split.
    { apply Hnew. vm_compute. intros Hin.
      repeat (apply elem_of_cons in Hin; destruct Hin as [Hin|Hin]; [discriminate|]).
      inversion Hin. }
    split; [rewrite Hq; reflexivity|].
    split; [rewrite Hhost, Hthree; reflexivity|].
    split; [rewrite Hcb; reflexivity|].
    rewrite (Hact 0 eq_refl eq_refl), Hthree. reflexivity.
Defined.

(** C4. When the [k]-th pending call completes with a transport error,
    the errback of its task is called once, with that error, and nothing
    else is delivered; the task is not put back in the queue, and a call
    issued afterwards is for a task that was waiting in the queue.  The
    error branch moves the active host [a] to [(a + 1) mod n], [n] the
    number of hosts, when more than one host is registered, the active
    host is still the host that failed and failover is on; when one of
    the three fails it leaves the active host as it is, so with one host
    it is unchanged.  Outside ROUND_ROBIN the same holds of the active
    host after the queue has run again.  In every execution failover is
    on exactly when the strategy is not ROUND_ROBIN. *)
Theorem transport_error_ends_task `{Runtime}
    (w : World) (k : nat) (t : Task) (h : jsnum) (err : JsError) :
  pending w !! k = Some (t, h) ->
  let c := conn w in
  let n := Z.of_nat (length (_hosts c)) in
  let w' := step w (EvComplete k (inl err)) in
  delivered w' = delivered w ++ [(cb t, TransportError err)]
  /\ (forall call, call ∈ issued w' -> call ∈ issued w \/ snd call ∈ _queue c)
  /\ (exists w1,
        handle (EvComplete k (inl err)) w = _runQueue w1
        /\ delivered w1 = delivered w ++ [(cb t, TransportError err)]
        /\ pending w1 = delete k (pending w)
        /\ issued w1 = issued w
        /\ _queue (conn w1) = _queue c
        /\ _hosts (conn w1) = _hosts c
        /\ _activeTasks (conn w1) = _activeTasks c - 1
        /\ (forall a, _activeHost c = Num a -> h = Num a -> 1 < n ->
            _useFailOver c = true ->
            _activeHost (conn w1) = Num (Z.rem (a + 1) n)
            /\ (0 <= a -> _activeHost (conn w1) = Num ((a + 1) mod n)))
        /\ (n <= 1 \/ _activeHost c <> h \/ h = NaN \/ _useFailOver c = false ->
            _activeHost (conn w1) = _activeHost c)
        /\ (n = 1 -> _activeHost (conn w1) = _activeHost c))
  /\ (_loadBalancingStrategy c <> ROUND_ROBIN ->
      (forall a, _activeHost c = Num a -> h = Num a -> 1 < n ->
       _useFailOver c = true ->
       _activeHost (conn w') = Num (Z.rem (a + 1) n)
       /\ (0 <= a -> _activeHost (conn w') = Num ((a + 1) mod n)))
      /\ (n <= 1 \/ _activeHost c <> h \/ h = NaN \/ _useFailOver c = false ->
          _activeHost (conn w') = _activeHost c))
  /\ (forall config draw es,
        let wr := run (initial_world config draw) es in
        _useFailOver (conn wr) = true <-> _loadBalancingStrategy (conn wr) <> ROUND_ROBIN).
Proof.
  intros Hk c n w'.
  set (moves := (1 <? n) && strict_eq (_activeHost c) h && _useFailOver c).
  assert (Hhandle : handle (EvComplete k (inl err)) w =
            _runQueue (add_delivery (cb t) (TransportError err)
                         (set_conn (failover h (one_task_less c)) (take_pending k w)))).
  { cbn [handle]. rewrite Hk. reflexivity. }
  assert (Hfail : _activeHost (failover h (one_task_less c)) =
            if moves then rem (add1 (_activeHost c)) (Num n) else _activeHost c).
  { unfold failover.
    cbn [one_task_less set_activeTasks _hosts _activeHost _useFailOver].
    fold c. fold n. fold moves. destruct moves; reflexivity. }
  assert (Hmove : forall a, _activeHost c = Num a -> h = Num a -> 1 < n ->
            _useFailOver c = true ->
            _activeHost (failover h (one_task_less c)) = Num (Z.rem (a + 1) n)
            /\ (0 <= a ->
                _activeHost (failover h (one_task_less c)) = Num ((a + 1) mod n))).
  { intros a Ha Hh Hn Hfo. rewrite Hfail. subst moves. rewrite Ha, Hh, Hfo.
    unfold strict_eq, jsnum_eqb. rewrite Z.eqb_refl.
    destruct (Z.ltb_spec 1 n) as [_|Hle]; [|lia]. cbn [andb rem add1].
    destruct (Z.eqb_spec n 0) as [Hz|_]; [lia|].
    split; [reflexivity|].
    intros Hpos. rewrite Z.rem_mod_nonneg by lia. reflexivity. }
  assert (Hstay : n <= 1 \/ _activeHost c <> h \/ h = NaN \/ _useFailOver c = false ->
            _activeHost (failover h (one_task_less c)) = _activeHost c).
  { intros Hnot. rewrite Hfail.
    destruct moves eqn:Hm; [|reflexivity]. exfalso. subst moves.
    apply andb_true_iff in Hm. destruct Hm as [Hm Hfo].
    apply andb_true_iff in Hm. destruct Hm as [Hn Heq].
    apply Z.ltb_lt in Hn. unfold strict_eq, jsnum_eqb in Heq.
    destruct (_activeHost c) as [x|], h as [y|]; try discriminate.
    apply Z.eqb_eq in Heq.
    destruct Hnot as [Hle|[Hdiff|[Hnan|Hoff]]];
      [lia | congruence | discriminate | congruence]. }
  split.
  { subst w'. unfold step, exec. rewrite Hhandle, runQueue_delivered. reflexivity. }
  split.
  { intros call Hin. subst w'. unfold step, exec in Hin. rewrite Hhandle in Hin.
    apply runQueue_issued in Hin. cbn [issued conn add_delivery set_conn take_pending] in Hin.
    destruct (failover_fields h (one_task_less c)) as (_ & _ & Hq & _).
    rewrite Hq in Hin. exact Hin. }
  split.
  { eexists. split; [exact Hhandle|].
    cbn [delivered pending issued conn add_delivery set_conn take_pending].
    destruct (failover_fields h (one_task_less c)) as (_ & Ha & Hq & Hh & _).
    rewrite Ha, Hq, Hh.
    repeat (split; [reflexivity|]).
    split; [exact Hmove|].
    split; [exact Hstay|].
    intros Hone. apply Hstay. left. lia. }
  assert (Hafter : _loadBalancingStrategy c <> ROUND_ROBIN ->
            _activeHost (conn w') = _activeHost (failover h (one_task_less c))).
  { intros Hs. subst w'. unfold step, exec. rewrite Hhandle.
    rewrite runQueue_activeHost; [reflexivity|].
    cbn [conn add_delivery set_conn]. unfold failover.
    destruct ((1 <? Z.of_nat (length (_hosts (one_task_less c))))
              && strict_eq (_activeHost (one_task_less c)) h
              && _useFailOver (one_task_less c)); exact Hs. }
  split.
  { intros Hs. rewrite (Hafter Hs). split; [exact Hmove | exact Hstay]. }
  intros config draw es wr. subst wr.
  rewrite useFailOver_reachable.
  destruct (_loadBalancingStrategy (conn (run (initial_world config draw) es)));
    cbn [strategy_eqb negb]; split; intros; congruence.
Qed.

Lemma transport_error_ends_task_witness :
  let w := calling (sample_task None 7) (Num 2)
             (@initial_world SmallRuntime.runtime
                (Some (sample_config three_hosts ONE_RANDOM 3 true)) 2) in
  let w' := @step SmallRuntime.runtime w (EvComplete 0 (inl "ECONNREFUSED")) in
  delivered w' = [(7%nat, TransportError "ECONNREFUSED")]
  /\ _activeHost (conn w') = Num 0.
Proof.
  intros w w'.
  destruct (@transport_error_ends_task SmallRuntime.runtime w 0 (sample_task None 7) (Num 2)
              "ECONNREFUSED" eq_refl) as (Hdel & _ & _ & Hafter & _).
  split.
  - exact Hdel.
  - destruct Hafter as [Hmove _]; [discriminate|].
    destruct (Hmove 2 eq_refl eq_refl) as [_ Hmod];
      [vm_compute; reflexivity | reflexivity |].
    etransitivity; [apply Hmod; lia | reflexivity].
Defined.

(** ** A host named by the caller *)

(** A request names host 0; the call to host 0 is answered by a leader
    redirect to a second host: the task's next call goes to index 1, not
    to the index the request named.  And a request names host 5 where
    three hosts are registered: no call goes out at all. *)
Lemma named_host_redirect_counterexample :
  let w0 := @initial_world SmallRuntime.runtime
              (Some (sample_config three_hosts NONE 3 true)) 0 in
  let w := @run SmallRuntime.runtime w0
             [EvRequest (get_path_on 0 "/_api/version") 7;
              EvComplete 0 (inr (leader_response "tcp://b:8529"))] in
  map (fun call => (cb (snd call), fst call)) (issued w) = [(7%nat, Num 0); (7%nat, Num 1)]
  /\ ~ (forall call, call ∈ issued w -> cb (snd call) = 7%nat -> fst call = Num 0)
  /\ issued (@step SmallRuntime.runtime w0 (EvRequest (get_path_on 5 "/_api/version") 7)) = [].
Proof.
  intros w0 w.
  assert (Hcalls : map (fun call => (cb (snd call), fst call)) (issued w) =
                   [(7%nat, Num 0); (7%nat, Num 1)]) by (vm_compute; reflexivity).
  split; [exact Hcalls|].
  split; [|vm_compute; reflexivity].
  intros Hall.
  destruct (issued w) as [|c1 [|c2 [|c3 rest]]] eqn:Hi; try discriminate.
  injection Hcalls as Hk1 Hh1 Hk2 Hh2.
  assert (Hc2 : fst c2 = Num 0).
  { apply Hall; [right; left | exact Hk2]. }
  congruence.
Qed.

(** C9, amended. A request that names a host puts a task with that host
    in the queue, no redirect needed.  When [_runQueue] takes a task
    whose host is [h], whatever the strategy, ROUND_ROBIN too, the active
    host stays as it is, and the call goes to [h] if [h] is the index of
    a registered host; if it is not, no call is issued.  A leader
    redirect replaces the host of the task by the index of the leader's
    URL, so a named host holds until the first redirect. *)
Theorem named_host_dispatch `{Runtime}
    (w : World) (task : Task) (rest : list Task) (h : jsnum) :
  _queue (conn w) = task :: rest ->
  host task = Some h ->
  at_capacity (conn w) = false ->
  let w' := exec _runQueue w in
  _activeHost (conn w') = _activeHost (conn w)
  /\ (is_Some (nth_js (_hosts (conn w)) h) ->
      issued w' = issued w ++ [(h, task)] /\ pending w' = pending w ++ [(task, h)])
  /\ (nth_js (_hosts (conn w)) h = None ->
      issued w' = issued w /\ pending w' = pending w)
  /\ (forall c opts k body contentType,
        ro_host opts = Some h ->
        host (make_task c opts k body contentType) = Some h)
  /\ (forall t0 h0 u c,
        let i := indexOf (_urls (fst (addToHostList (inl u) c))) (_sanitizeEndpointUrl u) in
        _queue (redirect t0 h0 u c) = _queue c ++ [set_host (Some (Num i)) t0]).
Proof.
  intros Hq Hhost Hcap w'.
  assert (Hrun := runQueue_dispatch w task rest Hq Hcap).
  rewrite Hhost in Hrun. cbn [default from_option id] in Hrun.
  subst w'. unfold exec. rewrite Hrun.
  split; [destruct (nth_js _ _); reflexivity|].
  split.
  { intros [f Hf]. rewrite Hf. split; reflexivity. }
  split.
  { intros Hnone. rewrite Hnone. split; reflexivity. }
  split.
  { intros c opts k body contentType Hopts. exact Hopts. }
  intros t0 h0 u c. cbv zeta.
  destruct (redirect_unfold t0 h0 u c) as (_ & _ & Hred). rewrite Hred.
  destruct (strict_eq _ _); reflexivity.
Qed.

Lemma named_host_dispatch_witness :
  let w := queued (sample_task (Some (Num 2)) 0)
             (@initial_world SmallRuntime.runtime
                (Some (sample_config three_hosts ROUND_ROBIN 3 true)) 0) in
  let w' := exec (@_runQueue SmallRuntime.runtime) w in
  _activeHost (conn w') = Num 0 /\ map fst (issued w') = [Num 2].
Proof.
  intros w w'.
  destruct (@named_host_dispatch SmallRuntime.runtime w (sample_task (Some (Num 2)) 0) []
              (Num 2) eq_refl eq_refl eq_refl) as (Hactive & Hvalid & _).
  subst w'. split.
  - rewrite Hactive. reflexivity.
  - destruct Hvalid as [Hissued _].
    + eexists. reflexivity.
    + rewrite Hissued. reflexivity.
Defined.

(** ** The response classifier *)

Lemma looks_like_error_raw (b : ResBody) : looks_like_error (raw_body b) = Ok false.
Proof.
  destruct b as [bytes|s]; [reflexivity|].
  unfold looks_like_error. simpl. destruct (negb (String.eqb s "")); reflexivity.
Qed.

Lemma looks_like_error_decoded (v : jsval) :
  looks_like_error (PVal v) =
  if hides_hasOwnProperty v
  then Throw (TypeError "parsedBody.hasOwnProperty is not a function")
  else Ok (error_shaped v).
Proof.
  unfold looks_like_error.
  destruct v as [| |b|n|s|elems|fields]; cbn [parsed_truthy truthy and_then
    call_hasOwnProperty hides_hasOwnProperty error_shaped]; try reflexivity.
  - destruct b; reflexivity.
  - destruct n as [z|]; [destruct (negb (z =? 0))|]; reflexivity.
  - destruct (negb (String.eqb s "")); reflexivity.
  - destruct (has_key "hasOwnProperty" fields); [reflexivity|].
    cbn [and_then].
    destruct (has_key "error" fields); [|reflexivity].
    destruct (has_key "code" fields); [|reflexivity].
    destruct (has_key "errorMessage" fields); reflexivity.
Qed.

(** A body that looks like JSON and does not decode, with the binary flag
    not asked for: the caller gets the decode error, not the text. *)
Lemma undecodable_json_counterexample :
  let res := text_response 200 "application/json; charset=utf-8" "<html>" in
  wants_json_decode res = true
  /\ @JSON_parse SmallRuntime.runtime (@body_toString SmallRuntime.runtime (res_body res)) = None
  /\ @classify SmallRuntime.runtime false res = Ok (ParseError res)
  /\ is_error (ParseError res) = true
  /\ @classify SmallRuntime.runtime true res =
       Ok (Success (with_body (PVal (JStr "<html>")) res)).
Proof. vm_compute. repeat split; reflexivity. Qed.

(** C1, amended. For a response whose body is not empty, whose content
    type matches the JSON pattern and whose body does not decode: without
    the binary flag the errback gets the decode error, which carries the
    response as it came; with the binary flag the decode error is dropped
    and the body stays as it came, delivered as an HttpError when the
    status is 400 or more and as a Success otherwise. *)
Theorem undecodable_json_outcome `{Runtime} (res : Response ResBody) :
  wants_json_decode res = true ->
  JSON_parse (body_toString (res_body res)) = None ->
  classify false res = Ok (ParseError res)
  /\ classify true res =
       Ok (if status_at_least_400 res
           then HttpError (with_body (raw_body (res_body res)) res)
           else Success (with_body (raw_body (res_body res)) res)).
Proof.
  intros Hwants Hparse. unfold classify. rewrite Hwants, Hparse. cbn [negb].
  split; [reflexivity|].
  unfold classify_parsed. rewrite looks_like_error_raw.
  destruct (status_at_least_400 res); reflexivity.
Qed.

Lemma undecodable_json_outcome_witness :
  let res := text_response 200 "application/json; charset=utf-8" "<html>" in
  @classify SmallRuntime.runtime false res = Ok (ParseError res).
Proof.
  intros res.
  exact (proj1 (@undecodable_json_outcome SmallRuntime.runtime res eq_refl eq_refl)).
Defined.

(** A decoded object with the four fields and a fifth one is an
    ApplicationError all the same. *)
Lemma five_fields_counterexample :
  let res := text_response 200 "application/json" conflict_body_extra in
  let v := JObj [("error", JBool true); ("code", JNum (Num 409));
                 ("errorNum", JNum (Num 1200)); ("errorMessage", JStr "conflict");
                 ("extra", JNum (Num 1))] in
  wants_json_decode res = true
  /\ @JSON_parse SmallRuntime.runtime (@body_toString SmallRuntime.runtime (res_body res)) =
       Some v
  /\ length (own_keys v) = 5%nat
  /\ @classify SmallRuntime.runtime false res = Ok (ArangoError (with_body (PVal v) res)).
Proof. vm_compute. repeat split; reflexivity. Qed.

(** C2, amended. For a response whose body decodes as JSON, the outcome
    is an ApplicationError exactly when the decoded value is an object
    that has the own fields [error], [code], [errorMessage] and
    [errorNum], whatever other fields it has, and has no own field
    [hasOwnProperty]; with such a field the test throws and the errback
    is not called.  The status code plays no part, so a response with
    status 200 and such a body is an ApplicationError, not a Success. *)
Theorem arango_error_classification `{Runtime}
    (expectBinary_ : bool) (res : Response ResBody) (v : jsval) :
  wants_json_decode res = true ->
  JSON_parse (body_toString (res_body res)) = Some v ->
  is_ArangoError (classify expectBinary_ res) =
    error_shaped v && negb (hides_hasOwnProperty v)
  /\ (error_shaped v && negb (hides_hasOwnProperty v) = true ->
      classify expectBinary_ res = Ok (ArangoError (with_body (PVal v) res)))
  /\ (hides_hasOwnProperty v = true ->
      classify expectBinary_ res =
      Throw (TypeError "parsedBody.hasOwnProperty is not a function"))
  /\ (forall status,
        let res' := {| statusCode := status; res_headers := res_headers res;
                       res_body := res_body res; res_host := res_host res |} in
        is_ArangoError (classify expectBinary_ res') =
        is_ArangoError (classify expectBinary_ res)).
Proof.
  intros Hwants Hparse.
  assert (Hgen : forall r : Response ResBody,
            res_headers r = res_headers res -> res_body r = res_body res ->
            classify expectBinary_ r =
            if hides_hasOwnProperty v
            then Throw (TypeError "parsedBody.hasOwnProperty is not a function")
            else if error_shaped v then Ok (ArangoError (with_body (PVal v) r))
            else if status_at_least_400 r then Ok (HttpError (with_body (PVal v) r))
            else if negb expectBinary_ then Ok (Success (with_body (PVal v) r))
            else Ok (Success (with_body (raw_body (res_body r)) r))).
  { intros r Hh Hb. unfold classify.
    assert (Hw : wants_json_decode r = true).
    { unfold wants_json_decode in *. rewrite Hh, Hb. exact Hwants. }
    rewrite Hw, Hb, Hparse. unfold classify_parsed.
    rewrite looks_like_error_decoded.
    destruct (hides_hasOwnProperty v); [reflexivity|].
    destruct (error_shaped v); rewrite ?Hb; reflexivity. }
  assert (Hshape : forall r : Response ResBody,
            res_headers r = res_headers res -> res_body r = res_body res ->
            is_ArangoError (classify expectBinary_ r) =
            error_shaped v && negb (hides_hasOwnProperty v)).
  { intros r Hh Hb. rewrite (Hgen r Hh Hb).
    destruct (hides_hasOwnProperty v); [rewrite andb_false_r; reflexivity|].
    destruct (error_shaped v); [reflexivity|].
    destruct (status_at_least_400 r); [reflexivity|].
    destruct (negb expectBinary_); reflexivity. }
  split; [apply Hshape; reflexivity|].
  split.
  { intros Hboth. apply andb_true_iff in Hboth. destruct Hboth as [Hs Hn].
    apply negb_true_iff in Hn. rewrite (Hgen res eq_refl eq_refl), Hn, Hs. reflexivity. }
  split.
  { intros Hhide. rewrite (Hgen res eq_refl eq_refl), Hhide. reflexivity. }
  intros status res'. rewrite (Hshape res eq_refl eq_refl).
  apply Hshape; reflexivity.
Qed.

Lemma arango_error_classification_witness :
  let res := text_response 200 "application/json" conflict_body in
  is_ArangoError (@classify SmallRuntime.runtime false res) = true.
Proof.
  intros res.
  destruct (@arango_error_classification SmallRuntime.runtime false res
              (JObj [("error", JBool true); ("code", JNum (Num 409));
                     ("errorNum", JNum (Num 1200)); ("errorMessage", JStr "conflict")])
              eq_refl eq_refl) as (Hshape & _).
  rewrite Hshape. reflexivity.
Defined.

(** ** The request encoder *)

Lemma content_type_header `{Runtime} (c : Connection) (opts : RequestOptions) (k : nat)
    (body_ : jsval) (contentType : string) :
  spread (ro_headers opts) !! "content-type" = None ->
  headers (options (make_task c opts k body_ contentType)) !! "content-type" =
  Some contentType.
Proof.
  intros Hnone. cbn [make_task options headers].
  rewrite lookup_union_r by exact Hnone.
  unfold extraHeaders. destruct isBrowser.
  - rewrite lookup_insert_ne by discriminate. apply lookup_insert_eq.
  - rewrite lookup_insert_ne by discriminate.
    rewrite lookup_insert_ne by discriminate. apply lookup_insert_eq.
Qed.

Lemma own_content_type `{Runtime} (c : Connection) (opts : RequestOptions) (k : nat)
    (body_ : jsval) (contentType own : string) :
  spread (ro_headers opts) !! "content-type" = Some own ->
  headers (options (make_task c opts k body_ contentType)) !! "content-type" =
  Some own.
Proof.
  intros Hsome. cbn [make_task options headers].
  apply lookup_union_Some_l. exact Hsome.
Qed.

(** A structured body sent with a [content-type] header of the caller's:
    the header of the wire request is the caller's, not
    [application/json].  And a structured body that is no array, sent
    with the stream flag: [request] throws, and no task is queued. *)
Lemma structured_body_counterexample :
  let w0 := @initial_world SmallRuntime.runtime
              (Some (sample_config three_hosts NONE 3 true)) 0 in
  let own := post "/_api/document/c" (JObj [("a", JNum (Num 1))]) false
               (Some (<["content-type" := "text/xml"]> ∅)) in
  let stream := post "/_api/import" (JObj [("a", JNum (Num 1))]) true None in
  map (fun call => (body (options (snd call)),
                    headers (options (snd call)) !! "content-type"))
      (issued (@step SmallRuntime.runtime w0 (EvRequest own 0))) =
    [(JStr (SmallRuntime.dq "{'a':1}"), Some "text/xml")]
  /\ @request SmallRuntime.runtime stream 0 w0 =
       (Throw (TypeError "body.map is not a function"), w0).
Proof. vm_compute. split; reflexivity. Qed.

(** C8, amended. For a request with a structured body and the binary
    flag unset.  Without the stream flag, the task that is queued has the
    one JSON text of the body as its body; its content type is
    [application/json] when the request has no [content-type] among its
    own headers, and is the request's own [content-type] when it has
    one.  With the stream flag and an array as body, its body is the JSON
    texts of the elements joined by CRLF and followed by one more CRLF;
    its content type is [application/x-ldjson], or again the request's
    own.  With the stream flag and an object that is no array, [request]
    throws and queues nothing. *)
Theorem structured_body_encoding `{Runtime}
    (w : World) (opts : RequestOptions) (k : nat) :
  default false (ro_isBinary opts) = false ->
  structured (ro_body opts) = true ->
  let own := spread (ro_headers opts) !! "content-type" in
  (default false (ro_isJsonStream opts) = false ->
   exists t,
     request opts k w = _runQueue (queued t w)
     /\ body (options t) = stringified (ro_body opts)
     /\ (own = None ->
         headers (options t) !! "content-type" = Some "application/json")
     /\ (forall ct, own = Some ct ->
         headers (options t) !! "content-type" = Some ct))
  /\ (default false (ro_isJsonStream opts) = true ->
      forall elems, ro_body opts = JArr elems ->
      exists t,
        request opts k w = _runQueue (queued t w)
        /\ body (options t) = JStr (join CRLF (map JSON_stringify elems) +:+ CRLF)
        /\ (own = None ->
            headers (options t) !! "content-type" = Some "application/x-ldjson")
        /\ (forall ct, own = Some ct ->
            headers (options t) !! "content-type" = Some ct))
  /\ (default false (ro_isJsonStream opts) = true ->
      forall fields, ro_body opts = JObj fields ->
      request opts k w = (Throw (TypeError "body.map is not a function"), w)).
Proof.
  intros Hbin Hstruct own.
  assert (Htruthy : truthy (ro_body opts) = true /\ typeof_object (ro_body opts) = true).
  { destruct (ro_body opts); try discriminate; split; reflexivity. }
  destruct Htruthy as [Htruthy Hobj].
  split.
  { intros Hstream. eexists. split.
    - apply request_unfold. unfold encode_body.
      rewrite Hbin, Htruthy, Hobj, Hstream. reflexivity.
    - split; [reflexivity|]. split.
      + intros Hnone. apply content_type_header. exact Hnone.
      + intros ct Hsome. apply own_content_type. exact Hsome. }
  split.
  { intros Hstream elems Hbody. eexists. split.
    - apply request_unfold. unfold encode_body.
      rewrite Hbin, Hstream, Hbody. reflexivity.
    - split; [reflexivity|]. split.
      + intros Hnone. apply content_type_header. exact Hnone.
      + intros ct Hsome. apply own_content_type. exact Hsome. }
  intros Hstream fields Hbody. apply request_throws. unfold encode_body.
  rewrite Hbin, Hstream, Hbody. reflexivity.
Qed.

Lemma structured_body_encoding_witness :
  let opts := post "/_api/document/c" (JObj [("a", JNum (Num 1))]) false None in
  let w := @initial_world SmallRuntime.runtime
             (Some (sample_config three_hosts NONE 3 true)) 0 in
  exists t,
    @request SmallRuntime.runtime opts 0 w = @_runQueue SmallRuntime.runtime (queued t w)
    /\ body (options t) = JStr (SmallRuntime.dq "{'a':1}")
    /\ headers (options t) !! "content-type" = Some "application/json".
Proof.
  intros opts w.
  destruct (@structured_body_encoding SmallRuntime.runtime w opts 0
              eq_refl eq_refl) as (Hplain & _).
  destruct (Hplain eq_refl) as (t & Hreq & Hbody & Hct & _).
  exists t. split; [exact Hreq|].
  split; [rewrite Hbody; reflexivity | exact (Hct eq_refl)].
Defined.

(** ** Worked examples *)

Example MIME_JSON_matches :
  matches_MIME_JSON "application/json" = true
  /\ matches_MIME_JSON "application/json; charset=utf-8" = true
  /\ matches_MIME_JSON "text/javascript" = true
  /\ matches_MIME_JSON "application/jsonp" = false
  /\ matches_MIME_JSON "application/x-json" = false
  /\ matches_MIME_JSON "text/plain" = false.
Proof. repeat split; reflexivity. Qed.

Example sanitize_examples :
  _sanitizeEndpointUrl "tcp://db1:8529" = "http://db1:8529"
  /\ _sanitizeEndpointUrl "ssl://db1:8529" = "https://db1:8529"
  /\ _sanitizeEndpointUrl "http://db1:8529" = "http://db1:8529"
  /\ _sanitizeEndpointUrl "unix:///tmp/arangodb.sock" = "unix:///tmp/arangodb.sock".
Proof. repeat split; reflexivity. Qed.

(** Two URLs with the same normal form in one call are both new to the
    filter, which looks at the registry as it was: the call adds two
    entries and returns the first index twice. *)
Example same_url_twice_in_one_call :
  let c := @constructor SmallRuntime.runtime (Some (ConfigArray [])) 0 in
  let r := addToHostList (inr ["tcp://a:1"; "http://a:1"]) c in
  _urls (fst r) = ["http://a:1"; "http://a:1"] /\ snd r = [0; 0].
Proof. split; reflexivity. Qed.

Example small_runtime_round_trip :
  let v := JObj [("a", JArr [JNum (Num 1); JNum (Num (-2)); JBool true; JNull]);
                 ("b", JStr "x")] in
  SmallRuntime.stringify v = Some (SmallRuntime.dq "{'a':[1,-2,true,null],'b':'x'}")
  /\ SmallRuntime.parse (SmallRuntime.dq "{ 'a' : [1, -2, true, null], 'b' : 'x' }") = Some v
  /\ SmallRuntime.parse "{'a':1}" = None.
Proof. vm_compute. repeat split; reflexivity. Qed.

(** A task sent to host 0 is answered with 503 and a leader endpoint: the
    registry gets a fourth entry, the task goes out again to index 3,
    the active host follows, and the caller hears of the second answer
    only. *)
Example leader_redirect_scenario :
  let w1 := @run SmallRuntime.runtime
              (@initial_world SmallRuntime.runtime
                 (Some (sample_config three_hosts NONE 3 true)) 0)
              [EvRequest (get_path "/_api/version") 7;
               EvComplete 0 (inr (leader_response "tcp://leader:8529"))] in
  let w2 := @step SmallRuntime.runtime w1
              (EvComplete 0 (inr (text_response 200 "application/json"
                                    (SmallRuntime.dq "{'version':'3.4.0'}")))) in
  _urls (conn w1) = three_hosts ++ ["http://leader:8529"]
  /\ map fst (issued w1) = [Num 0; Num 3]
  /\ _activeHost (conn w1) = Num 3
  /\ delivered w1 = []
  /\ map (fun d => (fst d, is_error (snd d))) (delivered w2) = [(7%nat, false)]
  /\ _activeTasks (conn w2) = 0.
Proof. vm_compute. repeat split; reflexivity. Qed.

(** A 404 with a JSON body that is no error object is an HttpError; a 200
    with a text body is a Success that carries the text. *)
Example classify_examples :
  let not_found := text_response 404 "application/json" (SmallRuntime.dq "{'found':false}") in
  let hello := text_response 200 "text/plain" "hello" in
  @classify SmallRuntime.runtime false not_found =
    Ok (HttpError (with_body (PVal (JObj [("found", JBool false)])) not_found))
  /\ @classify SmallRuntime.runtime false hello =
       Ok (Success (with_body (PVal (JStr "hello")) hello))
  /\ @classify SmallRuntime.runtime false
       (text_response 200 "application/json" conflict_body) =
     Ok (ArangoError
           (with_body
              (PVal (JObj [("error", JBool true); ("code", JNum (Num 409));
                           ("errorNum", JNum (Num 1200));
                           ("errorMessage", JStr "conflict")]))
              (text_response 200 "application/json" conflict_body))).
Proof. vm_compute. repeat split; reflexivity. Qed.

(** A named host that is no index of the registry: the call expression
    throws after the task was taken from the queue and counted. *)
Example named_host_out_of_range :
  let w := @step SmallRuntime.runtime
             (@initial_world SmallRuntime.runtime
                (Some (sample_config three_hosts NONE 3 true)) 0)
             (EvRequest (get_path_on 5 "/_api/version") 7) in
  issued w = [] /\ _queue (conn w) = [] /\ _activeTasks (conn w) = 1.
Proof. vm_compute. repeat split; reflexivity. Qed.

(** * Further properties of the code *)

(** ** The registry over an execution *)

Section Registry.

Context `{Runtime}.

(** A property of the registry fields that [addToHostList] keeps is kept
    by every event. *)
Lemma run_registry (Q : Connection -> Prop) :
  (forall c c', _urls c' = _urls c -> _hosts c' = _hosts c ->
                _agentOptions c' = _agentOptions c -> _agent c' = _agent c ->
                Q c -> Q c') ->
  (forall urls c, Q c -> Q (fst (addToHostList urls c))) ->
  forall es w, Q (conn w) -> Q (conn (run w es)).
Proof.
  intros Hsame Hadd.
  assert (Hmod : forall f : Connection -> Connection,
            (forall c, Q c -> Q (f c)) ->
            preserves (fun w => Q (conn w)) (modify_conn f)).
  { intros f Hf. apply preserves_modify_conn. intros w Hw. apply Hf. exact Hw. }
  assert (Hkeep : forall f : Connection -> Connection,
            (forall c, _urls (f c) = _urls c /\ _hosts (f c) = _hosts c
                       /\ _agentOptions (f c) = _agentOptions c /\ _agent (f c) = _agent c) ->
            preserves (fun w => Q (conn w)) (modify_conn f)).
  { intros f Hf. apply Hmod. intros c Hc. destruct (Hf c) as (F1 & F2 & F3 & F4).
    exact (Hsame c (f c) F1 F2 F3 F4 Hc). }
  assert (Hrq : preserves (fun w => Q (conn w)) _runQueue).
  { intros w Hw.
    destruct (_queue (conn w)) as [|task rest] eqn:Hq.
    { rewrite runQueue_idle by (left; exact Hq). exact Hw. }
    destruct (at_capacity (conn w)) eqn:Hcap.
    { rewrite runQueue_idle by (right; exact Hcap). exact Hw. }
    rewrite (runQueue_dispatch w task rest Hq Hcap).
    assert (Hd : forall a, Q (dispatched (conn w) rest a)).
    { intros a. apply (Hsame (conn w)); try (destruct a; reflexivity). exact Hw. }
    destruct (nth_js _ _); apply Hd. }
  assert (Hstep : forall w e, Q (conn w) -> Q (conn (step w e))).
  { intros w e Hw. unfold step, exec.
    destruct e as [opts k|k result|urls|key value|name]; cbn [handle].
    - unfold request.
      apply (preserves_bind (fun w => Q (conn w))); [apply preserves_lift| |exact Hw].
      intros enc.
      apply (preserves_bind (fun w => Q (conn w))); [apply preserves_get_conn|]. intros this.
      apply (preserves_bind (fun w => Q (conn w))); [|intros _; exact Hrq].
      apply Hkeep. intros c. repeat split; reflexivity.
    - destruct (pending w !! k) as [[t h]|]; [|exact Hw].
      unfold on_complete.
      apply (preserves_bind (fun w => Q (conn w))); [| |exact Hw].
      { apply Hkeep. intros c. repeat split; reflexivity. }
      intros _. apply (preserves_bind (fun w => Q (conn w))); [|intros _; exact Hrq].
      destruct result as [err|response].
      + apply (preserves_bind (fun w => Q (conn w))); [|intros _ w' Hw'; exact Hw'].
        apply Hkeep. intros c. unfold failover.
        destruct (_ && _ && _); repeat split; reflexivity.
      + destruct (leader_endpoint response) as [u|].
        * apply Hmod. intros c Hc.
          destruct (redirect_unfold t h u c) as (_ & _ & Hred). rewrite Hred.
          apply (Hsame (fst (addToHostList (inl u) c)));
            try (destruct (strict_eq _ _); reflexivity).
          apply Hadd. exact Hc.
        * unfold resolve.
          apply (preserves_bind (fun w => Q (conn w))); [apply preserves_lift|].
          intros o w' Hw'. exact Hw'.
    - apply Hmod; [|exact Hw]. intros c Hc. apply Hadd. exact Hc.
    - unfold setHeader. apply Hkeep; [|exact Hw]. intros c. repeat split; reflexivity.
    - unfold setDatabaseName.
      apply (preserves_bind (fun w => Q (conn w))); [apply preserves_get_conn| |exact Hw].
      intros this. destruct (_databaseName this); [|apply preserves_throw].
      apply Hkeep. intros c. repeat split; reflexivity. }
  induction es as [|e es IH]; intros w Hw; simpl.
  - exact Hw.
  - apply IH. apply Hstep. exact Hw.
Qed.

Lemma addToHostList_aligned (urls : string + list string) (c : Connection) :
  registry_aligned c -> registry_aligned (fst (addToHostList urls c)).
Proof.
  unfold registry_aligned, addToHostList. cbn. intros Hc.
  rewrite Hc at 1. rewrite map_app. reflexivity.
Qed.

End Registry.

Lemma nth_js_app {A} (l k : list A) (i : jsnum) (x : A) :
  nth_js l i = Some x -> nth_js (l ++ k) i = Some x.
Proof.
  destruct i as [z|]; [|discriminate]. unfold nth_js.
  destruct (z <? 0); [discriminate|]. apply lookup_app_l_Some.
Qed.

Lemma nth_js_map {A B} (f : A -> B) (l : list A) (i : jsnum) :
  nth_js (map f l) i = f <$> nth_js l i.
Proof.
  destruct i as [z|]; [|reflexivity]. unfold nth_js.
  destruct (z <? 0); [reflexivity|]. apply list_lookup_fmap.
Qed.

Lemma filter_absent_nil (l : list string) :
  filter (fun u => indexOf [] u = -1) l = l.
Proof.
  induction l as [|u l IH]; [reflexivity|].
  rewrite filter_cons_True by reflexivity. rewrite IH. reflexivity.
Qed.

Lemma constructor_registry `{Runtime} (config : option Config) (draw : Z) :
  let c := constructor config draw in
  _urls c = map _sanitizeEndpointUrl (config_urls (cfg_url (config_object config)))
  /\ _hosts c = map (fun u => createRequest u (_agentOptions c) (_agent c)) (_urls c)
  /\ _activeHost c =
       (if strategy_eqb (default NONE (cfg_loadBalancingStrategy (config_object config)))
             ONE_RANDOM
        then Num draw else Num 0).
Proof.
  unfold constructor.
  set (agentOptions := merged_agentOptions _).
  set (strategy := default NONE _).
  destruct (strategy_eqb strategy ONE_RANDOM); cbn;
    rewrite filter_absent_nil; repeat split; reflexivity.
Qed.

(** X1. In every execution the transport handles and the URLs stay in
    step: there are as many of the one as of the other, and the handle at
    an index is the one made by [createRequest] for the URL at that
    index, with the agent options and the agent the constructor stored. *)
Theorem registry_aligned_in_every_execution `{Runtime}
    (config : option Config) (draw : Z) (es : list Event) :
  let c0 := constructor config draw in
  let c := conn (run (initial_world config draw) es) in
  registry_aligned c
  /\ length (_hosts c) = length (_urls c)
  /\ (forall i u, nth_js (_urls c) i = Some u ->
        nth_js (_hosts c) i = Some (createRequest u (_agentOptions c0) (_agent c0))).
Proof.
  intros c0 c.
  assert (Halign : registry_aligned c).
  { subst c. apply (run_registry registry_aligned).
    - unfold registry_aligned. intros c1 c2 H1 H2 H3 H4 Hc.
      rewrite H1, H2, H3, H4. exact Hc.
    - intros urls c1. apply addToHostList_aligned.
    - apply (constructor_registry config draw). }
  assert (Hfix : fixed_fields c0 (run (initial_world config draw) es)).
  { apply run_fixed. repeat split; reflexivity. }
  destruct Hfix as (_ & _ & _ & Hopts & Hagent & _). fold c in Hopts, Hagent.
  split; [exact Halign|].
  split; [rewrite Halign, length_map; reflexivity|].
  intros i u Hu. rewrite Halign, nth_js_map, Hu, Hopts, Hagent. reflexivity.
Qed.

(** X2. The registry only grows at its end, whatever happens: the URLs
    and the handles a connection has stay where they are through every
    execution, so an index that names a URL names it for good. *)
Theorem registry_append_only `{Runtime} (w : World) (es : list Event) :
  let c := conn (run w es) in
  _urls (conn w) `prefix_of` _urls c
  /\ _hosts (conn w) `prefix_of` _hosts c
  /\ (forall i u, nth_js (_urls (conn w)) i = Some u -> nth_js (_urls c) i = Some u)
  /\ (forall i f, nth_js (_hosts (conn w)) i = Some f -> nth_js (_hosts c) i = Some f).
Proof.
  intros c.
  assert (Hpre : _urls (conn w) `prefix_of` _urls c /\ _hosts (conn w) `prefix_of` _hosts c).
  { subst c.
    apply (run_registry (fun c => _urls (conn w) `prefix_of` _urls c
                                  /\ _hosts (conn w) `prefix_of` _hosts c)).
    - intros c1 c2 H1 H2 _ _ Hc. rewrite H1, H2. exact Hc.
    - intros urls c1 [Hu Hh]. unfold addToHostList. cbn. split.
      + etransitivity; [exact Hu|]. apply prefix_app_r. reflexivity.
      + etransitivity; [exact Hh|]. apply prefix_app_r. reflexivity.
    - split; reflexivity. }
  destruct Hpre as [[ku Hu] [kh Hh]].
  split; [exists ku; exact Hu|]. split; [exists kh; exact Hh|].
  split.
  - intros i u Hi. rewrite Hu. apply nth_js_app. exact Hi.
  - intros i f Hi. rewrite Hh. apply nth_js_app. exact Hi.
Qed.

(** X3. A registry without repeated URLs stays without them when the
    URLs of one call have distinct normal forms.  Inside one call there
    is no such care: the filter looks at the registry as it was before
    the call, so a new URL given twice is added twice. *)
Theorem addToHostList_duplicates (c : Connection) (urls : string + list string) :
  NoDup (_urls c) ->
  NoDup (map _sanitizeEndpointUrl (as_array urls)) ->
  NoDup (_urls (fst (addToHostList urls c)))
  /\ (forall u, _sanitizeEndpointUrl u ∉ _urls c ->
        _urls (fst (addToHostList (inr [u; u]) c)) =
        _urls c ++ [_sanitizeEndpointUrl u; _sanitizeEndpointUrl u]).
Proof.
  intros Hc Hnew. split.
  - unfold addToHostList. cbn. apply NoDup_app. split; [exact Hc|]. split.
    + intros x Hx Hx'. apply list_elem_of_filter in Hx'. destruct Hx' as [Habs _].
      apply indexOf_absent_iff in Habs. exact (Habs Hx).
    + apply NoDup_filter. exact Hnew.
  - intros u Hu. unfold addToHostList, as_array. cbn [fst _urls set_registry List.map].
    apply indexOf_absent_iff in Hu.
    rewrite filter_cons_True by exact Hu.
    rewrite filter_cons_True by exact Hu. reflexivity.
Qed.

Lemma addToHostList_duplicates_witness :
  let c := @constructor SmallRuntime.runtime (Some (ConfigArray ["tcp://a:1"])) 0 in
  NoDup (_urls (fst (addToHostList (inr ["http://a:1"; "ssl://b:1"]) c))).
Proof.
  intros c.
  refine (proj1 (addToHostList_duplicates c (inr ["http://a:1"; "ssl://b:1"]) _ _)).
  - apply NoDup_cons. split; [apply not_elem_of_nil | apply NoDup_nil_2].
  - cbn. apply NoDup_cons. split.
    + intros Hin. apply list_elem_of_singleton in Hin. discriminate.
    + apply NoDup_cons. split; [apply not_elem_of_nil | apply NoDup_nil_2].
Defined.

(** X4. Normalising a URL twice is normalising it once, and a normalised
    URL never begins with [tcp:] or [ssl:]; a URL that begins with
    neither is left as it is. *)
Theorem sanitize_idempotent (u : string) :
  _sanitizeEndpointUrl (_sanitizeEndpointUrl u) = _sanitizeEndpointUrl u
  /\ String.prefix "tcp:" (_sanitizeEndpointUrl u) = false
  /\ String.prefix "ssl:" (_sanitizeEndpointUrl u) = false
  /\ (String.prefix "tcp:" u = false -> String.prefix "ssl:" u = false ->
      _sanitizeEndpointUrl u = u).
Proof.
  unfold _sanitizeEndpointUrl.
  destruct (String.prefix "tcp:" u) eqn:Htcp.
  { repeat split; try reflexivity. discriminate. }
  destruct (String.prefix "ssl:" u) eqn:Hssl.
  { repeat split; try reflexivity. discriminate. }
  rewrite Htcp, Hssl. repeat split; reflexivity.
Qed.

(** X5. The constructor registers the URLs of the configuration in their
    order, each normalised and none left out, repeated ones too, since
    the registry is empty when they are filtered; one handle is made per
    entry.  Without a URL, or with the empty string for one, the registry
    is the one local URL; with an empty array it is empty. *)
Theorem constructor_registers_config_urls `{Runtime} (config : option Config) (draw : Z) :
  let c := constructor config draw in
  let given := cfg_url (config_object config) in
  _urls c = map _sanitizeEndpointUrl (config_urls given)
  /\ length (_hosts c) = length (config_urls given)
  /\ (given = None \/ given = Some (inl EmptyString) -> _urls c = ["http://localhost:8529"])
  /\ (forall us, given = Some (inr us) -> _urls c = map _sanitizeEndpointUrl us)
  /\ (_urls c = [] <-> given = Some (inr [])).
Proof.
  intros c given.
  destruct (constructor_registry config draw) as (Hurls & Hhosts & _).
  fold c given in Hurls, Hhosts.
  split; [exact Hurls|].
  split; [rewrite Hhosts, Hurls, !length_map; reflexivity|].
  split.
  { intros [Hg|Hg]; rewrite Hurls, Hg; reflexivity. }
  split.
  { intros us Hg. rewrite Hurls, Hg. reflexivity. }
  rewrite Hurls. destruct given as [[s|us]|]; cbn.
  - destruct (String.eqb s ""); split; discriminate.
  - split.
    + intros Hnil. destruct us; [reflexivity | discriminate].
    + intros Hg. injection Hg as ->. reflexivity.
  - split; discriminate.
Qed.

(** ** Invariants of the connection, by the field updates the methods make *)

Lemma dispatched_unfold (c : Connection) (rest : list Task) (advance : bool) :
  dispatched c rest advance =
  set_activeTasks (_activeTasks c + 1)
    (if advance
     then set_activeHost
            (rem (add1 (_activeHost c)) (Num (Z.of_nat (length (_hosts c)))))
            (set_queue rest c)
     else set_queue rest c).
Proof. destruct advance; reflexivity. Qed.

(** A property kept by each field update that a method makes is kept by
    every event. *)
Lemma run_conn_invariant `{Runtime} (Q : Connection -> Prop) :
  (forall q c, Q c -> Q (set_queue q c)) ->
  (forall n c, Q c -> Q (set_activeTasks n c)) ->
  (forall h c, Q c -> Q (set_activeHost h c)) ->
  (forall urls c, Q c -> Q (fst (addToHostList urls c))) ->
  (forall hs c, Q c -> Q (set_headers hs c)) ->
  (forall n c, _databaseName c <> None -> Q c -> Q (set_databaseName (Some n) c)) ->
  forall es w, Q (conn w) -> Q (conn (run w es)).
Proof.
  intros Hq Ht Hh Hadd Hhd Hdb.
  assert (Hmod : forall f : Connection -> Connection,
            (forall c, Q c -> Q (f c)) ->
            preserves (fun w => Q (conn w)) (modify_conn f)).
  { intros f Hf. apply preserves_modify_conn. intros w Hw. apply Hf. exact Hw. }
  assert (Hrq : preserves (fun w => Q (conn w)) _runQueue).
  { intros w Hw.
    destruct (_queue (conn w)) as [|task rest] eqn:Hqu.
    { rewrite runQueue_idle by (left; exact Hqu). exact Hw. }
    destruct (at_capacity (conn w)) eqn:Hcap.
    { rewrite runQueue_idle by (right; exact Hcap). exact Hw. }
    rewrite (runQueue_dispatch w task rest Hqu Hcap).
    assert (Hd : forall a, Q (dispatched (conn w) rest a)).
    { intros a. rewrite dispatched_unfold. apply Ht.
      destruct a; [apply Hh|]; apply Hq; exact Hw. }
    destruct (nth_js _ _); apply Hd. }
  assert (Hstep : forall w e, Q (conn w) -> Q (conn (step w e))).
  { intros w e Hw. unfold step, exec.
    destruct e as [opts k|k result|urls|key value|name]; cbn [handle].
    - unfold request.
      apply (preserves_bind (fun w => Q (conn w))); [apply preserves_lift| |exact Hw].
      intros enc.
      apply (preserves_bind (fun w => Q (conn w))); [apply preserves_get_conn|]. intros this.
      apply (preserves_bind (fun w => Q (conn w))); [|intros _; exact Hrq].
      apply Hmod. intros c. apply Hq.
    - destruct (pending w !! k) as [[t h]|]; [|exact Hw].
      unfold on_complete.
      apply (preserves_bind (fun w => Q (conn w))); [| |exact Hw].
      { apply Hmod. intros c. apply Ht. }
      intros _. apply (preserves_bind (fun w => Q (conn w))); [|intros _; exact Hrq].
      destruct result as [err|response].
      + apply (preserves_bind (fun w => Q (conn w))); [|intros _ w' Hw'; exact Hw'].
        apply Hmod. intros c Hc. unfold failover.
        destruct (_ && _ && _); [apply Hh|]; exact Hc.
      + destruct (leader_endpoint response) as [u|].
        * apply Hmod. intros c Hc.
          destruct (redirect_unfold t h u c) as (_ & _ & Hred). rewrite Hred.
          apply Hq. destruct (strict_eq _ _); [apply Hh|]; apply Hadd; exact Hc.
        * unfold resolve.
          apply (preserves_bind (fun w => Q (conn w))); [apply preserves_lift|].
          intros o w' Hw'. exact Hw'.
    - apply Hmod; [|exact Hw]. intros c. apply Hadd.
    - unfold setHeader. apply Hmod; [|exact Hw]. intros c. apply Hhd.
    - unfold setDatabaseName, bind, get_conn.
      destruct (_databaseName (conn w)) eqn:Hname; [|exact Hw].
      cbn [snd modify_conn conn]. apply Hdb; [congruence | exact Hw]. }
  induction es as [|e es IH]; intros w Hw; simpl.
  - exact Hw.
  - apply IH. apply Hstep. exact Hw.
Qed.

(** X6. Whether a connection is absolute is settled by the constructor
    for good: in every execution the database name is [false] exactly
    when the configuration said [isAbsolute].  On an absolute connection
    [setDatabaseName] throws and changes nothing; on any other it sets
    the name, and [getDatabaseName] returns it. *)
Theorem absolute_for_good `{Runtime}
    (config : option Config) (draw : Z) (es : list Event) (name : string) :
  let w := run (initial_world config draw) es in
  let absolute := cfg_isAbsolute (config_object config) in
  (_databaseName (conn w) = None <-> absolute = true)
  /\ (absolute = true ->
      setDatabaseName name w =
      (Throw (PlainError "Can not change database from absolute URL"), w))
  /\ (absolute = false ->
      fst (setDatabaseName name w) = Ok tt
      /\ getDatabaseName (conn (step w (EvSetDatabaseName name))) = Some name)
  /\ (absolute = false -> getDatabaseName (constructor config draw) = Some "_system").
Proof.
  intros w absolute.
  assert (Hinv : _databaseName (conn w) = None <-> absolute = true).
  { subst w.
    apply (run_conn_invariant (fun c => _databaseName c = None <-> absolute = true));
      try (intros; assumption).
    - intros n c Hsome [_ Habs]. split; [discriminate|].
      intros Ha. exfalso. apply Hsome. apply Habs. exact Ha.
    - cbn [initial_world conn]. unfold constructor. fold absolute.
      destruct (strategy_eqb _ ONE_RANDOM); cbn; destruct absolute;
        split; congruence. }
  split; [exact Hinv|].
  split.
  { intros Ha. apply Hinv in Ha. unfold setDatabaseName, bind, get_conn.
    rewrite Ha. reflexivity. }
  split.
  { intros Ha.
    assert (Hsome : _databaseName (conn w) <> None).
    { intros Hn. apply Hinv in Hn. congruence. }
    unfold step, exec. cbn [handle]. unfold setDatabaseName, bind, get_conn.
    destruct (_databaseName (conn w)); [split; reflexivity | contradiction]. }
  intros Ha. unfold getDatabaseName, constructor. fold absolute. rewrite Ha.
  destruct (strategy_eqb _ ONE_RANDOM); reflexivity.
Qed.

(** ** The request encoder, further *)

Lemma request_queues `{Runtime} (w : World) (opts : RequestOptions) (k : nat)
    (enc : jsval * string) :
  encode_body (default false (ro_isBinary opts)) (default false (ro_isJsonStream opts))
    (ro_body opts) = Ok enc ->
  request opts k w = _runQueue (queued (make_task (conn w) opts k (fst enc) (snd enc)) w).
Proof. apply request_unfold. Qed.

(** X7. The path of a request.  After [setDatabaseName name] on a
    connection that is not absolute, a request without [absolutePath]
    goes to [/_db/name], then its [basePath], then its [path]; with
    [absolutePath] it goes to its [path] alone, the [basePath] dropped
    together with the database.  A query given as a string is used as it
    is after a question mark, and an empty one gives no query part; a
    query given as an object always gives one. *)
Theorem request_path_after_setDatabaseName `{Runtime}
    (w : World) (old name : string) (opts : RequestOptions) (k : nat)
    (enc : jsval * string) :
  _databaseName (conn w) = Some old ->
  encode_body (default false (ro_isBinary opts)) (default false (ro_isJsonStream opts))
    (ro_body opts) = Ok enc ->
  let w1 := step w (EvSetDatabaseName name) in
  let info := ro_urlInfo opts in
  exists t,
    request opts k w1 = _runQueue (queued t w1)
    /\ (default false (ui_absolutePath info) = false ->
        pathname (url (options t)) =
        (("/_db/" +:+ name) +:+ or_empty (ui_basePath info)) +:+ or_empty (ui_path info))
    /\ (default false (ui_absolutePath info) = true ->
        pathname (url (options t)) = or_empty (ui_path info))
    /\ (forall qs, ui_qs info = Some (inl qs) ->
        search (url (options t)) =
        if String.eqb qs "" then None else Some ("?" +:+ qs))
    /\ (forall qs, ui_qs info = Some (inr qs) ->
        search (url (options t)) = Some ("?" +:+ querystringify qs))
    /\ (ui_qs info = None -> search (url (options t)) = None).
Proof.
  intros Hold Henc w1 info.
  assert (Hname : _databaseName (conn w1) = Some name).
  { subst w1. unfold step, exec. cbn [handle]. unfold setDatabaseName, bind, get_conn.
    rewrite Hold. reflexivity. }
  eexists. split; [apply (request_queues w1 opts k enc Henc)|].
  cbn [make_task options url _buildUrl pathname search]. fold info.
  unfold _databasePath. rewrite Hname.
  split; [intros Habs; rewrite Habs; reflexivity|].
  split; [intros Habs; rewrite Habs; reflexivity|].
  split; [intros qs Hqs; rewrite Hqs; reflexivity|].
  split; [intros qs Hqs; rewrite Hqs; reflexivity|].
  intros Hqs. rewrite Hqs. reflexivity.
Qed.

Lemma request_path_after_setDatabaseName_witness :
  let w := @initial_world SmallRuntime.runtime
             (Some (sample_config three_hosts NONE 3 true)) 0 in
  let w1 := @step SmallRuntime.runtime w (EvSetDatabaseName "shop") in
  exists t,
    @request SmallRuntime.runtime (get_path "/_api/version") 0 w1 =
      @_runQueue SmallRuntime.runtime (queued t w1)
    /\ pathname (url (options t)) = "/_db/shop/_api/version".
Proof.
  intros w w1.
  destruct (@request_path_after_setDatabaseName SmallRuntime.runtime w "_system" "shop"
              (get_path "/_api/version") 0 (JUndefined, MIME_text) eq_refl eq_refl)
    as (t & Hreq & Hrel & _).
  exists t. split; [exact Hreq|]. rewrite Hrel; reflexivity.
Defined.

(** X8. The headers of a request, key by key: a header of the request
    itself wins; else, outside the browser, [content-length] is the byte
    length of the body as sent, and 0 for a falsy body; else
    [x-arango-version] is the version and [content-type] the one the
    encoder chose; else the header is the connection's.  So [setHeader]
    shows in the next request for every key that is none of these three
    and that the request does not set itself, and a [content-type] or
    [x-arango-version] of the connection is never sent. *)
Theorem request_headers_by_key `{Runtime}
    (w : World) (opts : RequestOptions) (k : nat) (enc : jsval * string) :
  encode_body (default false (ro_isBinary opts)) (default false (ro_isJsonStream opts))
    (ro_body opts) = Ok enc ->
  let set_by_request (c : Connection) (key : string) : option string :=
    match spread (ro_headers opts) !! key with
    | Some v => Some v
    | None =>
        if String.eqb key "content-length" && negb isBrowser
        then Some (string_of_Z (if truthy (fst enc) then byteLength (fst enc) else 0))
        else if String.eqb key "x-arango-version"
        then Some (string_of_Z (_arangoVersion c))
        else if String.eqb key "content-type" then Some (snd enc)
        else _headers c !! key
    end in
  (exists t,
     request opts k w = _runQueue (queued t w)
     /\ forall key, headers (options t) !! key = set_by_request (conn w) key)
  /\ (forall name value,
        let w1 := step w (EvSetHeader name value) in
        exists t,
          request opts k w1 = _runQueue (queued t w1)
          /\ (forall key, headers (options t) !! key = set_by_request (conn w1) key)
          /\ (spread (ro_headers opts) !! name = None ->
              name <> "content-type" -> name <> "x-arango-version" ->
              name <> "content-length" ->
              headers (options t) !! name = Some value)
          /\ (spread (ro_headers opts) !! "content-type" = None ->
              headers (options t) !! "content-type" = Some (snd enc))).
Proof.
  intros Henc set_by_request.
  assert (Hlaw : forall c key,
            headers (options (make_task c opts k (fst enc) (snd enc))) !! key =
            set_by_request c key).
  { intros c key. subst set_by_request. cbn [make_task options headers].
    rewrite lookup_union. destruct (spread (ro_headers opts) !! key) as [v|] eqn:Hown.
    - destruct (extraHeaders c (snd enc) (fst enc) !! key); reflexivity.
    - rewrite (left_id None _). unfold extraHeaders.
      destruct (String.eqb_spec key "content-length") as [->|Hcl];
        destruct isBrowser; cbn [andb negb].
      + rewrite lookup_insert_ne by discriminate.
        rewrite lookup_insert_ne by discriminate. reflexivity.
      + rewrite lookup_insert_eq. reflexivity.
      + destruct (String.eqb_spec key "x-arango-version") as [->|Hv].
        * rewrite lookup_insert_eq. reflexivity.
        * rewrite lookup_insert_ne by congruence.
          destruct (String.eqb_spec key "content-type") as [->|Hct].
          -- rewrite lookup_insert_eq. reflexivity.
          -- rewrite lookup_insert_ne by congruence. reflexivity.
      + rewrite lookup_insert_ne by congruence.
        destruct (String.eqb_spec key "x-arango-version") as [->|Hv].
        * rewrite lookup_insert_eq. reflexivity.
        * rewrite lookup_insert_ne by congruence.
          destruct (String.eqb_spec key "content-type") as [->|Hct].
          -- rewrite lookup_insert_eq. reflexivity.
          -- rewrite lookup_insert_ne by congruence. reflexivity. }
  split.
  { eexists. split; [apply (request_queues w opts k enc Henc)|]. intros key. apply Hlaw. }
  intros name value w1.
  eexists. split; [apply (request_queues w1 opts k enc Henc)|].
  split; [intros key; apply Hlaw|].
  split.
  - intros Hown Hct Hv Hcl. rewrite Hlaw. subst set_by_request. cbn beta. rewrite Hown.
    destruct (String.eqb_spec name "content-length"); [contradiction|].
    destruct (String.eqb_spec name "x-arango-version"); [contradiction|].
    destruct (String.eqb_spec name "content-type"); [contradiction|].
    cbn [andb]. subst w1. unfold step, exec. cbn [handle]. unfold setHeader.
    cbn [snd modify_conn conn set_headers _headers]. apply lookup_insert_eq.
  - intros Hown. rewrite Hlaw. subst set_by_request. cbn beta. rewrite Hown.
    reflexivity.
Qed.

Lemma request_headers_by_key_witness :
  let w := @initial_world SmallRuntime.runtime
             (Some (sample_config three_hosts NONE 3 true)) 0 in
  let w1 := @step SmallRuntime.runtime w (EvSetHeader "authorization" "Basic cm9vdDo=") in
  exists t,
    @request SmallRuntime.runtime (get_path "/_api/version") 0 w1 =
      @_runQueue SmallRuntime.runtime (queued t w1)
    /\ headers (options t) !! "authorization" = Some "Basic cm9vdDo="
    /\ headers (options t) !! "content-length" = Some "0".
Proof.
  intros w w1.
  destruct (@request_headers_by_key SmallRuntime.runtime w (get_path "/_api/version") 0
              (JUndefined, MIME_text) eq_refl) as (_ & Hset).
  destruct (Hset "authorization" "Basic cm9vdDo=") as (t & Hreq & Hlaw & Hname & _).
  exists t. split; [exact Hreq|]. split.
  - apply Hname; [reflexivity | discriminate | discriminate | discriminate].
  - rewrite Hlaw. reflexivity.
Defined.

Lemma encode_body_ok `{Runtime} (isBinary isJsonStream : bool) (body_ : jsval) :
  negb isBinary && isJsonStream && is_JObj body_ = false ->
  exists enc, encode_body isBinary isJsonStream body_ = Ok enc.
Proof.
  unfold encode_body.
  destruct isBinary; [intros _; eexists; reflexivity|].
  destruct body_ as [| |b|n|s|elems|fields]; cbn [truthy typeof_object negb andb is_JObj];
    try (intros _; eexists; reflexivity).
  - intros _. destruct b; eexists; reflexivity.
  - intros _. destruct n as [z|]; [destruct (negb (z =? 0))|]; eexists; reflexivity.
  - intros _. destruct (negb (String.eqb s "")); eexists; reflexivity.
  - intros _. destruct isJsonStream; eexists; reflexivity.
  - destruct isJsonStream; [discriminate|]. intros _. eexists. reflexivity.
Qed.

Lemma encode_body_refused `{Runtime} (isBinary isJsonStream : bool) (body_ : jsval) :
  negb isBinary && isJsonStream && is_JObj body_ = true ->
  encode_body isBinary isJsonStream body_ = Throw (TypeError "body.map is not a function").
Proof.
  destruct isBinary, isJsonStream, body_; try discriminate. reflexivity.
Qed.

Lemma encode_body_text `{Runtime} (isBinary isJsonStream : bool) (body_ : jsval)
    (enc : jsval * string) :
  negb isBinary || negb (truthy body_) || is_JStr body_ = true ->
  encode_body isBinary isJsonStream body_ = Ok enc ->
  truthy (fst enc) = true -> is_JStr (fst enc) = true.
Proof.
  unfold encode_body. intros Htext Henc Htruthy.
  destruct isBinary.
  - injection Henc as <-. cbn [fst] in *. cbn [negb orb] in Htext.
    rewrite Htruthy in Htext. exact Htext.
  - destruct (truthy body_) eqn:Hb.
    + destruct (typeof_object body_).
      * destruct isJsonStream.
        -- destruct body_; try discriminate. injection Henc as <-. reflexivity.
        -- injection Henc as <-. cbn [fst] in *.
           destruct (JSON_stringify body_); [reflexivity | discriminate].
      * injection Henc as <-. reflexivity.
    + injection Henc as <-. cbn [fst] in Htruthy. congruence.
Qed.

(** X9. For a request whose body, when the binary flag is set, is a
    string or is falsy.  [request] throws while encoding in one case
    only: the binary flag unset, the stream flag set, and a body that is
    an object and no array.  Then nothing is queued and the connection
    is as before.  In every other case it queues one task, with the
    errback and host of the request, at the end of the queue and runs the
    queue; the body of that task is a string whenever it is truthy, so
    [byteLength] has been given a string. *)
Theorem request_throws_only_for_object_stream `{Runtime}
    (w : World) (opts : RequestOptions) (k : nat) :
  binary_body_is_text opts = true ->
  let refused :=
    negb (default false (ro_isBinary opts)) && default false (ro_isJsonStream opts)
    && is_JObj (ro_body opts) in
  (refused = true ->
   request opts k w = (Throw (TypeError "body.map is not a function"), w))
  /\ (refused = false ->
      exists t,
        request opts k w = _runQueue (queued t w)
        /\ cb t = k /\ host t = ro_host opts
        /\ method (options t) = default "GET" (ro_method opts)
        /\ expectBinary (options t) = default false (ro_expectBinary opts)
        /\ _queue (conn (queued t w)) = _queue (conn w) ++ [t]
        /\ (truthy (body (options t)) = true -> is_JStr (body (options t)) = true)).
Proof.
  intros Htext refused. split.
  - intros Href. apply request_throws. apply encode_body_refused. exact Href.
  - intros Href. destruct (encode_body_ok _ _ _ Href) as [enc Henc].
    eexists. split; [apply (request_queues w opts k enc Henc)|].
    repeat (split; [reflexivity|]).
    cbn [make_task options body].
    exact (encode_body_text _ _ _ enc Htext Henc).
Qed.

Lemma request_throws_only_for_object_stream_witness :
  let binary :=
    {| ro_host := None; ro_method := Some "PUT"; ro_body := JStr "raw";
       ro_expectBinary := None; ro_isBinary := Some true; ro_isJsonStream := None;
       ro_headers := None;
       ro_urlInfo := {| ui_absolutePath := None; ui_basePath := None;
                        ui_path := Some "/_api/upload"; ui_qs := None |} |} in
  let w := @initial_world SmallRuntime.runtime
             (Some (sample_config three_hosts NONE 3 true)) 0 in
  exists t,
    @request SmallRuntime.runtime binary 4 w = @_runQueue SmallRuntime.runtime (queued t w)
    /\ cb t = 4%nat
    /\ method (options t) = "PUT"
    /\ _queue (conn (queued t w)) = [t].
Proof.
  intros binary w.
  destruct (@request_throws_only_for_object_stream SmallRuntime.runtime w binary 4 eq_refl)
    as (_ & Hqueued).
  destruct (Hqueued eq_refl) as (t & Hreq & Hcb & _ & Hmethod & _ & Hq & _).
  exists t. split; [exact Hreq|].
  split; [exact Hcb|]. split; [exact Hmethod | exact Hq].
Defined.

(** ** The stream body, line by line *)

Lemma string_append_assoc (a b c : string) : (a +:+ b) +:+ c = a +:+ (b +:+ c).
Proof.
  induction a as [|x a IH]; [reflexivity|].
  change (String x ((a +:+ b) +:+ c) = String x (a +:+ (b +:+ c))). f_equal. exact IH.
Qed.

Lemma join_crlf_lines (parts : list (option string)) :
  parts <> [] ->
  join CRLF parts +:+ CRLF = crlf_lines (map (default EmptyString) parts).
Proof.
  induction parts as [|p parts IH]; [contradiction|]. intros _.
  destruct parts as [|q parts].
  - reflexivity.
  - change (join CRLF (p :: q :: parts)) with
      (default "" p +:+ CRLF +:+ join CRLF (q :: parts)).
    rewrite !string_append_assoc. rewrite IH by discriminate. reflexivity.
Qed.

(** X10. The body of a stream request, for an array body without the
    binary flag: for an array that is not empty, the texts of its
    elements, each followed by CRLF, an element that has no JSON text
    giving an empty line; for the empty array one CRLF, which is no
    empty body, so its content type is [application/x-ldjson] as well
    and, outside the browser, its length header is the byte length of
    that CRLF and not 0. *)
Theorem stream_body_lines `{Runtime} (elems : list jsval) :
  let enc := encode_body false true (JArr elems) in
  (elems <> [] ->
   enc = Ok (JStr (crlf_lines (map element_text elems)), "application/x-ldjson"))
  /\ (elems = [] -> enc = Ok (JStr CRLF, "application/x-ldjson"))
  /\ (forall c, isBrowser = false ->
        extraHeaders c "application/x-ldjson" (JStr CRLF) !! "content-length" =
        Some (string_of_Z (byteLength (JStr CRLF)))).
Proof.
  intros enc. subst enc. unfold encode_body. cbn [truthy typeof_object].
  split.
  { intros Hne. rewrite join_crlf_lines.
    - rewrite map_map. reflexivity.
    - destruct elems; [contradiction | discriminate]. }
  split.
  { intros ->. reflexivity. }
  intros c Hnode. unfold extraHeaders. rewrite Hnode. rewrite lookup_insert_eq.
  reflexivity.
Qed.

(** ** The response classifier, further *)

Lemma looks_like_error_text (s : string) : looks_like_error (PVal (JStr s)) = Ok false.
Proof. rewrite looks_like_error_decoded. reflexivity. Qed.

(** X11. A response that is not decoded as JSON (an empty body, no
    content type, or one that does not match the JSON pattern) always
    gets an outcome, and never an ApplicationError or a decode error: an
    HttpError when the status is 400 or more, a Success otherwise.  With
    the binary flag the body is delivered as it came; without it as
    text, the empty Buffer as the empty string. *)
Theorem undecoded_response_outcome `{Runtime} (expectBinary_ : bool)
    (res : Response ResBody) :
  wants_json_decode res = false ->
  let delivered_body :=
    if body_truthy (res_body res) && negb expectBinary_
    then PVal (JStr (body_toString (res_body res)))
    else raw_body (res_body res) in
  classify expectBinary_ res =
    Ok (if status_at_least_400 res
        then HttpError (with_body delivered_body res)
        else Success (with_body delivered_body res))
  /\ (expectBinary_ = true -> delivered_body = raw_body (res_body res))
  /\ (expectBinary_ = false ->
      delivered_body = PVal (JStr (body_toString (res_body res)))).
Proof.
  intros Hwants delivered_body. split.
  - unfold classify. rewrite Hwants. subst delivered_body.
    destruct (body_truthy (res_body res) && negb expectBinary_) eqn:Hcond;
      unfold classify_parsed; rewrite ?looks_like_error_text, ?looks_like_error_raw.
    + apply andb_true_iff in Hcond. destruct Hcond as [_ Hneg]. rewrite Hneg.
      destruct (status_at_least_400 res); reflexivity.
    + destruct (status_at_least_400 res); [reflexivity|].
      destruct (negb expectBinary_) eqn:Hneg; [|reflexivity].
      rewrite andb_true_r in Hcond.
      destruct (res_body res) as [bytes|s]; [discriminate|].
      cbn in Hcond. apply negb_false_iff in Hcond. apply String.eqb_eq in Hcond.
      subst s. reflexivity.
  - subst delivered_body. split.
    + intros ->. rewrite andb_false_r. reflexivity.
    + intros ->. rewrite andb_true_r.
      destruct (res_body res) as [bytes|s]; [reflexivity|].
      cbn. destruct (String.eqb_spec s ""); [subst s|]; reflexivity.
Qed.

Lemma undecoded_response_outcome_witness :
  let res := text_response 404 "text/html" "<h1>Not Found</h1>" in
  @classify SmallRuntime.runtime false res =
  Ok (HttpError (with_body (PVal (JStr "<h1>Not Found</h1>")) res)).
Proof.
  intros res.
  exact (proj1 (@undecoded_response_outcome SmallRuntime.runtime false res eq_refl)).
Defined.

(** X12. What an outcome tells about the response it came from.  A
    Success means a status below 400 or none, an HttpError a status of
    400 or more; both carry the status, headers and host of the
    response, and a Success under the binary flag carries the body as it
    came.  An ApplicationError comes from a decoded body only, which it
    carries, whatever the status.  A decode error comes only without the
    binary flag, and carries the response untouched.  A transport error
    never comes out of a response. *)
Theorem outcome_tells_response `{Runtime} (expectBinary_ : bool)
    (res : Response ResBody) (o : Outcome) :
  classify expectBinary_ res = Ok o ->
  match o with
  | Success r =>
      status_at_least_400 res = false
      /\ statusCode r = statusCode res /\ res_headers r = res_headers res
      /\ res_host r = res_host res
      /\ (expectBinary_ = true -> res_body r = raw_body (res_body res))
  | HttpError r =>
      status_at_least_400 res = true
      /\ statusCode r = statusCode res /\ res_headers r = res_headers res
      /\ res_host r = res_host res
  | ArangoError r =>
      wants_json_decode res = true
      /\ (exists v, JSON_parse (body_toString (res_body res)) = Some v
                    /\ error_shaped v = true /\ res_body r = PVal v)
      /\ statusCode r = statusCode res /\ res_headers r = res_headers res
      /\ res_host r = res_host res
  | ParseError r =>
      expectBinary_ = false /\ r = res /\ wants_json_decode res = true
      /\ JSON_parse (body_toString (res_body res)) = None
  | TransportError _ => False
  end.
Proof.
  assert (Hparsed : forall p o',
            classify_parsed expectBinary_ res p = Ok o' ->
            match o' with
            | Success r =>
                status_at_least_400 res = false
                /\ statusCode r = statusCode res /\ res_headers r = res_headers res
                /\ res_host r = res_host res
                /\ (expectBinary_ = true -> res_body r = raw_body (res_body res))
            | HttpError r =>
                status_at_least_400 res = true
                /\ statusCode r = statusCode res /\ res_headers r = res_headers res
                /\ res_host r = res_host res
            | ArangoError r =>
                looks_like_error p = Ok true /\ res_body r = p
                /\ statusCode r = statusCode res /\ res_headers r = res_headers res
                /\ res_host r = res_host res
            | ParseError _ | TransportError _ => False
            end).
  { intros p o'. unfold classify_parsed.
    destruct (looks_like_error p) as [[|]|e] eqn:Hlook; [| |discriminate].
    - intros Ho. injection Ho as <-. repeat split; reflexivity.
    - destruct (status_at_least_400 res) eqn:Hst.
      + intros Ho. injection Ho as <-. repeat split; reflexivity.
      + destruct expectBinary_; cbn [negb]; intros Ho; injection Ho as <-;
          repeat split; try reflexivity; discriminate. }
  assert (Hnot : forall p o', (forall v, p <> PVal v \/ error_shaped v = false) ->
            classify_parsed expectBinary_ res p = Ok o' ->
            match o' with ArangoError _ => False | _ => True end).
  { intros p o' Hp Ho. pose proof (Hparsed p o' Ho) as Hc.
    destruct o'; try exact I. destruct Hc as (Hlook & _).
    destruct p as [v|bytes]; [|discriminate].
    rewrite looks_like_error_decoded in Hlook.
    destruct (hides_hasOwnProperty v); [discriminate|].
    injection Hlook as Hshape. destruct (Hp v) as [Hne|Hfalse]; congruence. }
  unfold classify. destruct (wants_json_decode res) eqn:Hwants.
  - destruct (JSON_parse (body_toString (res_body res))) as [v|] eqn:Hparse.
    + intros Ho. pose proof (Hparsed _ _ Ho) as Hc.
      destruct o; try exact Hc; try contradiction.
      destruct Hc as (Hlook & Hbody & Hs & Hh & Hhost).
      rewrite looks_like_error_decoded in Hlook.
      destruct (hides_hasOwnProperty v); [discriminate|]. injection Hlook as Hshape.
      split; [reflexivity|]. split; [exists v; repeat split; assumption|].
      repeat split; assumption.
    + destruct expectBinary_; cbn [negb].
      * intros Ho. pose proof (Hparsed _ _ Ho) as Hc.
        assert (Hn := Hnot (raw_body (res_body res)) o).
        destruct o; try exact Hc; try contradiction. exfalso. apply Hn; [|exact Ho].
        intros v'. destruct (res_body res); [left; discriminate|].
        destruct v'; try (left; discriminate). right. reflexivity.
      * intros Ho. injection Ho as <-. repeat split; reflexivity.
  - assert (Hboth : forall p, (forall v, p <> PVal v \/ error_shaped v = false) ->
              classify_parsed expectBinary_ res p = Ok o ->
              match o with
              | Success r =>
                  status_at_least_400 res = false
                  /\ statusCode r = statusCode res /\ res_headers r = res_headers res
                  /\ res_host r = res_host res
                  /\ (expectBinary_ = true -> res_body r = raw_body (res_body res))
              | HttpError r =>
                  status_at_least_400 res = true
                  /\ statusCode r = statusCode res /\ res_headers r = res_headers res
                  /\ res_host r = res_host res
              | _ => False
              end).
    { intros p Hp Ho. pose proof (Hparsed _ _ Ho) as Hc. pose proof (Hnot _ _ Hp Ho) as Hn.
      destruct o; try exact Hc; try contradiction. }
    assert (Htext : forall s v, PVal (JStr s) <> PVal v \/ error_shaped v = false).
    { intros s v. destruct v; try (left; discriminate). right. reflexivity. }
    assert (Hraw : forall b v, raw_body b <> PVal v \/ error_shaped v = false).
    { intros b v. destruct b; [left; discriminate | apply Htext]. }
    destruct (body_truthy (res_body res) && negb expectBinary_).
    + intros Ho. pose proof (Hboth _ (Htext _) Ho) as Hc.
      destruct o; try exact Hc; contradiction.
    + intros Ho. pose proof (Hboth _ (Hraw _) Ho) as Hc.
      destruct o; try exact Hc; contradiction.
Qed.

Lemma outcome_tells_response_witness :
  let res := text_response 500 "application/json" (SmallRuntime.dq "{'a':1}") in
  status_at_least_400 res = true.
Proof.
  intros res.
  exact (proj1 (@outcome_tells_response SmallRuntime.runtime false res
                  (HttpError (with_body (PVal (JObj [("a", JNum (Num 1))])) res))
                  eq_refl)).
Defined.

(** ** Every errback at most once *)

Section Ids.

Context `{Runtime}.

Lemma move_to_middle (x : nat) (A B D : list nat) :
  A ++ (B ++ [x]) ++ D ≡ₚ x :: A ++ B ++ D.
Proof.
  rewrite <- (app_assoc B [x] D). cbn [app]. rewrite (app_assoc A B (x :: D)).
  rewrite (app_assoc A B D). symmetry. apply Permutation_middle.
Qed.

Lemma move_to_end (x : nat) (A B D : list nat) :
  A ++ B ++ D ++ [x] ≡ₚ x :: A ++ B ++ D.
Proof.
  rewrite !app_assoc. rewrite <- Permutation_cons_append. reflexivity.
Qed.

Lemma move_to_front (x : nat) (A B D : list nat) :
  (A ++ [x]) ++ B ++ D ≡ₚ x :: A ++ B ++ D.
Proof.
  rewrite <- (app_assoc A [x]). cbn [app]. symmetry. apply Permutation_middle.
Qed.

Lemma runQueue_ids (w : World) : task_ids (snd (_runQueue w)) ⊆+ task_ids w.
Proof.
  destruct (_queue (conn w)) as [|task rest] eqn:Hq.
  { rewrite runQueue_idle by (left; exact Hq). reflexivity. }
  destruct (at_capacity (conn w)) eqn:Hcap.
  { rewrite runQueue_idle by (right; exact Hcap). reflexivity. }
  rewrite (runQueue_dispatch w task rest Hq Hcap).
  match goal with |- context [dispatched ?c ?r ?a] =>
    destruct (dispatched_fields c r a) as (_ & _ & Hdq & _) end.
  unfold task_ids. rewrite Hq.
  destruct (nth_js _ _); cbn [snd conn pending delivered set_conn]; rewrite Hdq.
  - apply Permutation_submseteq. rewrite map_app. cbn [map fst].
    apply move_to_middle.
  - cbn [map]. apply submseteq_cons. reflexivity.
Qed.

Lemma step_ids (w : World) (e : Event) :
  task_ids (step w e) ⊆+ task_ids w ++ event_ids e.
Proof.
  unfold step, exec.
  destruct e as [opts k|k result|urls|key value|name]; cbn [handle event_ids];
    rewrite ?app_nil_r.
  - destruct (encode_body (default false (ro_isBinary opts))
                (default false (ro_isJsonStream opts)) (ro_body opts)) as [enc|e] eqn:Henc.
    + rewrite (request_queues w opts k enc Henc).
      etransitivity; [apply runQueue_ids|].
      apply Permutation_submseteq. unfold task_ids, queued.
      cbn [conn set_conn _queue set_queue pending delivered].
      rewrite map_app. cbn [map make_task cb].
      rewrite move_to_front. rewrite <- move_to_end. rewrite <- !app_assoc. reflexivity.
    + rewrite (request_throws w opts k e Henc). apply submseteq_inserts_r. reflexivity.
  - destruct (pending w !! k) as [[t h]|] eqn:Hk; [|reflexivity].
    assert (Hperm : task_ids w ≡ₚ cb t :: task_ids (take_pending k w)).
    { unfold task_ids, take_pending. cbn [conn pending delivered].
      rewrite (delete_Permutation _ _ _ Hk) at 1. cbn [map fst].
      symmetry. apply Permutation_middle. }
    rewrite Hperm. destruct result as [err|response].
    + rewrite on_complete_error. etransitivity; [apply runQueue_ids|].
      apply Permutation_submseteq. unfold task_ids.
      cbn [conn pending delivered add_delivery set_conn].
      destruct (failover_fields h (one_task_less (conn (take_pending k w))))
        as (_ & _ & Hfq & _).
      rewrite Hfq. rewrite map_app. cbn [map fst]. apply move_to_end.
    + destruct (leader_endpoint response) as [u|] eqn:Hu.
      * rewrite (on_complete_redirect _ _ _ _ _ Hu). etransitivity; [apply runQueue_ids|].
        apply Permutation_submseteq. unfold task_ids.
        cbn [conn pending delivered set_conn].
        destruct (redirect_unfold t h u (one_task_less (conn (take_pending k w))))
          as (_ & _ & Hred).
        rewrite Hred.
        assert (Hq : forall q c0, _queue (set_queue q c0) = q) by reflexivity.
        rewrite Hq. rewrite map_app. cbn [map set_host cb].
        apply move_to_front.
      * rewrite (on_complete_response _ _ _ _ Hu).
        destruct (classify _ _) as [o|e].
        -- etransitivity; [apply runQueue_ids|].
           apply Permutation_submseteq. unfold task_ids.
           cbn [conn pending delivered add_delivery set_conn].
           rewrite map_app. cbn [map fst]. apply move_to_end.
        -- cbn [snd]. apply submseteq_cons. reflexivity.
  - reflexivity.
  - reflexivity.
  - unfold setDatabaseName, bind, get_conn.
    destruct (_databaseName (conn w)); reflexivity.
Qed.

Lemma run_ids (es : list Event) (w : World) :
  task_ids (run w es) ⊆+ task_ids w ++ flat_map event_ids es.
Proof.
  revert w. induction es as [|e es IH]; intros w; cbn [run fold_left flat_map].
  - rewrite app_nil_r. reflexivity.
  - etransitivity; [apply IH|]. rewrite app_assoc.
    apply submseteq_app; [apply step_ids | reflexivity].
Qed.

End Ids.

Lemma submseteq_NoDup_l {A} (l k : list A) : l ⊆+ k -> NoDup k -> NoDup l.
Proof.
  intros Hsub Hk. apply submseteq_Permutation in Hsub. destruct Hsub as [k' Hperm].
  rewrite Hperm in Hk. apply NoDup_app in Hk. apply Hk.
Qed.

(** X13. When the requests of an execution come with errbacks that are
    all distinct, no errback is called twice, an errback that was called
    belongs to no task that still waits or whose call is still out, and
    only errbacks that came with a request are ever called. *)
Theorem errback_called_at_most_once `{Runtime}
    (config : option Config) (draw : Z) (es : list Event) :
  NoDup (flat_map event_ids es) ->
  let w := run (initial_world config draw) es in
  NoDup (map fst (delivered w))
  /\ (forall k, k ∈ map fst (delivered w) ->
        (k ∉ map cb (_queue (conn w)))
        /\ (k ∉ map (fun p => cb (fst p)) (pending w)))
  /\ (forall k, k ∈ map fst (delivered w) -> k ∈ flat_map event_ids es).
Proof.
  intros Hdistinct w.
  assert (Hsub : task_ids w ⊆+ flat_map event_ids es).
  { subst w. etransitivity; [apply run_ids|].
    destruct (constructor_fields config draw) as (_ & _ & _ & Hq & _).
    unfold task_ids. cbn [initial_world conn pending delivered]. rewrite Hq. reflexivity. }
  assert (Hnodup : NoDup (task_ids w)) by (apply (submseteq_NoDup_l _ _ Hsub Hdistinct)).
  unfold task_ids in Hnodup.
  apply NoDup_app in Hnodup. destruct Hnodup as (_ & Hqd & Hnodup).
  apply NoDup_app in Hnodup. destruct Hnodup as (_ & Hpd & Hd).
  split; [exact Hd|]. split.
  - intros k Hk. split.
    + intros Hin. apply (Hqd k Hin). apply elem_of_app. right. exact Hk.
    + intros Hin. exact (Hpd k Hin Hk).
  - intros k Hk. apply (elem_of_submseteq (task_ids w)); [|exact Hsub].
    unfold task_ids. apply elem_of_app. right. apply elem_of_app. right. exact Hk.
Qed.

Lemma errback_called_at_most_once_witness :
  NoDup (map fst (delivered
    (@run SmallRuntime.runtime
       (@initial_world SmallRuntime.runtime
          (Some (sample_config three_hosts NONE 1 false)) 0)
       (requests 3 ++ [EvComplete 0 (inl "ECONNRESET");
                       EvComplete 0 (inr (text_response 200 "text/plain" "ok"))])))).
Proof.
  refine (proj1 (@errback_called_at_most_once SmallRuntime.runtime
    (Some (sample_config three_hosts NONE 1 false)) 0
    (requests 3 ++ [EvComplete 0 (inl "ECONNRESET");
                    EvComplete 0 (inr (text_response 200 "text/plain" "ok"))]) _)).
  apply (bool_decide_unpack _). vm_compute. exact I.
Defined.

(** ** No task waits while a call could be made *)

Section Conserving.

Context `{Runtime}.

Lemma at_capacity_ext (c c' : Connection) :
  _activeTasks c' = _activeTasks c -> _maxTasks c' = _maxTasks c ->
  at_capacity c' = at_capacity c.
Proof. unfold at_capacity. intros -> ->. reflexivity. Qed.

Lemma runQueue_conserving (w : World) :
  _queue (conn w) = []
  \/ length (_queue (conn w)) = 1%nat
  \/ at_capacity (set_activeTasks (_activeTasks (conn w) + 1) (conn w)) = true ->
  work_conserving (snd (_runQueue w)).
Proof.
  intros Hw. unfold work_conserving.
  destruct (_queue (conn w)) as [|task rest] eqn:Hq.
  { rewrite runQueue_idle by (left; exact Hq). left. exact Hq. }
  destruct (at_capacity (conn w)) eqn:Hcap.
  { rewrite runQueue_idle by (right; exact Hcap). right. exact Hcap. }
  rewrite (runQueue_dispatch w task rest Hq Hcap).
  match goal with |- context [dispatched ?c ?r ?a] =>
    destruct (dispatched_fields c r a) as (Hdm & Hda & Hdq & _);
    set (c' := dispatched c r a) in * end.
  assert (Hgoal : _queue c' = [] \/ at_capacity c' = true).
  { destruct Hw as [Hnil|[Hone|Hnext]].
    - discriminate.
    - left. rewrite Hdq. destruct rest; [reflexivity | discriminate].
    - right. rewrite <- Hnext. apply at_capacity_ext; [rewrite Hda | rewrite Hdm]; reflexivity. }
  destruct (nth_js _ _); exact Hgoal.
Qed.

Lemma step_conserving (w : World) (e : Event) :
  resolves e -> work_conserving w -> work_conserving (step w e).
Proof.
  intros He Hw. unfold step, exec.
  destruct e as [opts k|k result|urls|key value|name]; cbn [handle].
  - destruct (encode_body (default false (ro_isBinary opts))
                (default false (ro_isJsonStream opts)) (ro_body opts)) as [enc|e] eqn:Henc.
    + rewrite (request_queues w opts k enc Henc). apply runQueue_conserving.
      unfold queued. cbn [conn set_conn _queue set_queue].
      destruct Hw as [Hnil|Hcap].
      * right. left. rewrite Hnil. reflexivity.
      * destruct (_queue (conn w)) as [|t0 q0] eqn:Hq; [right; left; reflexivity|].
        right. right.
        assert (Hidle : at_capacity (set_queue ((t0 :: q0) ++ [make_task (conn w) opts k
                          (fst enc) (snd enc)]) (conn w)) = true) by exact Hcap.
        unfold at_capacity in *. cbn [_activeTasks _maxTasks set_activeTasks set_queue] in *.
        destruct (to_number (_maxTasks (conn w))) as [c|]; [|discriminate].
        cbn [ge] in *. apply Z.leb_le. apply Z.leb_le in Hcap. lia.
    + rewrite (request_throws w opts k e Henc). exact Hw.
  - destruct (pending w !! k) as [[t h]|] eqn:Hk; [|exact Hw].
    assert (Hback : forall c', _activeTasks c' = _activeTasks (conn w) - 1 ->
              _maxTasks c' = _maxTasks (conn w) ->
              at_capacity (conn w) = true ->
              at_capacity (set_activeTasks (_activeTasks c' + 1) c') = true).
    { intros c' Ha Hm Hcap. rewrite <- Hcap. apply at_capacity_ext.
      - cbn [_activeTasks set_activeTasks]. rewrite Ha. lia.
      - exact Hm. }
    destruct result as [err|response].
    + rewrite on_complete_error. apply runQueue_conserving.
      cbn [conn add_delivery set_conn take_pending].
      destruct (failover_fields h (one_task_less (conn w))) as (Hfm & Hfa & Hfq & _).
      rewrite Hfq. change (_queue (one_task_less (conn w))) with (_queue (conn w)).
      destruct Hw as [Hnil|Hcap]; [left; exact Hnil|].
      right. right. apply Hback; [rewrite Hfa; reflexivity | rewrite Hfm; reflexivity | exact Hcap].
    + destruct (leader_endpoint response) as [u|] eqn:Hu.
      * rewrite (on_complete_redirect _ _ _ _ _ Hu). apply runQueue_conserving.
        cbn [conn set_conn take_pending].
        destruct (redirect_unfold t h u (one_task_less (conn w))) as (_ & _ & Hred).
        destruct (redirect_fields t h u (one_task_less (conn w))) as (Hrm & Hra).
        assert (Hrq : _queue (redirect t h u (one_task_less (conn w))) =
                      _queue (conn w) ++ [set_host (Some (Num (indexOf
                        (_urls (fst (addToHostList (inl u) (one_task_less (conn w)))))
                        (_sanitizeEndpointUrl u)))) t]).
        { rewrite Hred. reflexivity. }
        rewrite Hrq.
        destruct Hw as [Hnil|Hcap].
        -- right. left. rewrite Hnil. reflexivity.
        -- right. right. apply Hback; [rewrite Hra; reflexivity | rewrite Hrm; reflexivity
                                       | exact Hcap].
      * rewrite (on_complete_response _ _ _ _ Hu).
        cbn [resolves] in He.
        destruct (He (expectBinary (options t)) h) as [o Ho]. rewrite Ho.
        apply runQueue_conserving. cbn [conn add_delivery set_conn take_pending].
        change (_queue (one_task_less (conn w))) with (_queue (conn w)).
        destruct Hw as [Hnil|Hcap]; [left; exact Hnil|].
        right. right. apply Hback; [reflexivity | reflexivity | exact Hcap].
  - exact Hw.
  - exact Hw.
  - unfold setDatabaseName, bind, get_conn.
    destruct (_databaseName (conn w)); exact Hw.
Qed.

Lemma run_conserving (es : list Event) (w : World) :
  Forall resolves es -> work_conserving w -> work_conserving (run w es).
Proof.
  revert w. induction es as [|e es IH]; intros w Hes Hw; cbn [run fold_left].
  - exact Hw.
  - apply Forall_cons in Hes. destruct Hes as [He Hes].
    apply IH; [exact Hes|]. apply step_conserving; assumption.
Qed.

End Conserving.

(** X14. As long as the [resolve] continuation does not throw, a task
    waits in the queue only while the cap is reached: in every such
    execution the queue is empty or [_activeTasks >= _maxTasks].  So when
    [_maxTasks] is no number, nothing ever waits.  A [resolve] that
    throws skips the [_runQueue] that follows it, and a task can then
    wait below the cap until the next event. *)
Theorem queue_waits_only_at_cap `{Runtime}
    (config : option Config) (draw : Z) (es : list Event) :
  Forall resolves es ->
  let w := run (initial_world config draw) es in
  (_queue (conn w) = [] \/ at_capacity (conn w) = true)
  /\ (to_number (_maxTasks (constructor config draw)) = NaN -> _queue (conn w) = []).
Proof.
  intros Hres w.
  assert (Hw : work_conserving w).
  { subst w. apply run_conserving; [exact Hres|]. left.
    apply (constructor_fields config draw). }
  split; [exact Hw|].
  intros Hnan. destruct Hw as [Hnil|Hcap]; [exact Hnil|].
  assert (Hfix : fixed_fields (constructor config draw) w).
  { apply run_fixed. repeat split; reflexivity. }
  destruct Hfix as (_ & _ & Hmax & _).
  unfold at_capacity in Hcap. rewrite Hmax, Hnan in Hcap. discriminate.
Qed.

Lemma queue_waits_only_at_cap_witness :
  let w := @run SmallRuntime.runtime
             (@initial_world SmallRuntime.runtime
                (Some (sample_config three_hosts NONE 1 false)) 0)
             (requests 3 ++ [EvComplete 0 (inr (text_response 200 "text/plain" "ok"))]) in
  _queue (conn w) = [] \/ @at_capacity SmallRuntime.runtime (conn w) = true.
Proof.
  refine (proj1 (@queue_waits_only_at_cap SmallRuntime.runtime
    (Some (sample_config three_hosts NONE 1 false)) 0
    (requests 3 ++ [EvComplete 0 (inr (text_response 200 "text/plain" "ok"))]) _)).
  unfold requests. cbn [seq map app].
  repeat (apply Forall_cons; split; [exact I|]).
  apply Forall_cons. split; [|apply Forall_nil_2].
  intros eb h. destruct eb; eexists; reflexivity.
Defined.

(** A completion whose body decodes to an object with an own
    [hasOwnProperty]: [resolve] throws, the queue is not run, and the
    task behind waits although no call is out. *)
Example resolve_throw_stalls_queue :
  let w := @run SmallRuntime.runtime
             (@initial_world SmallRuntime.runtime
                (Some (sample_config three_hosts NONE 1 false)) 0)
             (requests 2 ++
              [EvComplete 0 (inr (text_response 200 "application/json"
                                    (SmallRuntime.dq "{'hasOwnProperty':1}")))]) in
  length (_queue (conn w)) = 1%nat /\ _activeTasks (conn w) = 0
  /\ pending w = [] /\ delivered w = []
  /\ @at_capacity SmallRuntime.runtime (conn w) = false.
Proof. vm_compute. repeat split; reflexivity. Qed.

(** ** Indices in use are indices of handles *)

Section Sound.

Context `{Runtime}.

Lemma valid_index_grows (c c' : Connection) (h : jsnum) :
  (length (_hosts c) <= length (_hosts c'))%nat ->
  valid_index c h -> valid_index c' h.
Proof. destruct h as [z|]; cbn; [lia | intros _ []]. Qed.

Lemma valid_index_nth (c : Connection) (h : jsnum) :
  valid_index c h -> is_Some (nth_js (_hosts c) h).
Proof.
  destruct h as [z|]; cbn; [|contradiction]. intros Hz.
  destruct (Z.ltb_spec z 0); [lia|]. apply lookup_lt_is_Some. lia.
Qed.

Lemma valid_index_next (c c' : Connection) (h : jsnum) :
  length (_hosts c') = length (_hosts c) ->
  valid_index c h ->
  valid_index c' (rem (add1 h) (Num (Z.of_nat (length (_hosts c))))).
Proof.
  intros Hlen. destruct h as [z|]; cbn [valid_index]; [|contradiction]. intros Hz.
  rewrite (rem_in_range z _ Hz). cbn [valid_index]. rewrite Hlen.
  apply Z.mod_pos_bound. lia.
Qed.

Lemma hosts_sound_ext (n0 : nat) (w w' : World) :
  (length (_hosts (conn w)) <= length (_hosts (conn w')))%nat ->
  (n0 <= length (_hosts (conn w)))%nat ->
  length (_hosts (conn w')) = length (_urls (conn w')) ->
  valid_index (conn w') (_activeHost (conn w')) ->
  Forall (host_ok (conn w')) (_queue (conn w')) ->
  in_flight w' = _activeTasks (conn w') ->
  Forall (fun call => valid_index (conn w') (fst call)) (issued w') ->
  hosts_sound n0 w'.
Proof. intros. repeat split; try assumption. lia. Qed.

Lemma host_ok_grows (c c' : Connection) (t : Task) :
  (length (_hosts c) <= length (_hosts c'))%nat -> host_ok c t -> host_ok c' t.
Proof.
  unfold host_ok. destruct (host t); [|exact (fun _ x => x)].
  apply valid_index_grows.
Qed.

Lemma runQueue_sound (n0 : nat) (w : World) :
  hosts_sound n0 w -> hosts_sound n0 (snd (_runQueue w)).
Proof.
  intros Hw.
  destruct (_queue (conn w)) as [|task rest] eqn:Hq.
  { rewrite runQueue_idle by (left; exact Hq). exact Hw. }
  destruct (at_capacity (conn w)) eqn:Hcap.
  { rewrite runQueue_idle by (right; exact Hcap). exact Hw. }
  rewrite (runQueue_dispatch w task rest Hq Hcap).
  destruct Hw as (Hn0 & Hlen & Hact & Hqueue & Hfl & Hiss).
  rewrite Hq in Hqueue. apply Forall_cons in Hqueue. destruct Hqueue as [Htask Hrest].
  set (adv := match host task with Some _ => false | None => _ end).
  set (h := default (_activeHost (conn w)) (host task)).
  destruct (dispatched_fields (conn w) rest adv) as (_ & Hda & Hdq & Hdh & Hdu & _).
  assert (Hh : valid_index (conn w) h).
  { subst h. unfold host_ok in Htask. destruct (host task); [exact Htask | exact Hact]. }
  destruct (valid_index_nth _ _ Hh) as [f Hf]. rewrite Hf. cbn [snd].
  assert (Hgrow : (length (_hosts (conn w)) <= length (_hosts (dispatched (conn w) rest adv)))%nat)
    by (rewrite Hdh; lia).
  apply (hosts_sound_ext n0 w); cbn [conn pending issued]; try assumption.
  - rewrite Hdh, Hdu. exact Hlen.
  - rewrite dispatched_unfold. destruct adv; cbn [_activeHost set_activeTasks set_activeHost].
    + apply (valid_index_next (conn w)); [rewrite <- Hdh at 2|exact Hact].
      rewrite dispatched_unfold. reflexivity.
    + apply (valid_index_grows (conn w)); [exact Hgrow | exact Hact].
  - rewrite Hdq. eapply Forall_impl; [exact Hrest|].
    intros t. apply host_ok_grows. exact Hgrow.
  - unfold in_flight in *. cbn [pending]. rewrite length_app, Hda. cbn [length]. lia.
  - apply Forall_app. split.
    + eapply Forall_impl; [exact Hiss|]. intros call. apply valid_index_grows. exact Hgrow.
    + apply Forall_singleton. cbn [fst]. apply (valid_index_grows (conn w)); assumption.
Qed.

Lemma nth_js_lt {A} (l : list A) (z : Z) (x : A) :
  nth_js l (Num z) = Some x -> 0 <= z < Z.of_nat (length l).
Proof.
  unfold nth_js. destruct (Z.ltb_spec z 0); [discriminate|]. intros Hl.
  apply lookup_lt_Some in Hl. lia.
Qed.

Lemma addToHostList_grows (urls : string + list string) (c : Connection) :
  (length (_hosts c) <= length (_hosts (fst (addToHostList urls c))))%nat.
Proof. unfold addToHostList. cbn. rewrite length_app. lia. Qed.

(** A change of the connection that keeps the registry, the queue and the
    active host. *)
Lemma hosts_sound_same (n0 : nat) (w w' : World) :
  _hosts (conn w') = _hosts (conn w) -> _urls (conn w') = _urls (conn w) ->
  _activeHost (conn w') = _activeHost (conn w) ->
  _queue (conn w') = _queue (conn w) ->
  in_flight w' = _activeTasks (conn w') ->
  issued w' = issued w ->
  hosts_sound n0 w -> hosts_sound n0 w'.
Proof.
  intros Hh Hu Ha Hq Hfl Hi (Hn0 & Hlen & Hact & Hqueue & _ & Hiss).
  unfold hosts_sound, host_ok, valid_index in *.
  rewrite Hh, Hu, Ha, Hq, Hi. repeat split; assumption.
Qed.

Lemma step_sound (n0 : nat) (w : World) (e : Event) :
  names_host_below n0 e -> hosts_sound n0 w -> hosts_sound n0 (step w e).
Proof.
  intros He Hw. unfold step, exec.
  destruct e as [opts k|k result|urls|key value|name]; cbn [handle].
  - destruct (encode_body (default false (ro_isBinary opts))
                (default false (ro_isJsonStream opts)) (ro_body opts)) as [enc|e] eqn:Henc.
    + rewrite (request_queues w opts k enc Henc). apply runQueue_sound.
      destruct Hw as (Hn0 & Hlen & Hact & Hqueue & Hfl & Hiss).
      apply (hosts_sound_ext n0 w); try assumption; [reflexivity|].
      unfold queued. cbn [conn set_conn _queue set_queue].
      apply Forall_app. split; [exact Hqueue|]. apply Forall_singleton.
      unfold host_ok. cbn [make_task host]. cbn [names_host_below] in He.
      destruct (ro_host opts) as [[z|]|]; [|contradiction|exact I].
      cbn [valid_index set_queue _hosts]. lia.
    + rewrite (request_throws w opts k e Henc). exact Hw.
  - destruct (pending w !! k) as [[t h]|] eqn:Hk; [|exact Hw].
    assert (Hflight : in_flight (take_pending k w) = _activeTasks (conn w) - 1).
    { destruct Hw as (_ & _ & _ & _ & Hfl & _). unfold in_flight in *. cbn [take_pending pending].
      assert (Hd := length_delete (pending w) k (mk_is_Some _ _ Hk)).
      assert (Hpos := lookup_lt_Some _ _ _ Hk). lia. }
    destruct result as [err|response].
    + rewrite on_complete_error. apply runQueue_sound.
      destruct (failover_fields h (one_task_less (conn w))) as (_ & Hfa & Hfq & Hfh & Hfu).
      destruct Hw as (Hn0 & Hlen & Hact & Hqueue & Hfl & Hiss).
      assert (Hsame : length (_hosts (failover h (one_task_less (conn w)))) =
                      length (_hosts (conn w))) by (rewrite Hfh; reflexivity).
      apply (hosts_sound_ext n0 w); cbn [conn add_delivery set_conn take_pending issued];
        try assumption.
      * rewrite Hsame. lia.
      * rewrite Hfh, Hfu. exact Hlen.
      * unfold failover. destruct (_ && _ && _).
        -- apply (valid_index_next (conn w)); [reflexivity | exact Hact].
        -- exact Hact.
      * rewrite Hfq. eapply Forall_impl; [exact Hqueue|]. intros t0.
        apply host_ok_grows. rewrite Hsame. lia.
      * rewrite Hfa. exact Hflight.
      * eapply Forall_impl; [exact Hiss|]. intros call.
        apply valid_index_grows. rewrite Hsame. lia.
    + destruct (leader_endpoint response) as [u|] eqn:Hu.
      * rewrite (on_complete_redirect _ _ _ _ _ Hu). apply runQueue_sound.
        change (conn (take_pending k w)) with (conn w).
        destruct (redirect_unfold t h u (one_task_less (conn w))) as (_ & Hnth & Hred).
        destruct (redirect_fields t h u (one_task_less (conn w))) as (_ & Hra).
        destruct Hw as (Hn0 & Hlen & Hact & Hqueue & Hfl & Hiss).
        set (c1 := fst (addToHostList (inl u) (one_task_less (conn w)))) in *.
        set (i := indexOf (_urls c1) (_sanitizeEndpointUrl u)) in *.
        assert (Hgrow : (length (_hosts (conn w)) <= length (_hosts c1))%nat)
          by apply (addToHostList_grows (inl u) (one_task_less (conn w))).
        assert (Hlen1 : length (_hosts c1) = length (_urls c1))
          by (apply (addToHostList_lengths (inl u) (one_task_less (conn w))); exact Hlen).
        assert (Hi : valid_index c1 (Num i)).
        { cbn [valid_index]. rewrite Hlen1. apply (nth_js_lt _ _ _ Hnth). }
        set (c2 := redirect t h u (one_task_less (conn w))) in *.
        assert (Hh2 : _hosts c2 = _hosts c1)
          by (rewrite Hred; destruct (strict_eq _ _); reflexivity).
        assert (Hu2 : _urls c2 = _urls c1)
          by (rewrite Hred; destruct (strict_eq _ _); reflexivity).
        assert (Hv : forall x, valid_index c1 x -> valid_index c2 x)
          by (intros x; apply valid_index_grows; rewrite Hh2; lia).
        assert (Hv0 : forall x, valid_index (conn w) x -> valid_index c2 x)
          by (intros x Hx; apply Hv; apply (valid_index_grows (conn w)); assumption).
        apply (hosts_sound_ext n0 w); cbn [conn set_conn take_pending issued];
          try assumption.
        -- rewrite Hh2. exact Hgrow.
        -- rewrite Hh2, Hu2. exact Hlen1.
        -- rewrite Hred at 2. destruct (strict_eq _ _); cbn [_activeHost set_queue set_activeHost].
           ++ apply Hv. exact Hi.
           ++ apply Hv0. exact Hact.
        -- rewrite Hred at 2.
           assert (Hq : forall q c0, _queue (set_queue q c0) = q) by reflexivity.
           rewrite Hq. apply Forall_app. split.
           ++ eapply Forall_impl; [exact Hqueue|]. intros t0. unfold host_ok.
              destruct (host t0); [apply Hv0 | exact id].
           ++ apply Forall_singleton. unfold host_ok. cbn [set_host host]. apply Hv. exact Hi.
        -- fold c2. rewrite Hra. exact Hflight.
        -- eapply Forall_impl; [exact Hiss|]. intros call. apply Hv0.
      * rewrite (on_complete_response _ _ _ _ Hu).
        assert (Hbase : forall dlv, hosts_sound n0
                  {| conn := one_task_less (conn w); pending := delete k (pending w);
                     issued := issued w; delivered := dlv |}).
        { intros dlv. apply (hosts_sound_same n0 w); try reflexivity; [|exact Hw].
          exact Hflight. }
        destruct (classify _ _) as [o|e].
        -- apply runQueue_sound. apply Hbase.
        -- apply Hbase.
  - destruct Hw as (Hn0 & Hlen & Hact & Hqueue & Hfl & Hiss).
    assert (Hgrow := addToHostList_grows urls (conn w)).
    apply (hosts_sound_ext n0 w); cbn [snd modify_conn conn issued]; try assumption.
    + apply addToHostList_lengths. exact Hlen.
    + apply (valid_index_grows (conn w)); assumption.
    + eapply Forall_impl; [exact Hqueue|]. intros t0. apply host_ok_grows. exact Hgrow.
    + eapply Forall_impl; [exact Hiss|]. intros call. apply valid_index_grows. exact Hgrow.
  - apply (hosts_sound_same n0 w); try reflexivity; [|exact Hw]. apply Hw.
  - unfold setDatabaseName, bind, get_conn.
    destruct (_databaseName (conn w)); [|exact Hw].
    apply (hosts_sound_same n0 w); try reflexivity; [|exact Hw]. apply Hw.
Qed.

Lemma run_sound (n0 : nat) (es : list Event) (w : World) :
  Forall (names_host_below n0) es -> hosts_sound n0 w -> hosts_sound n0 (run w es).
Proof.
  revert w. induction es as [|e es IH]; intros w Hes Hw; cbn [run fold_left].
  - exact Hw.
  - apply Forall_cons in Hes. destruct Hes as [He Hes].
    apply IH; [exact Hes|]. apply step_sound; assumption.
Qed.

End Sound.

(** X15. For a connection made with at least one URL (and, under
    ONE_RANDOM, a draw within the registry), in every execution whose
    requests name no host or one of the hosts of the constructor: the
    active host is the index of a handle, so is the host of every task
    that waits and of every call that was made, which means that
    [_runQueue] never throws for want of a handle; and [_activeTasks] is
    the number of calls that are out. *)
Theorem indices_in_use_are_valid `{Runtime}
    (config : option Config) (draw : Z) (es : list Event) :
  let urls := config_urls (cfg_url (config_object config)) in
  urls <> [] ->
  (default NONE (cfg_loadBalancingStrategy (config_object config)) = ONE_RANDOM ->
   0 <= draw < Z.of_nat (length urls)) ->
  Forall (names_host_below (length urls)) es ->
  let w := run (initial_world config draw) es in
  in_flight w = _activeTasks (conn w)
  /\ (exists a, _activeHost (conn w) = Num a
                /\ 0 <= a < Z.of_nat (length (_hosts (conn w))))
  /\ (forall call, call ∈ issued w -> is_Some (nth_js (_hosts (conn w)) (fst call)))
  /\ (forall t h, t ∈ _queue (conn w) -> host t = Some h ->
        is_Some (nth_js (_hosts (conn w)) h)).
Proof.
  intros urls Hne Hdraw Hes w.
  assert (Hinit : hosts_sound (length urls) (initial_world config draw)).
  { destruct (constructor_registry config draw) as (Hurls & Hhosts & Hactive).
    destruct (constructor_fields config draw) as (_ & _ & Hact & Hq & _ & _ & Hlen).
    fold urls in Hurls.
    assert (Hcount : length (_hosts (constructor config draw)) = length urls).
    { rewrite Hlen, Hurls, length_map. reflexivity. }
    unfold hosts_sound. cbn [initial_world conn pending issued].
    split; [lia|]. split; [exact Hlen|]. split.
    { rewrite Hactive. destruct (strategy_eqb _ ONE_RANDOM) eqn:Hs; cbn [valid_index].
      - rewrite Hcount. apply Hdraw.
        destruct (default NONE _); try discriminate. reflexivity.
      - rewrite Hcount. destruct urls; [contradiction|]. cbn [length]. lia. }
    split; [rewrite Hq; apply Forall_nil_2|].
    split; [unfold in_flight; cbn; rewrite Hact; reflexivity|].
    apply Forall_nil_2. }
  assert (Hw : hosts_sound (length urls) w) by (apply run_sound; assumption).
  destruct Hw as (_ & _ & Hactive & Hqueue & Hfl & Hiss).
  split; [exact Hfl|]. split.
  { destruct (_activeHost (conn w)) as [a|]; [|contradiction].
    exists a. split; [reflexivity | exact Hactive]. }
  split.
  { intros call Hin. apply valid_index_nth.
    rewrite Forall_forall in Hiss. apply Hiss. exact Hin. }
  intros t h Hin Hh. apply valid_index_nth.
  rewrite Forall_forall in Hqueue. specialize (Hqueue t Hin).
  unfold host_ok in Hqueue. rewrite Hh in Hqueue. exact Hqueue.
Qed.

Lemma indices_in_use_are_valid_witness :
  let w := @run SmallRuntime.runtime
             (@initial_world SmallRuntime.runtime
                (Some (sample_config three_hosts ROUND_ROBIN 1 false)) 0)
             [EvRequest (get_path "/_api/version") 0;
              EvRequest (get_path_on 2 "/_api/version") 1;
              EvComplete 0 (inl "ECONNRESET")] in
  in_flight w = _activeTasks (conn w).
Proof.
  refine (proj1 (@indices_in_use_are_valid SmallRuntime.runtime
    (Some (sample_config three_hosts ROUND_ROBIN 1 false)) 0
    [EvRequest (get_path "/_api/version") 0;
     EvRequest (get_path_on 2 "/_api/version") 1;
     EvComplete 0 (inl "ECONNRESET")] _ _ _)).
  - discriminate.
  - discriminate.
  - apply Forall_cons. split; [exact I|].
    apply Forall_cons. split; [cbn; lia|].
    apply Forall_cons. split; [exact I | apply Forall_nil_2].
Defined.

(** ** Failover and redirect, followed through *)

Lemma runQueue_pending `{Runtime} (w : World) :
  pending w `prefix_of` pending (snd (_runQueue w)).
Proof.
  destruct (_queue (conn w)) as [|task rest] eqn:Hq.
  { rewrite runQueue_idle by (left; exact Hq). reflexivity. }
  destruct (at_capacity (conn w)) eqn:Hcap.
  { rewrite runQueue_idle by (right; exact Hcap). reflexivity. }
  rewrite (runQueue_dispatch w task rest Hq Hcap).
  destruct (nth_js _ _); cbn [snd pending set_conn]; [|reflexivity].
  apply prefix_app_r. reflexivity.
Qed.

Lemma runQueue_hosts `{Runtime} (w : World) :
  _hosts (conn (snd (_runQueue w))) = _hosts (conn w).
Proof.
  destruct (_queue (conn w)) as [|task rest] eqn:Hq.
  { rewrite runQueue_idle by (left; exact Hq). reflexivity. }
  destruct (at_capacity (conn w)) eqn:Hcap.
  { rewrite runQueue_idle by (right; exact Hcap). reflexivity. }
  rewrite (runQueue_dispatch w task rest Hq Hcap).
  match goal with |- context [dispatched ?c ?r ?a] =>
    destruct (dispatched_fields c r a) as (_ & _ & _ & Hdh & _) end.
  destruct (nth_js _ _); exact Hdh.
Qed.

Lemma step_error_effect `{Runtime} (w : World) (k : nat) (t : Task) (h : jsnum)
    (err : JsError) :
  pending w !! k = Some (t, h) ->
  _loadBalancingStrategy (conn w) <> ROUND_ROBIN ->
  let w' := step w (EvComplete k (inl err)) in
  _activeHost (conn w') = _activeHost (failover h (conn w))
  /\ _hosts (conn w') = _hosts (conn w)
  /\ delete k (pending w) `prefix_of` pending w'
  /\ delivered w' = delivered w ++ [(cb t, TransportError err)]
  /\ _loadBalancingStrategy (conn w') = _loadBalancingStrategy (conn w)
  /\ _useFailOver (conn w') = _useFailOver (conn w).
Proof.
  intros Hk Hs w'.
  assert (Hstep : w' = snd (_runQueue (add_delivery (cb t) (TransportError err)
                    (set_conn (failover h (one_task_less (conn w))) (take_pending k w))))).
  { subst w'. unfold step, exec. cbn [handle]. rewrite Hk. reflexivity. }
  assert (Hfix : fixed_fields (conn w) w').
  { subst w'. apply step_fixed. repeat split; reflexivity. }
  destruct Hfix as (Hfs & Hfu & _).
  rewrite Hstep.
  split.
  { rewrite runQueue_activeHost.
    - cbn [conn add_delivery set_conn]. unfold failover.
      destruct (_ && _ && _); reflexivity.
    - cbn [conn add_delivery set_conn]. unfold failover.
      destruct (_ && _ && _); exact Hs. }
  split.
  { rewrite runQueue_hosts. cbn [conn add_delivery set_conn].
    apply (failover_fields h (one_task_less (conn w))). }
  split.
  { exact (runQueue_pending (add_delivery (cb t) (TransportError err)
             (set_conn (failover h (one_task_less (conn w))) (take_pending k w)))). }
  split; [rewrite runQueue_delivered; reflexivity|].
  rewrite <- Hstep. split; assumption.
Qed.

Lemma next_host_differs (a n : Z) : 1 < n -> 0 <= a < n -> (a + 1) mod n <> a.
Proof.
  intros Hn Ha. destruct (Z.eq_dec (a + 1) n) as [Heq|Hne].
  - rewrite Heq, Z.mod_same by lia. lia.
  - rewrite Z.mod_small by lia. lia.
Qed.

(** X16. Failover, outside ROUND_ROBIN and with more than one host.
    When a call to the active host fails, the active host becomes the
    next one; when a second call that had gone to the same host fails
    after that, the active host stays where the first failure put it.
    Both tasks end with their transport errors, and the next task that
    names no host goes to the new active host. *)
Theorem failover_moves_once `{Runtime}
    (w : World) (a n : Z) (t1 t2 : Task) (rest : list (Task * jsnum))
    (e1 e2 : JsError) :
  _loadBalancingStrategy (conn w) <> ROUND_ROBIN ->
  _useFailOver (conn w) = true ->
  Z.of_nat (length (_hosts (conn w))) = n ->
  1 < n ->
  _activeHost (conn w) = Num a ->
  0 <= a < n ->
  pending w = (t1, Num a) :: (t2, Num a) :: rest ->
  let w1 := step w (EvComplete 0 (inl e1)) in
  let w2 := step w1 (EvComplete 0 (inl e2)) in
  _activeHost (conn w1) = Num ((a + 1) mod n)
  /\ _activeHost (conn w2) = Num ((a + 1) mod n)
  /\ (a + 1) mod n <> a
  /\ delivered w2 =
       delivered w ++ [(cb t1, TransportError e1); (cb t2, TransportError e2)]
  /\ (forall task q,
        _queue (conn w2) = task :: q -> host task = None ->
        at_capacity (conn w2) = false ->
        issued (exec _runQueue w2) = issued w2 ++ [(Num ((a + 1) mod n), task)]).
Proof.
  intros Hs Hfo Hn H1 Ha Hrange Hp w1 w2.
  assert (Hne := next_host_differs a n H1 Hrange).
  destruct (step_error_effect w 0 t1 (Num a) e1) as (Hact1 & Hh1 & Hp1 & Hd1 & Hs1 & Hf1);
    [rewrite Hp; reflexivity | exact Hs|].
  fold w1 in Hact1, Hh1, Hp1, Hd1, Hs1, Hf1.
  assert (Hw1 : _activeHost (conn w1) = Num ((a + 1) mod n)).
  { rewrite Hact1. unfold failover. rewrite Hfo, Ha, Hn.
    assert (Hlt : (1 <? n) = true) by (apply Z.ltb_lt; exact H1).
    rewrite Hlt. unfold strict_eq, jsnum_eqb. rewrite Z.eqb_refl. cbn [andb].
    unfold advance_activeHost. cbn [_activeHost set_activeHost]. rewrite Ha, Hn.
    apply rem_in_range. exact Hrange. }
  assert (Hk2 : pending w1 !! 0%nat = Some (t2, Num a)).
  { rewrite Hp in Hp1. cbn in Hp1. destruct Hp1 as [l Hl]. rewrite Hl. reflexivity. }
  destruct (step_error_effect w1 0 t2 (Num a) e2) as (Hact2 & Hh2 & _ & Hd2 & _);
    [exact Hk2 | rewrite Hs1; exact Hs|].
  fold w2 in Hact2, Hh2, Hd2.
  assert (Hw2 : _activeHost (conn w2) = Num ((a + 1) mod n)).
  { rewrite Hact2. unfold failover. rewrite Hw1.
    assert (Hneq : strict_eq (Num ((a + 1) mod n)) (Num a) = false).
    { unfold strict_eq, jsnum_eqb. apply Z.eqb_neq. exact Hne. }
    rewrite Hneq, andb_false_r. cbn [andb]. exact Hw1. }
  split; [exact Hw1|]. split; [exact Hw2|]. split; [exact Hne|].
  split.
  { rewrite Hd2, Hd1, <- app_assoc. reflexivity. }
  intros task q Hq Hhost Hcap.
  assert (Hrun := runQueue_dispatch w2 task q Hq Hcap).
  rewrite Hhost, Hw2 in Hrun. cbn [default from_option id] in Hrun.
  unfold exec. rewrite Hrun.
  assert (Hsome : is_Some (nth_js (_hosts (conn w2)) (Num ((a + 1) mod n)))).
  { unfold nth_js.
    assert (Hb := Z.mod_pos_bound (a + 1) n ltac:(lia)).
    destruct (Z.ltb_spec ((a + 1) mod n) 0); [lia|].
    apply lookup_lt_is_Some. rewrite Hh2, Hh1. lia. }
  destruct Hsome as [f Hf]. rewrite Hf. reflexivity.
Qed.

Lemma failover_moves_once_witness :
  let w := calling (sample_task None 8) (Num 0)
             (calling (sample_task None 7) (Num 0)
                (@initial_world SmallRuntime.runtime
                   (Some (sample_config three_hosts NONE 3 true)) 0)) in
  let w2 := @step SmallRuntime.runtime
              (@step SmallRuntime.runtime w (EvComplete 0 (inl "ECONNREFUSED")))
              (EvComplete 0 (inl "ECONNREFUSED")) in
  _activeHost (conn w2) = Num 1.
Proof.
  intros w w2.
  refine (proj1 (proj2 (@failover_moves_once SmallRuntime.runtime w 0 3
            (sample_task None 7) (sample_task None 8) []
            "ECONNREFUSED" "ECONNREFUSED" _ _ _ _ _ _ _))).
  - discriminate.
  - reflexivity.
  - reflexivity.
  - lia.
  - reflexivity.
  - lia.
  - reflexivity.
Defined.

(** X17. A redirected task, followed through the [_runQueue] that ends
    the callback, when the completion has freed a slot.  With nothing
    waiting, the task goes out again at once, to the leader's index,
    without a word to the caller and with [_activeTasks] as before.  With
    tasks waiting, the oldest of them is taken instead and the redirected
    task waits behind all the others. *)
Theorem redirected_task_goes_to_the_back `{Runtime}
    (w : World) (k : nat) (t : Task) (h : jsnum)
    (response : Response ResBody) (u : string) :
  pending w !! k = Some (t, h) ->
  leader_endpoint response = Some u ->
  length (_hosts (conn w)) = length (_urls (conn w)) ->
  at_capacity (one_task_less (conn w)) = false ->
  let i := indexOf (_urls (fst (addToHostList (inl u) (conn w)))) (_sanitizeEndpointUrl u) in
  let t' := set_host (Some (Num i)) t in
  let w' := step w (EvComplete k (inr response)) in
  delivered w' = delivered w
  /\ (_queue (conn w) = [] ->
      issued w' = issued w ++ [(Num i, t')]
      /\ pending w' = delete k (pending w) ++ [(t', Num i)]
      /\ _queue (conn w') = []
      /\ _activeTasks (conn w') = _activeTasks (conn w))
  /\ (forall t0 rest, _queue (conn w) = t0 :: rest ->
        _queue (conn w') = rest ++ [t']
        /\ (forall call, call ∈ issued w' -> call ∈ issued w \/ snd call = t0)).
Proof.
  intros Hk Hu Hlen Hcap i t' w'.
  set (c2 := redirect t h u (one_task_less (conn w))).
  set (w1 := set_conn c2 (take_pending k w)).
  assert (Hstep : w' = snd (_runQueue w1)).
  { subst w' w1 c2. unfold step, exec. cbn [handle]. rewrite Hk.
    rewrite (on_complete_redirect _ _ _ _ _ Hu). reflexivity. }
  destruct (redirect_unfold t h u (one_task_less (conn w))) as (_ & Hnth & Hred).
  destruct (redirect_fields t h u (one_task_less (conn w))) as (Hrm & Hra).
  fold c2 in Hred, Hrm, Hra.
  change (indexOf (_urls (fst (addToHostList (inl u) (one_task_less (conn w)))))
            (_sanitizeEndpointUrl u)) with i in Hred, Hnth.
  fold t' in Hred.
  set (c1 := fst (addToHostList (inl u) (one_task_less (conn w)))) in *.
  assert (Hq2 : _queue c2 = _queue (conn w) ++ [t']) by (rewrite Hred; reflexivity).
  assert (Hh2 : _hosts c2 = _hosts c1)
    by (rewrite Hred; destruct (strict_eq _ _); reflexivity).
  assert (Hcap1 : at_capacity (conn w1) = false).
  { rewrite <- Hcap. apply at_capacity_ext; assumption. }
  assert (Hi : is_Some (nth_js (_hosts c2) (Num i))).
  { apply nth_js_lt in Hnth. rewrite Hh2. unfold nth_js.
    destruct (Z.ltb_spec i 0); [lia|]. apply lookup_lt_is_Some.
    assert (Hl : length (_hosts c1) = length (_urls c1))
      by (apply (addToHostList_lengths (inl u) (one_task_less (conn w))); exact Hlen).
    lia. }
  split; [rewrite Hstep, runQueue_delivered; reflexivity|].
  split.
  - intros Hnil.
    assert (Hq1 : _queue (conn w1) = t' :: []) by (cbn [w1 conn set_conn]; rewrite Hq2, Hnil; reflexivity).
    rewrite Hstep, (runQueue_dispatch w1 t' [] Hq1 Hcap1).
    cbn [t' set_host host default from_option id conn w1 set_conn].
    destruct Hi as [f Hf]. rewrite Hf. cbn [snd issued pending conn take_pending set_conn].
    match goal with |- context [dispatched ?c ?r ?a] =>
      destruct (dispatched_fields c r a) as (_ & Hda & Hdq & _) end.
    rewrite Hdq, Hda, Hra. cbn [one_task_less _activeTasks set_activeTasks].
    repeat split; try reflexivity. lia.
  - intros t0 rest Hq.
    assert (Hq1 : _queue (conn w1) = t0 :: (rest ++ [t']))
      by (cbn [w1 conn set_conn]; rewrite Hq2, Hq; reflexivity).
    rewrite Hstep, (runQueue_dispatch w1 t0 (rest ++ [t']) Hq1 Hcap1).
    destruct (nth_js (_hosts (conn w1)) (default (_activeHost (conn w1)) (host t0)));
      cbn [snd conn issued set_conn];
      match goal with |- context [dispatched ?c ?r ?a] =>
        destruct (dispatched_fields c r a) as (_ & _ & Hdq & _) end; rewrite Hdq.
    + split; [reflexivity|]. intros call Hin. apply elem_of_app in Hin.
      destruct Hin as [Hin|Hin]; [left; exact Hin|].
      apply list_elem_of_singleton in Hin. right. subst call. reflexivity.
    + split; [reflexivity|]. intros call Hin. left. exact Hin.
Qed.

Lemma redirected_task_goes_to_the_back_witness :
  let w := calling (sample_task None 7) (Num 0)
             (@initial_world SmallRuntime.runtime
                (Some (sample_config three_hosts NONE 3 true)) 0) in
  let w' := @step SmallRuntime.runtime w
              (EvComplete 0 (inr (leader_response "tcp://leader:8529"))) in
  map fst (issued w') = [Num 0; Num 3].
Proof.
  intros w w'.
  destruct (@redirected_task_goes_to_the_back SmallRuntime.runtime w 0
              (sample_task None 7) (Num 0) (leader_response "tcp://leader:8529")
              "tcp://leader:8529" eq_refl eq_refl eq_refl eq_refl) as (_ & Hempty & _).
  destruct (Hempty eq_refl) as (Hissued & _).
  subst w'. rewrite Hissued. reflexivity.
Defined.

(** ** The content-type pattern *)

Lemma prefix_app (p r : string) : String.prefix p (p +:+ r) = true.
Proof.
  induction p as [|a p IH]; [destruct r; reflexivity|].
  change (String.prefix (String a p) (String a (p +:+ r)) = true). simpl.
  destruct (ascii_dec a a); [exact IH | contradiction].
Qed.

Lemma prefix_split (p s : string) :
  String.prefix p s = true -> s = p +:+ string_drop (String.length p) s.
Proof.
  revert s. induction p as [|a p IH]; intros s; [reflexivity|].
  destruct s as [|b s]; [discriminate|]. simpl.
  destruct (ascii_dec a b) as [->|]; [|discriminate].
  intros Hp.
  change (String b s = String b (p +:+ string_drop (String.length p) s)).
  f_equal. apply IH. exact Hp.
Qed.

Lemma json_token_at_iff (s : string) :
  json_token_at s = true <->
  exists tok post, s = tok +:+ post /\ (tok = "json" \/ tok = "javascript")
                   /\ at_word_boundary post = true.
Proof.
  unfold json_token_at. split.
  - intros Ht. apply orb_true_iff in Ht.
    destruct Ht as [Ht|Ht]; apply andb_true_iff in Ht; destruct Ht as [Hp Hb].
    + exists "json", (string_drop 4 s). split; [exact (prefix_split "json" s Hp)|].
      split; [left; reflexivity | exact Hb].
    + exists "javascript", (string_drop 10 s).
      split; [exact (prefix_split "javascript" s Hp)|].
      split; [right; reflexivity | exact Hb].
  - intros (tok & post & -> & [->| ->] & Hb); apply orb_true_iff.
    + left. rewrite prefix_app. exact Hb.
    + right. rewrite prefix_app. exact Hb.
Qed.

(** X18. A content type matches [MIME_JSON] exactly when it has, at some
    place, a slash, then [json] or [javascript], and then either its end
    or a character that is no letter, digit or underscore.  So
    [application/json; charset=utf-8] and [text/javascript] match, and
    [application/jsonp] and [application/x-json] do not. *)
Theorem MIME_JSON_meaning (s : string) :
  matches_MIME_JSON s = true <->
  exists pre tok post,
    s = pre +:+ "/" +:+ tok +:+ post
    /\ (tok = "json" \/ tok = "javascript")
    /\ (post = EmptyString
        \/ exists a rest, post = String a rest /\ is_word_char a = false).
Proof.
  assert (Hboundary : forall post, at_word_boundary post = true <->
            (post = EmptyString
             \/ exists a rest, post = String a rest /\ is_word_char a = false)).
  { intros [|a rest]; cbn; split.
    - intros _. left. reflexivity.
    - intros _. reflexivity.
    - intros Hn. right. exists a, rest. split; [reflexivity|].
      apply negb_true_iff. exact Hn.
    - intros [Hemp|(a' & rest' & Heq & Hw)]; [discriminate|].
      injection Heq as -> ->. apply negb_true_iff. exact Hw. }
  split.
  - induction s as [|a s IH]; [discriminate|]. cbn [matches_MIME_JSON].
    intros Hm. apply orb_true_iff in Hm. destruct Hm as [Hhere|Hlater].
    + apply andb_true_iff in Hhere. destruct Hhere as [Ha Ht].
      apply Ascii.eqb_eq in Ha. subst a.
      apply json_token_at_iff in Ht. destruct Ht as (tok & post & -> & Htok & Hb).
      exists EmptyString, tok, post. split; [reflexivity|].
      split; [exact Htok | apply Hboundary; exact Hb].
    + destruct (IH Hlater) as (pre & tok & post & -> & Htok & Hb).
      exists (String a pre), tok, post. split; [reflexivity|]. split; assumption.
  - intros (pre & tok & post & -> & Htok & Hb).
    induction pre as [|a pre IH].
    + change (matches_MIME_JSON (String "/" (tok +:+ post)) = true).
      cbn [matches_MIME_JSON]. apply orb_true_iff. left.
      apply andb_true_iff. split; [reflexivity|].
      apply json_token_at_iff. exists tok, post. split; [reflexivity|].
      split; [exact Htok | apply Hboundary; exact Hb].
    + change (matches_MIME_JSON (String a (pre +:+ "/" +:+ tok +:+ post)) = true).
      cbn [matches_MIME_JSON]. rewrite IH. apply orb_true_r.
Qed.

(** ** Round robin over many requests *)

Lemma round_robin_request `{Runtime} (w : World) (a n cap : Z)
    (opts : RequestOptions) (k : nat) :
  _loadBalancingStrategy (conn w) = ROUND_ROBIN ->
  _queue (conn w) = [] ->
  Z.of_nat (length (_hosts (conn w))) = n ->
  _activeHost (conn w) = Num a ->
  0 <= a < n ->
  to_number (_maxTasks (conn w)) = Num cap ->
  _activeTasks (conn w) < cap ->
  unpinned opts ->
  let w' := step w (EvRequest opts k) in
  _loadBalancingStrategy (conn w') = ROUND_ROBIN
  /\ _queue (conn w') = []
  /\ Z.of_nat (length (_hosts (conn w'))) = n
  /\ _activeHost (conn w') = Num ((a + 1) mod n)
  /\ _maxTasks (conn w') = _maxTasks (conn w)
  /\ _activeTasks (conn w') = _activeTasks (conn w) + 1
  /\ map fst (issued w') = map fst (issued w) ++ [Num a].
Proof.
  intros Hrr Hq Hn Ha Hrange Hmax Hact [Hhost Henc] w'.
  destruct (encode_body_ok _ _ _ Henc) as [enc Hok].
  subst w'. unfold step, exec. cbn [handle].
  rewrite (request_queues w opts k enc Hok).
  set (t := make_task (conn w) opts k (fst enc) (snd enc)).
  assert (Hq1 : _queue (conn (queued t w)) = t :: [])
    by (unfold queued; cbn [conn set_conn _queue set_queue]; rewrite Hq; reflexivity).
  assert (Hcap : at_capacity (conn (queued t w)) = false).
  { unfold at_capacity, queued. cbn [conn set_conn _activeTasks _maxTasks set_queue].
    rewrite Hmax. cbn [ge]. apply Z.leb_gt. exact Hact. }
  rewrite (runQueue_dispatch (queued t w) t [] Hq1 Hcap).
  assert (Hht : host t = None) by exact Hhost.
  rewrite Hht. cbn [default from_option id].
  change (_loadBalancingStrategy (conn (queued t w))) with (_loadBalancingStrategy (conn w)).
  change (_activeHost (conn (queued t w))) with (_activeHost (conn w)).
  change (_hosts (conn (queued t w))) with (_hosts (conn w)).
  rewrite Hrr, Ha. cbn [strategy_eqb].
  assert (Hnth : is_Some (nth_js (_hosts (conn w)) (Num a))).
  { unfold nth_js. destruct (Z.ltb_spec a 0); [lia|]. apply lookup_lt_is_Some. lia. }
  destruct Hnth as [f Hf]. rewrite Hf. cbn [snd conn issued].
  rewrite dispatched_unfold.
  cbn [_loadBalancingStrategy _queue _hosts _activeHost _maxTasks _activeTasks
       set_activeTasks set_activeHost set_queue queued conn set_conn issued].
  rewrite Hrr, Hn, Ha, map_app. repeat split; try reflexivity.
  apply rem_in_range. exact Hrange.
Qed.

(** X19. Round robin in a row.  On an idle connection under ROUND_ROBIN
    with room under the cap for all of them, requests that name no host
    go to the hosts in cyclic order: the [j]-th of them (from 0) to the
    host [(a + j) mod n], where [a] was the active host and [n] is the
    number of hosts; afterwards the active host is [(a + m) mod n] for
    [m] requests, and no task waits. *)
Theorem round_robin_cyclic_order `{Runtime}
    (reqs : list (RequestOptions * nat)) (w : World) (a n cap : Z) :
  _loadBalancingStrategy (conn w) = ROUND_ROBIN ->
  _queue (conn w) = [] ->
  Z.of_nat (length (_hosts (conn w))) = n ->
  _activeHost (conn w) = Num a ->
  0 <= a < n ->
  to_number (_maxTasks (conn w)) = Num cap ->
  _activeTasks (conn w) + Z.of_nat (length reqs) <= cap ->
  Forall (fun r => unpinned (fst r)) reqs ->
  let w' := run w (map (fun r => EvRequest (fst r) (snd r)) reqs) in
  map fst (issued w') =
    map fst (issued w)
    ++ map (fun j => Num ((a + Z.of_nat j) mod n)) (seq 0 (length reqs))
  /\ _activeHost (conn w') = Num ((a + Z.of_nat (length reqs)) mod n)
  /\ _queue (conn w') = [].
Proof.
  revert w a. induction reqs as [|[opts k] reqs IH];
    intros w a Hrr Hq Hn Ha Hrange Hmax Hroom Hreqs.
  - cbn. rewrite app_nil_r, Z.add_0_r, Z.mod_small by lia. repeat split; assumption.
  - apply Forall_cons in Hreqs. destruct Hreqs as [Hopts Hreqs].
    cbn [length] in Hroom. cbn [map run fold_left fst snd].
    destruct (round_robin_request w a n cap opts k Hrr Hq Hn Ha Hrange Hmax
                ltac:(lia) Hopts) as (Hrr1 & Hq1 & Hn1 & Ha1 & Hmax1 & Hact1 & Hiss1).
    set (w1 := step w (EvRequest opts k)) in *.
    assert (Hb : 0 <= (a + 1) mod n < n) by (apply Z.mod_pos_bound; lia).
    destruct (IH w1 ((a + 1) mod n) Hrr1 Hq1 Hn1 Ha1 Hb) as (Hiss & Hact & Hqueue).
    + rewrite Hmax1. exact Hmax.
    + rewrite Hact1. lia.
    + exact Hreqs.
    + cbn zeta in Hiss, Hact, Hqueue.
      change (fold_left step (map (fun r => EvRequest (fst r) (snd r)) reqs) w1)
        with (run w1 (map (fun r => EvRequest (fst r) (snd r)) reqs)).
      split; [|split; [|exact Hqueue]].
      * rewrite Hiss, Hiss1, <- app_assoc. f_equal. cbn [length seq map app].
        rewrite Z.add_0_r, (Z.mod_small a n) by lia. f_equal.
        rewrite <- seq_shift, map_map. apply map_ext. intros j.
        rewrite Zplus_mod_idemp_l. do 2 f_equal. lia.
      * rewrite Hact. cbn [length]. rewrite Zplus_mod_idemp_l. do 2 f_equal. lia.
Qed.

Lemma round_robin_cyclic_order_witness :
  let w := @initial_world SmallRuntime.runtime
             (Some (sample_config three_hosts ROUND_ROBIN 3 true)) 0 in
  map fst (issued (@run SmallRuntime.runtime w (requests 5))) =
  [Num 0; Num 1; Num 2; Num 0; Num 1].
Proof.
  intros w.
  refine (proj1 (@round_robin_cyclic_order SmallRuntime.runtime
    (map (fun k => (get_path "/_api/version", k)) (seq 0 5)) w 0 3 6 _ _ _ _ _ _ _ _)).
  - reflexivity.
  - reflexivity.
  - reflexivity.
  - reflexivity.
  - lia.
  - reflexivity.
  - cbn. lia.
  - repeat (apply Forall_cons; split; [split; reflexivity|]). apply Forall_nil_2.
Defined.

(** ** The queue is first in, first out *)

Lemma runQueue_queue `{Runtime} (w : World) :
  _queue (conn (snd (_runQueue w))) = _queue (conn w)
  \/ exists task, _queue (conn w) = task :: _queue (conn (snd (_runQueue w))).
Proof.
  destruct (_queue (conn w)) as [|task rest] eqn:Hq.
  { rewrite runQueue_idle by (left; exact Hq). left. exact Hq. }
  destruct (at_capacity (conn w)) eqn:Hcap.
  { rewrite runQueue_idle by (right; exact Hcap). left. exact Hq. }
  rewrite (runQueue_dispatch w task rest Hq Hcap).
  match goal with |- context [dispatched ?c ?r ?a] =>
    destruct (dispatched_fields c r a) as (_ & _ & Hdq & _) end.
  right. exists task. destruct (nth_js _ _); cbn [snd conn set_conn]; rewrite Hdq; reflexivity.
Qed.

(** X20. The queue discipline.  Every event leaves the queue as it was
    but for at most one task taken from its front and at most one task
    put at its back; tasks are never reordered and never taken from the
    middle.  Only a request or a leader redirect puts a task in the
    queue. *)
Theorem queue_is_fifo `{Runtime} (w : World) (e : Event) :
  exists (taken : nat) (added : list Task),
    _queue (conn (step w e)) = drop taken (_queue (conn w)) ++ added
    /\ (taken <= 1)%nat /\ (length added <= 1)%nat
    /\ (added <> [] ->
        (exists opts k, e = EvRequest opts k)
        \/ (exists k response u, e = EvComplete k (inr response)
                                 /\ leader_endpoint response = Some u)).
Proof.
  assert (Hrun : forall w1 added,
            _queue (conn w1) = _queue (conn w) ++ added -> (length added <= 1)%nat ->
            exists (taken : nat) (added' : list Task),
              _queue (conn (snd (_runQueue w1))) = drop taken (_queue (conn w)) ++ added'
              /\ (taken <= 1)%nat /\ (length added' <= 1)%nat
              /\ (added' <> [] -> added <> [])).
  { intros w1 added Hq1 Hlen.
    destruct (runQueue_queue w1) as [Hsame|[task Htook]].
    - exists 0%nat, added. rewrite Hsame, Hq1. cbn [drop]. repeat split; try lia. exact id.
    - rewrite Hq1 in Htook. destruct (_queue (conn w)) as [|t0 q0] eqn:Hq.
      + exists 0%nat, []. cbn [drop app] in *.
        destruct added as [|x [|y added]]; [discriminate| |cbn in Hlen; lia].
        injection Htook as _ <-. repeat split; try (cbn; lia). contradiction.
      + exists 1%nat, added. cbn [drop app] in *. injection Htook as _ <-.
        rewrite drop_0. repeat split; try lia. exact id. }
  unfold step, exec.
  destruct e as [opts k|k result|urls|key value|name]; cbn [handle].
  - destruct (encode_body (default false (ro_isBinary opts))
                (default false (ro_isJsonStream opts)) (ro_body opts)) as [enc|e] eqn:Henc.
    + rewrite (request_queues w opts k enc Henc).
      destruct (Hrun (queued (make_task (conn w) opts k (fst enc) (snd enc)) w)
                  [make_task (conn w) opts k (fst enc) (snd enc)] eq_refl ltac:(cbn; lia))
        as (taken & added & Hq & Ht & Ha & _).
      exists taken, added. repeat split; try assumption.
      intros _. left. exists opts, k. reflexivity.
    + rewrite (request_throws w opts k e Henc). exists 0%nat, [].
      rewrite drop_0, app_nil_r. repeat split; try (cbn; lia). contradiction.
  - destruct (pending w !! k) as [[t h]|] eqn:Hk.
    2:{ exists 0%nat, []. rewrite drop_0, app_nil_r.
        repeat split; try (cbn; lia). contradiction. }
    destruct result as [err|response].
    + rewrite on_complete_error.
      destruct (failover_fields h (one_task_less (conn w))) as (_ & _ & Hfq & _).
      destruct (Hrun (add_delivery (cb t) (TransportError err)
                        (set_conn (failover h (one_task_less (conn w))) (take_pending k w))) [])
        as (taken & added & Hq & Ht & Ha & Hne).
      { cbn [conn add_delivery set_conn]. rewrite Hfq, app_nil_r. reflexivity. }
      { cbn. lia. }
      exists taken, added. repeat split; try assumption.
      intros Hadded. exfalso. apply (Hne Hadded). reflexivity.
    + destruct (leader_endpoint response) as [u|] eqn:Hu.
      * rewrite (on_complete_redirect _ _ _ _ _ Hu).
        destruct (redirect_unfold t h u (one_task_less (conn w))) as (_ & _ & Hred).
        match type of Hred with _ = set_queue (_ ++ [?t']) _ =>
          destruct (Hrun (set_conn (redirect t h u (one_task_less (conn w)))
                            (take_pending k w)) [t'])
            as (taken & added & Hq & Ht & Ha & _) end.
        { cbn [conn set_conn]. rewrite Hred. reflexivity. }
        { cbn. lia. }
        exists taken, added. repeat split; try assumption.
        intros _. right. exists k, response, u. split; [reflexivity | exact Hu].
      * rewrite (on_complete_response _ _ _ _ Hu).
        destruct (classify _ _) as [o|ex].
        -- destruct (Hrun (add_delivery (cb t) o
                             (set_conn (one_task_less (conn w)) (take_pending k w))) [])
             as (taken & added & Hq & Ht & Ha & Hne).
           { cbn [conn add_delivery set_conn]. rewrite app_nil_r. reflexivity. }
           { cbn. lia. }
           exists taken, added. repeat split; try assumption.
           intros Hadded. exfalso. apply (Hne Hadded). reflexivity.
        -- exists 0%nat, []. rewrite drop_0, app_nil_r.
           repeat split; try (cbn; lia). contradiction.
  - exists 0%nat, []. rewrite drop_0, app_nil_r.
    repeat split; try (cbn; lia). contradiction.
  - exists 0%nat, []. rewrite drop_0, app_nil_r.
    repeat split; try (cbn; lia). contradiction.
  - exists 0%nat, []. rewrite drop_0, app_nil_r.
    unfold setDatabaseName, bind, get_conn.
    destruct (_databaseName (conn w)); repeat split; try (cbn; lia); contradiction.
Qed.

(** ** A request and its answer *)

(** X21. From request to errback on an idle connection.  A request that
    names no host goes to the active host; when that call completes with
    a transport error the errback gets the error, and when it completes
    with a response that is no redirect the errback gets what [resolve]
    makes of the response, with the request's own binary flag and with
    the host that answered written into the response.  Afterwards no
    call is out, nothing waits, and [_activeTasks] is what it was. *)
Theorem request_then_answer `{Runtime}
    (w : World) (a : Z) (opts : RequestOptions) (k : nat)
    (result : JsError + Response ResBody) (o : Outcome) :
  _queue (conn w) = [] ->
  pending w = [] ->
  at_capacity (conn w) = false ->
  _activeHost (conn w) = Num a ->
  0 <= a < Z.of_nat (length (_hosts (conn w))) ->
  unpinned opts ->
  no_redirect result ->
  match result with
  | inl err => o = TransportError err
  | inr response =>
      classify (default false (ro_expectBinary opts)) (with_host (Num a) response) = Ok o
  end ->
  let w1 := step w (EvRequest opts k) in
  let w2 := step w1 (EvComplete 0 result) in
  map fst (issued w1) = map fst (issued w) ++ [Num a]
  /\ delivered w1 = delivered w
  /\ delivered w2 = delivered w ++ [(k, o)]
  /\ pending w2 = []
  /\ _queue (conn w2) = []
  /\ _activeTasks (conn w2) = _activeTasks (conn w).
Proof.
  intros Hq Hp Hcap Ha Hrange [Hhost Henc] Hres Ho w1 w2.
  destruct (encode_body_ok _ _ _ Henc) as [enc Hok].
  set (t := make_task (conn w) opts k (fst enc) (snd enc)).
  assert (Hnth : is_Some (nth_js (_hosts (conn w)) (Num a))).
  { unfold nth_js. destruct (Z.ltb_spec a 0); [lia|]. apply lookup_lt_is_Some. lia. }
  destruct Hnth as [f Hf].
  assert (Hw1 : exists c1,
            w1 = {| conn := c1; pending := [(t, Num a)];
                    issued := issued w ++ [(Num a, t)]; delivered := delivered w |}
            /\ _queue c1 = [] /\ _activeTasks c1 = _activeTasks (conn w) + 1).
  { subst w1. unfold step, exec. cbn [handle].
    rewrite (request_queues w opts k enc Hok). fold t.
    assert (Hq1 : _queue (conn (queued t w)) = t :: [])
      by (unfold queued; cbn [conn set_conn _queue set_queue]; rewrite Hq; reflexivity).
    rewrite (runQueue_dispatch (queued t w) t [] Hq1 Hcap).
    assert (Hht : host t = None) by exact Hhost.
    rewrite Hht. cbn [default from_option id].
    change (_activeHost (conn (queued t w))) with (_activeHost (conn w)).
    change (_hosts (conn (queued t w))) with (_hosts (conn w)).
    rewrite Ha, Hf. cbn [snd].
    match goal with |- context [dispatched ?c ?r ?x] =>
      destruct (dispatched_fields c r x) as (_ & Hda & Hdq & _);
      exists (dispatched c r x) end.
    split; [|split; [exact Hdq | exact Hda]].
    unfold queued. cbn [pending issued delivered set_conn]. rewrite Hp. reflexivity. }
  destruct Hw1 as (c1 & Hw1 & Hq1 & Ha1).
  assert (Hcb : cb t = k) by reflexivity.
  assert (Heb : expectBinary (options t) = default false (ro_expectBinary opts))
    by reflexivity.
  split; [rewrite Hw1; cbn [issued]; rewrite map_app; reflexivity|].
  split; [rewrite Hw1; reflexivity|].
  subst w2. rewrite Hw1. unfold step, exec. cbn [handle pending lookup list_lookup].
  destruct result as [err|response].
  - subst o. rewrite on_complete_error. rewrite runQueue_idle.
    + cbn [snd delivered pending conn add_delivery set_conn take_pending delete list_delete].
      destruct (failover_fields (Num a) (one_task_less c1)) as (_ & Hfa & Hfq & _).
      split; [rewrite Hcb; reflexivity|]. split; [reflexivity|].
      split.
      * etransitivity; [exact Hfq | exact Hq1].
      * etransitivity; [exact Hfa|].
        cbn [one_task_less _activeTasks set_activeTasks]. lia.
    + left. cbn [conn add_delivery set_conn take_pending].
      destruct (failover_fields (Num a) (one_task_less c1)) as (_ & _ & Hfq & _).
      rewrite Hfq. exact Hq1.
  - rewrite (on_complete_response _ _ _ _ Hres). rewrite Heb, Ho.
    rewrite runQueue_idle by (left; exact Hq1).
    cbn [snd delivered pending conn add_delivery set_conn take_pending delete list_delete
         one_task_less _queue _activeTasks set_activeTasks].
    rewrite Hcb, Hq1, Ha1. repeat split; try reflexivity. lia.
Qed.

Lemma request_then_answer_witness :
  let w := @initial_world SmallRuntime.runtime
             (Some (sample_config three_hosts NONE 3 true)) 0 in
  let res := text_response 200 "application/json" (SmallRuntime.dq "{'version':'3.4.0'}") in
  delivered (@run SmallRuntime.runtime w
               [EvRequest (get_path "/_api/version") 7; EvComplete 0 (inr res)]) =
  [(7%nat, Success (with_body (PVal (JObj [("version", JStr "3.4.0")]))
                      (with_host (Num 0) res)))].
Proof.
  intros w res.
  refine (proj1 (proj2 (proj2 (@request_then_answer SmallRuntime.runtime w 0
            (get_path "/_api/version") 7 (inr res)
            (Success (with_body (PVal (JObj [("version", JStr "3.4.0")]))
                        (with_host (Num 0) res))) _ _ _ _ _ _ _ _)))).
  - reflexivity.
  - reflexivity.
  - reflexivity.
  - reflexivity.
  - split; [lia | reflexivity].
  - split; reflexivity.
  - reflexivity.
  - reflexivity.
Defined.

(** ** ONE_RANDOM is NONE from another start *)

Section Relabel.

Context `{Runtime}.
Variable s : LoadBalancingStrategy.
Hypothesis s_fails_over : not_round_robin s.

Lemma runQueue_relabel (w : World) :
  not_round_robin (_loadBalancingStrategy (conn w)) ->
  _runQueue (relabel s w) = (fst (_runQueue w), relabel s (snd (_runQueue w))).
Proof.
  intros Hw.
  destruct (_queue (conn w)) as [|task rest] eqn:Hq.
  { rewrite (runQueue_idle w) by (left; exact Hq).
    rewrite (runQueue_idle (relabel s w)) by (left; exact Hq). reflexivity. }
  destruct (at_capacity (conn w)) eqn:Hcap.
  { rewrite (runQueue_idle w) by (right; exact Hcap).
    rewrite (runQueue_idle (relabel s w)) by (right; exact Hcap). reflexivity. }
  rewrite (runQueue_dispatch w task rest Hq Hcap).
  rewrite (runQueue_dispatch (relabel s w) task rest Hq Hcap).
  cbn [relabel conn set_conn with_strategy _loadBalancingStrategy _activeHost _hosts
       pending issued delivered].
  unfold not_round_robin in *. rewrite s_fails_over, Hw.
  assert (Hadv : match host task with Some _ => false | None => false end = false)
    by (destruct (host task); reflexivity).
  rewrite Hadv.
  destruct (nth_js (_hosts (conn w)) (default (_activeHost (conn w)) (host task)));
    reflexivity.
Qed.

Lemma step_relabel (w : World) (e : Event) :
  not_round_robin (_loadBalancingStrategy (conn w)) ->
  step (relabel s w) e = relabel s (step w e).
Proof.
  intros Hw. unfold step, exec.
  destruct e as [opts k|k result|urls|key value|name]; cbn [handle].
  - destruct (encode_body (default false (ro_isBinary opts))
                (default false (ro_isJsonStream opts)) (ro_body opts)) as [enc|e] eqn:Henc.
    + rewrite (request_queues w opts k enc Henc).
      rewrite (request_queues (relabel s w) opts k enc Henc).
      change (queued (make_task (conn (relabel s w)) opts k (fst enc) (snd enc)) (relabel s w))
        with (relabel s (queued (make_task (conn w) opts k (fst enc) (snd enc)) w)).
      rewrite runQueue_relabel by exact Hw. reflexivity.
    + rewrite (request_throws w opts k e Henc).
      rewrite (request_throws (relabel s w) opts k e Henc). reflexivity.
  - change (pending (relabel s w)) with (pending w).
    destruct (pending w !! k) as [[t h]|] eqn:Hk; [|reflexivity].
    destruct result as [err|response].
    + rewrite !on_complete_error.
      match goal with |- snd (_runQueue ?x) = relabel s (snd (_runQueue ?y)) =>
        replace x with (relabel s y) end.
      * rewrite runQueue_relabel; [reflexivity|].
        cbn [conn add_delivery set_conn take_pending]. unfold failover.
        destruct (_ && _ && _); exact Hw.
      * unfold relabel, failover. cbn [conn add_delivery set_conn take_pending].
        cbn [with_strategy one_task_less set_activeTasks _hosts _activeHost _useFailOver].
        destruct (_ && _ && _); reflexivity.
    + destruct (leader_endpoint response) as [u|] eqn:Hu.
      * rewrite !(on_complete_redirect _ _ _ _ _ Hu).
        match goal with |- snd (_runQueue ?x) = relabel s (snd (_runQueue ?y)) =>
          replace x with (relabel s y) end.
        -- rewrite runQueue_relabel; [reflexivity|].
           cbn [conn set_conn take_pending]. unfold redirect, addToHostList. cbn.
           destruct (strict_eq _ _); exact Hw.
        -- unfold relabel, redirect, addToHostList. cbn.
           destruct (strict_eq _ _); reflexivity.
      * rewrite !(on_complete_response _ _ _ _ Hu).
        destruct (classify _ _) as [o|ex]; [|reflexivity].
        match goal with |- snd (_runQueue ?x) = relabel s (snd (_runQueue ?y)) =>
          replace x with (relabel s y) by reflexivity end.
        rewrite runQueue_relabel by exact Hw. reflexivity.
  - reflexivity.
  - reflexivity.
  - unfold setDatabaseName, bind, get_conn.
    change (_databaseName (conn (relabel s w))) with (_databaseName (conn w)).
    destruct (_databaseName (conn w)); reflexivity.
Qed.

Lemma run_relabel (es : list Event) (w : World) :
  not_round_robin (_loadBalancingStrategy (conn w)) ->
  run (relabel s w) es = relabel s (run w es).
Proof.
  revert w. induction es as [|e es IH]; intros w Hw; cbn [run fold_left].
  - reflexivity.
  - rewrite step_relabel by exact Hw.
    apply IH.
    assert (Hfix : fixed_fields (conn w) (step w e))
      by (apply step_fixed; repeat split; reflexivity).
    destruct Hfix as (Hs & _). rewrite Hs. exact Hw.
Qed.

End Relabel.

(** X22. After construction NONE and ONE_RANDOM are one and the same:
    the code asks only whether the strategy is ROUND_ROBIN.  Writing one
    of the two over the other in a connection changes nothing in any
    execution but that label: the same calls go to the same hosts, the
    same outcomes reach the same errbacks.  And a connection made with
    ONE_RANDOM is the connection made with NONE, with the drawn index as
    its active host. *)
Theorem one_random_is_none_from_another_start `{Runtime}
    (w : World) (s : LoadBalancingStrategy) (es : list Event) :
  not_round_robin (_loadBalancingStrategy (conn w)) ->
  not_round_robin s ->
  run (relabel s w) es = relabel s (run w es)
  /\ issued (run (relabel s w) es) = issued (run w es)
  /\ delivered (run (relabel s w) es) = delivered (run w es)
  /\ pending (run (relabel s w) es) = pending (run w es)
  /\ _activeHost (conn (run (relabel s w) es)) = _activeHost (conn (run w es))
  /\ (forall o draw,
        constructor (Some (cfg_with_strategy ONE_RANDOM o)) draw =
        with_strategy ONE_RANDOM
          (set_activeHost (Num draw) (constructor (Some (cfg_with_strategy NONE o)) 0))).
Proof.
  intros Hw Hs.
  assert (Hrun := run_relabel s Hs es w Hw).
  split; [exact Hrun|]. rewrite Hrun.
  repeat split; reflexivity.
Qed.

Lemma one_random_is_none_from_another_start_witness :
  let w := @initial_world SmallRuntime.runtime
             (Some (sample_config three_hosts ONE_RANDOM 3 true)) 2 in
  issued (@run SmallRuntime.runtime (relabel NONE w) (requests 2)) =
  issued (@run SmallRuntime.runtime w (requests 2)).
Proof.
  intros w.
  exact (proj1 (proj2 (@one_random_is_none_from_another_start SmallRuntime.runtime
                         w NONE (requests 2) eq_refl eq_refl))).
Defined.
